(** * MLB postseason calendar: schedule normalisation and ICS rendering

    A shallow embedding of the two scripts of the repository,
    [MLB_PostSeason.py] (class [MLBPostseasonUpdater]) and [MLB_API.py]
    (class [MLBPostseasonICSMaker]), together with the parts of Python's
    [str], [datetime] and [pytz] that they call, and the properties of the
    specification proved or refuted on that embedding.

    Conventions.
    - A Python [str] is a [string]; text outside ASCII is kept as its UTF-8
      bytes.  Only ASCII digits and ASCII white space are recognised by the
      parsers below.
    - A JSON document is a [json] value; JSON numbers are integers, as every
      number the scripts read (wins, scores, game numbers) is a count.
    - A Python call that may raise returns a [res]; [Raise e] is the
      exception, and [try_except] is a [try: ... except Exception:] block.
    - What the scripts take from their platform is a parameter: the
      US/Eastern table of pytz ([zone]), the local time zone of the machine,
      [repr] of a container, the wall clock and the file system. *)

From Stdlib Require Import ZArith List String Ascii Bool Lia DecimalString.
Import ListNotations.
Open Scope string_scope.
Open Scope Z_scope.

(** ** Exceptions *)

Inductive exn : Type :=
| TypeError
| AttributeError
| ValueError
| OverflowError
| IndexError
| OSError.

Inductive res (A : Type) : Type :=
| Ok (a : A)
| Raise (e : exn).

Arguments Ok {A} a.
Arguments Raise {A} e.

Definition bind {A B : Type} (r : res A) (k : A -> res B) : res B :=
  match r with
  | Ok a => k a
  | Raise e => Raise e
  end.

Notation "x <- r ;; k" := (bind r (fun x => k))
  (at level 61, r at next level, right associativity).

(** [try: body  except Exception: handler]. *)
Definition try_except {A : Type} (body : res A) (handler : exn -> res A) : res A :=
  match body with
  | Ok a => Ok a
  | Raise e => handler e
  end.

Definition is_ok {A : Type} (r : res A) : bool :=
  match r with Ok _ => true | Raise _ => false end.

(** ** Strings *)

Module PyStr.

Definition is_digit (c : ascii) : bool :=
  let n := N.to_nat (N_of_ascii c) in
  (Nat.leb 48 n && Nat.leb n 57)%bool.

Definition digit_val (c : ascii) : Z := Z.of_N (N_of_ascii c) - 48.

Definition digit_char (d : Z) : ascii := ascii_of_N (Z.to_N (48 + d mod 10)).

(** [%m], [%d], [%H], [%M], [%S] of strftime: two digits. *)
Definition pad2 (n : Z) : string :=
  String (digit_char (n / 10)) (String (digit_char n) "").

(** [%Y] of strftime: four digits. *)
Definition pad4 (n : Z) : string :=
  String (digit_char (n / 1000)) (String (digit_char (n / 100))
    (String (digit_char (n / 10)) (String (digit_char n) ""))).

(** [str(n)] for an int. *)
Definition str_of_int (n : Z) : string := NilZero.string_of_int (Z.to_int n).

(** [needle in hay] for two strs. *)
Fixpoint contains (needle hay : string) : bool :=
  match hay with
  | EmptyString => prefix needle ""
  | String _ hay' => (prefix needle hay || contains needle hay')%bool
  end.

Fixpoint ends_with (suffix s : string) : bool :=
  match s with
  | EmptyString => String.eqb suffix ""
  | String _ s' => (String.eqb suffix s || ends_with suffix s')%bool
  end.

(** [s.replace(c, new)] for a pattern [c] of one character. *)
Fixpoint replace_char (c : ascii) (new s : string) : string :=
  match s with
  | EmptyString => ""
  | String a s' =>
      if Ascii.eqb a c then new ++ replace_char c new s'
      else String a (replace_char c new s')
  end.

(** [s.count(c)] for a pattern [c] of one character. *)
Fixpoint count_char (c : ascii) (s : string) : Z :=
  match s with
  | EmptyString => 0
  | String a s' => (if Ascii.eqb a c then 1 else 0) + count_char c s'
  end.

(** White space of [str.split()]: tab, line feed, vertical tab, form feed,
    carriage return, the four separators 28..31 and the space. *)
Definition is_space (c : ascii) : bool :=
  let n := N.to_nat (N_of_ascii c) in
  ((Nat.leb 9 n && Nat.leb n 13) || (Nat.leb 28 n && Nat.leb n 32))%bool.

Definition flush (cur : string) (rest : list string) : list string :=
  match cur with
  | EmptyString => rest
  | _ => cur :: rest
  end.

Fixpoint split_ws_from (cur s : string) : list string :=
  match s with
  | EmptyString => flush cur []
  | String c s' =>
      if is_space c then flush cur (split_ws_from "" s')
      else split_ws_from (cur ++ String c "") s'
  end.

(** [s.split()]. *)
Definition split_ws (s : string) : list string := split_ws_from "" s.

(** [sep.join(parts)]. *)
Fixpoint join (sep : string) (parts : list string) : string :=
  match parts with
  | [] => ""
  | [p] => p
  | p :: rest => p ++ sep ++ join sep rest
  end.

Definition newline : string := String (ascii_of_nat 10) "".

(** [s.split("\n")]: the lines of a text. *)
Fixpoint lines_from (cur s : string) : list string :=
  match s with
  | EmptyString => [cur]
  | String c s' =>
      if Ascii.eqb c (ascii_of_nat 10) then cur :: lines_from "" s'
      else lines_from (cur ++ String c "") s'
  end.

Definition lines (s : string) : list string := lines_from "" s.

Definition lower (c : ascii) : ascii :=
  let n := N.to_nat (N_of_ascii c) in
  if (Nat.leb 65 n && Nat.leb n 90)%bool then ascii_of_nat (n + 32) else c.

(** Exactly [n] ASCII digits, read as a decimal number. *)
Fixpoint read_digits (n : nat) (acc : Z) (s : string) : option (Z * string) :=
  match n with
  | O => Some (acc, s)
  | S n' =>
      match s with
      | String c s' =>
          if is_digit c then read_digits n' (10 * acc + digit_val c) s' else None
      | EmptyString => None
      end
  end.

(** One or two ASCII digits, as many as there are. *)
Definition read_num2 (s : string) : option (Z * string) :=
  match s with
  | String c (String c' s') =>
      if is_digit c then
        if is_digit c' then Some (10 * digit_val c + digit_val c', s')
        else Some (digit_val c, String c' s')
      else None
  | String c EmptyString =>
      if is_digit c then Some (digit_val c, "") else None
  | EmptyString => None
  end.

(** A literal character of a strptime format; the match ignores case. *)
Definition expect_ci (c : ascii) (s : string) : option string :=
  match s with
  | String a s' => if Ascii.eqb (lower a) (lower c) then Some s' else None
  | EmptyString => None
  end.

Definition expect (c : ascii) (s : string) : option string :=
  match s with
  | String a s' => if Ascii.eqb a c then Some s' else None
  | EmptyString => None
  end.

(** The part of [s] before the first character that satisfies [p], that
    character, and what follows it. *)
Fixpoint break_at (p : ascii -> bool) (s : string) : string * option (ascii * string) :=
  match s with
  | EmptyString => ("", None)
  | String c s' =>
      if p c then ("", Some (c, s'))
      else let '(a, b) := break_at p s' in (String c a, b)
  end.

End PyStr.

(** ** The proleptic Gregorian calendar of [datetime] *)

Module Cal.

Definition is_leap (y : Z) : bool :=
  ((y mod 4 =? 0) && (negb (y mod 100 =? 0) || (y mod 400 =? 0)))%bool.

Definition days_before_year (y : Z) : Z :=
  let y' := y - 1 in y' * 365 + y' / 4 - y' / 100 + y' / 400.

Definition days_in_month (y m : Z) : Z :=
  if m =? 2 then (if is_leap y then 29 else 28)
  else if (m =? 4) || (m =? 6) || (m =? 9) || (m =? 11) then 30
  else 31.

Definition days_before_month_common (m : Z) : Z :=
  nth (Z.to_nat m) [-1; 0; 31; 59; 90; 120; 151; 181; 212; 243; 273; 304; 334] (-1).

Definition days_before_month (y m : Z) : Z :=
  days_before_month_common m + (if (2 <? m) && is_leap y then 1 else 0).

(** [_ymd2ord]: 0001-01-01 is day 1. *)
Definition ymd2ord (y m d : Z) : Z :=
  days_before_year y + days_before_month y m + d.

Definition DI400Y : Z := 146097.
Definition DI100Y : Z := 36524.
Definition DI4Y : Z := 1461.
Definition MAXORDINAL : Z := 3652059.

(** [_ord2ymd]. *)
Definition ord2ymd (n : Z) : Z * Z * Z :=
  let n := n - 1 in
  let n400 := n / DI400Y in
  let n := n mod DI400Y in
  let n100 := n / DI100Y in
  let n := n mod DI100Y in
  let n4 := n / DI4Y in
  let n := n mod DI4Y in
  let n1 := n / 365 in
  let n := n mod 365 in
  let y := n400 * 400 + 1 + n100 * 100 + n4 * 4 + n1 in
  if (n1 =? 4) || (n100 =? 4) then (y - 1, 12, 31)
  else
    let leapyear := (n1 =? 3) && (negb (n4 =? 24) || (n100 =? 3)) in
    let month := Z.shiftr (n + 50) 5 in
    let preceding :=
      days_before_month_common month + (if (2 <? month) && leapyear then 1 else 0) in
    if n <? preceding then
      let month' := month - 1 in
      let dim :=
        (if month' =? 2 then 28
         else if (month' =? 4) || (month' =? 6) || (month' =? 9) || (month' =? 11)
              then 30 else 31)
        + (if (month' =? 2) && leapyear then 1 else 0) in
      (y, month', n - (preceding - dim) + 1)
    else (y, month, n - preceding + 1).

(** [date.weekday()]: Monday is 0, Sunday is 6. *)
Definition weekday (ord : Z) : Z := (ord + 6) mod 7.

(** tzinfo objects the scripts meet. *)
Inductive tzinfo : Type :=
| PytzUTC                    (* the singleton [pytz.UTC] *)
| FixedOffset (off_us : Z)   (* [datetime.timezone]; [timezone.utc] is offset 0 *)
| ZoneLocal (off_s : Z).     (* a tzinfo of a pytz zone, with the offset in force *)

Record datetime : Type := mkdt {
  year : Z; month : Z; day : Z;
  hour : Z; minute : Z; second : Z; microsecond : Z;
  tz : option tzinfo
}.

(** The range checks of the [datetime] constructor. *)
Definition valid_date (y m d : Z) : bool :=
  (1 <=? y) && (y <=? 9999) && (1 <=? m) && (m <=? 12)
  && (1 <=? d) && (d <=? days_in_month y m).

Definition valid_time (hh mi ss us : Z) : bool :=
  (0 <=? hh) && (hh <=? 23) && (0 <=? mi) && (mi <=? 59)
  && (0 <=? ss) && (ss <=? 59) && (0 <=? us) && (us <=? 999999).

Definition datetime_new (y m d hh mi ss us : Z) (t : option tzinfo) : res datetime :=
  if valid_date y m d && valid_time hh mi ss us
  then Ok (mkdt y m d hh mi ss us t)
  else Raise ValueError.

Definition replace_tzinfo (dt : datetime) (t : option tzinfo) : datetime :=
  mkdt (year dt) (month dt) (day dt) (hour dt) (minute dt) (second dt)
       (microsecond dt) t.

(** [dt.replace(hour=hh, minute=mi, second=ss, microsecond=us)]. *)
Definition replace_time (dt : datetime) (hh mi ss us : Z) : datetime :=
  mkdt (year dt) (month dt) (day dt) hh mi ss us (tz dt).

(** [datetime.combine(dt.date(), time(hh, mi))]: a naive datetime. *)
Definition combine_date_time (dt : datetime) (hh mi : Z) : datetime :=
  mkdt (year dt) (month dt) (day dt) hh mi 0 0 None.

Definition us_per_second : Z := 1000000.
Definition us_per_day : Z := 86400 * us_per_second.

(** Seconds of the wall time since the start of day 0. *)
Definition wall_seconds (dt : datetime) : Z :=
  ymd2ord (year dt) (month dt) (day dt) * 86400
  + hour dt * 3600 + minute dt * 60 + second dt.

Definition wall_us (dt : datetime) : Z :=
  wall_seconds dt * us_per_second + microsecond dt.

(** The datetime of a wall time; OverflowError outside years 1..9999. *)
Definition of_wall_us (x : Z) (t : option tzinfo) : res datetime :=
  let days := x / us_per_day in
  let rem := x mod us_per_day in
  if (0 <? days) && (days <=? MAXORDINAL) then
    let '(y, m, d) := ord2ymd days in
    let secs := rem / us_per_second in
    Ok (mkdt y m d (secs / 3600) ((secs mod 3600) / 60) (secs mod 60)
             (rem mod us_per_second) t)
  else Raise OverflowError.

(** [dt + timedelta(microseconds=delta)]. *)
Definition add_timedelta (dt : datetime) (delta_us : Z) : res datetime :=
  of_wall_us (wall_us dt + delta_us) (tz dt).

Definition hours (h : Z) : Z := h * 3600 * us_per_second.
Definition minutes (m : Z) : Z := m * 60 * us_per_second.
Definition days (d : Z) : Z := d * us_per_day.

Definition utcoffset_us (t : tzinfo) : Z :=
  match t with
  | PytzUTC => 0
  | FixedOffset off => off
  | ZoneLocal off => off * us_per_second
  end.

(** [dt.tzinfo != pytz.UTC]: only the singleton itself is equal to it. *)
Definition tz_is_pytz_utc (dt : datetime) : bool :=
  match tz dt with
  | Some PytzUTC => true
  | _ => false
  end.

(** [dt.strftime('%Y%m%dT%H%M%SZ')].  The year is written with four
    digits (the C library of some platforms drops the leading zeros of a
    year before 1000). *)
Definition strftime_ics (dt : datetime) : string :=
  PyStr.pad4 (year dt) ++ PyStr.pad2 (month dt) ++ PyStr.pad2 (day dt) ++ "T"
  ++ PyStr.pad2 (hour dt) ++ PyStr.pad2 (minute dt) ++ PyStr.pad2 (second dt) ++ "Z".

Definition opt_res {A : Type} (o : option A) : res A :=
  match o with
  | Some a => Ok a
  | None => Raise ValueError
  end.

(** The day field of strptime's [%d]: one or two digits, or a space and
    one digit from 1 to 9. *)
Definition read_day (s : string) : option (Z * string) :=
  match s with
  | String " " (String c s') =>
      if PyStr.is_digit c && negb (Ascii.eqb c "0")
      then Some (PyStr.digit_val c, s') else None
  | _ => PyStr.read_num2 s
  end.

Definition obind {A B : Type} (o : option A) (k : A -> option B) : option B :=
  match o with
  | Some a => k a
  | None => None
  end.

(** The fields read by [strptime(s, "%Y-%m-%d")], and the rest of [s]. *)
Definition scan_ymd (s : string) : option (Z * Z * Z * string) :=
  obind (PyStr.read_digits 4 0 s) (fun '(y, s) =>
  obind (PyStr.expect_ci "-" s) (fun s =>
  obind (PyStr.read_num2 s) (fun '(m, s) =>
  obind (PyStr.expect_ci "-" s) (fun s =>
  obind (read_day s) (fun '(d, s) =>
  Some (y, m, d, s)))))).

(** [datetime.strptime(s, "%Y-%m-%d")]. *)
Definition strptime_date (s : string) : res datetime :=
  match scan_ymd s with
  | Some (y, m, d, EmptyString) => datetime_new y m d 0 0 0 0 None
  | _ => Raise ValueError
  end.

Definition scan_hms_z (s : string) : option (Z * Z * Z * string) :=
  obind (PyStr.expect_ci "T" s) (fun s =>
  obind (PyStr.read_num2 s) (fun '(hh, s) =>
  obind (PyStr.expect_ci ":" s) (fun s =>
  obind (PyStr.read_num2 s) (fun '(mi, s) =>
  obind (PyStr.expect_ci ":" s) (fun s =>
  obind (PyStr.read_num2 s) (fun '(ss, s) =>
  obind (PyStr.expect_ci "Z" s) (fun s =>
  Some (hh, mi, ss, s)))))))).

(** [datetime.strptime(s, "%Y-%m-%dT%H:%M:%SZ")]: a naive datetime. *)
Definition strptime_z (s : string) : res datetime :=
  match scan_ymd s with
  | Some (y, m, d, s) =>
      match scan_hms_z s with
      | Some (hh, mi, ss, EmptyString) => datetime_new y m d hh mi ss 0 None
      | _ => Raise ValueError
      end
  | None => Raise ValueError
  end.

(** [HH[:MM[:SS[.fff[fff]]]]] of an ISO time or offset: hour, minute,
    second, microsecond. *)
Definition parse_fraction (s : string) : option Z :=
  match String.length s with
  | 3%nat => obind (PyStr.read_digits 3 0 s) (fun '(f, _) => Some (f * 1000))
  | 6%nat => obind (PyStr.read_digits 6 0 s) (fun '(f, _) => Some f)
  | _ => None
  end.

Definition parse_hh_mm_ss_ff (s : string) : option (Z * Z * Z * Z) :=
  obind (PyStr.read_digits 2 0 s) (fun '(hh, s) =>
  match s with
  | EmptyString => Some (hh, 0, 0, 0)
  | String ":" s =>
      obind (PyStr.read_digits 2 0 s) (fun '(mi, s) =>
      match s with
      | EmptyString => Some (hh, mi, 0, 0)
      | String ":" s =>
          obind (PyStr.read_digits 2 0 s) (fun '(ss, s) =>
          match s with
          | EmptyString => Some (hh, mi, ss, 0)
          | String "." s => obind (parse_fraction s) (fun f => Some (hh, mi, ss, f))
          | _ => None
          end)
      | _ => None
      end)
  | _ => None
  end).

Definition is_sign (c : ascii) : bool := Ascii.eqb c "+" || Ascii.eqb c "-".

(** The offset [+HH:MM[:SS[.ffffff]]] of an ISO string, as a tzinfo. *)
Definition parse_iso_offset (sign : ascii) (s : string) : option tzinfo :=
  let n := String.length s in
  if Nat.eqb n 5 || Nat.eqb n 8 || Nat.eqb n 15 then
    obind (parse_hh_mm_ss_ff s) (fun '(hh, mi, ss, f) =>
    let off := (hh * 3600 + mi * 60 + ss) * us_per_second + f in
    let off := if Ascii.eqb sign "-" then - off else off in
    if (- us_per_day <? off) && (off <? us_per_day)
    then Some (FixedOffset off) else None)
  else None.

(** [datetime.fromisoformat(s)] for the grammar that Python documents up
    to version 3.10,
    [YYYY-MM-DD[*HH[:MM[:SS[.fff[fff]]]][+HH:MM[:SS[.ffffff]]]]];
    later versions read more of ISO 8601. *)
Definition fromisoformat (s : string) : res datetime :=
  opt_res (
    obind (PyStr.read_digits 4 0 s) (fun '(y, s) =>
    obind (PyStr.expect "-" s) (fun s =>
    obind (PyStr.read_digits 2 0 s) (fun '(m, s) =>
    obind (PyStr.expect "-" s) (fun s =>
    obind (PyStr.read_digits 2 0 s) (fun '(d, s) =>
    match s with
    | EmptyString =>
        if valid_date y m d then Some (mkdt y m d 0 0 0 0 None) else None
    | String _sep t =>
        let '(timestr, after) := PyStr.break_at is_sign t in
        obind (parse_hh_mm_ss_ff timestr) (fun '(hh, mi, ss, f) =>
        obind (match after with
               | None => Some None
               | Some (sign, tzstr) =>
                   obind (parse_iso_offset sign tzstr) (fun t => Some (Some t))
               end) (fun t =>
        if valid_date y m d && valid_time hh mi ss f
        then Some (mkdt y m d hh mi ss f t) else None))
    end)))))).

(** *** A time zone of pytz

    [zone_fromutc] gives, for a wall time read as UTC (microseconds), the
    offset in seconds that the zone's table has in force at that instant:
    what [tz.fromutc] adds.  [zone_localize] gives, for a local wall time,
    the offset that [tz.localize(naive)] attaches to it. *)
Record zone : Type := mkzone {
  zone_fromutc : Z -> Z;
  zone_localize : Z -> Z
}.

(** Offsets of a real zone stay within a day. *)
Definition zone_bounded (z : zone) : Prop :=
  forall x, -86400 < zone_fromutc z x < 86400 /\ -86400 < zone_localize z x < 86400.

(** [utc_dt.astimezone(zone)] for a [utc_dt] whose tzinfo is [pytz.UTC]. *)
Definition astimezone_zone (z : zone) (utc_dt : datetime) : res datetime :=
  let off := zone_fromutc z (wall_us utc_dt) in
  of_wall_us (wall_us utc_dt + off * us_per_second) (Some (ZoneLocal off)).

(** [zone.localize(naive)]. *)
Definition localize (z : zone) (naive : datetime) : datetime :=
  replace_tzinfo naive (Some (ZoneLocal (zone_localize z (wall_us naive)))).

(** [pytz.utc.localize(naive)]. *)
Definition utc_localize (naive : datetime) : datetime :=
  replace_tzinfo naive (Some PytzUTC).

(** [dt.astimezone(pytz.UTC)].  A naive [dt] is read in the local time
    zone of the machine: [system_offset] gives its offset in seconds, or
    nothing where the platform cannot tell. *)
Definition astimezone_utc (system_offset : Z -> option Z) (dt : datetime) : res datetime :=
  match tz dt with
  | Some PytzUTC => Ok dt
  | Some t => of_wall_us (wall_us dt - utcoffset_us t) (Some PytzUTC)
  | None =>
      match system_offset (wall_us dt) with
      | Some off => of_wall_us (wall_us dt - off * us_per_second) (Some PytzUTC)
      | None => Raise OverflowError
      end
  end.

(** *** US/Eastern under the rule in force since 2007

    Daylight time (UTC-4) runs from 02:00 EST on the second Sunday of March
    (07:00 UTC) to 02:00 EDT on the first Sunday of November (06:00 UTC);
    standard time is UTC-5.  pytz's table follows this rule for the years
    2007 to 2037. *)
Definition nth_sunday (y m k : Z) : Z :=
  let first := ymd2ord y m 1 in
  first + (6 - weekday first) + 7 * (k - 1).

Definition year_of_seconds (secs : Z) : Z :=
  let '(y, _, _) := ord2ymd (secs / 86400) in y.

Definition eastern_dst_utc (secs : Z) : bool :=
  let y := year_of_seconds secs in
  (nth_sunday y 3 2 * 86400 + 7 * 3600 <=? secs)
  && (secs <? nth_sunday y 11 1 * 86400 + 6 * 3600).

(** For a local wall time; [localize] resolves the hour that does not
    exist in March and the hour that occurs twice in November to standard
    time. *)
Definition eastern_dst_local (secs : Z) : bool :=
  let y := year_of_seconds secs in
  (nth_sunday y 3 2 * 86400 + 3 * 3600 <=? secs)
  && (secs <? nth_sunday y 11 1 * 86400 + 1 * 3600).

Definition US_Eastern : zone :=
  mkzone (fun us => if eastern_dst_utc (us / us_per_second) then -14400 else -18000)
         (fun us => if eastern_dst_local (us / us_per_second) then -14400 else -18000).

(** *** Further formats and the order of naive datetimes *)

(** [dt.strftime('%m/%d/%Y')] and [dt.strftime('%Y-%m-%d')]. *)
Definition strftime_mdy (dt : datetime) : string :=
  PyStr.pad2 (month dt) ++ "/" ++ PyStr.pad2 (day dt) ++ "/" ++ PyStr.pad4 (year dt).

Definition strftime_ymd (dt : datetime) : string :=
  PyStr.pad4 (year dt) ++ "-" ++ PyStr.pad2 (month dt) ++ "-" ++ PyStr.pad2 (day dt).

Fixpoint lex_le (a b : list Z) : bool :=
  match a, b with
  | [], _ => true
  | _ :: _, [] => false
  | x :: a', y :: b' => (x <? y) || ((x =? y) && lex_le a' b')
  end.

Definition fields (dt : datetime) : list Z :=
  [ year dt; month dt; day dt; hour dt; minute dt; second dt; microsecond dt ].

(** [a <= b] for two naive datetimes: their fields are compared in
    order. *)
Definition le_naive (a b : datetime) : bool := lex_le (fields a) (fields b).

(** The fields of strptime without separators between them.  Each field
    is a regular expression with alternatives; [re.match] tries them in
    order and goes back to the next one when what follows does not match.
    A field gives its readings of the front of [s] in that order. *)
Definition two_digits (p : Z -> Z -> bool) (s : string) : list (Z * string) :=
  match s with
  | String a (String b rest) =>
      if PyStr.is_digit a && PyStr.is_digit b
         && p (PyStr.digit_val a) (PyStr.digit_val b)
      then [ (10 * PyStr.digit_val a + PyStr.digit_val b, rest) ]
      else []
  | _ => []
  end.

Definition one_digit (p : Z -> bool) (s : string) : list (Z * string) :=
  match s with
  | String a rest =>
      if PyStr.is_digit a && p (PyStr.digit_val a)
      then [ (PyStr.digit_val a, rest) ]
      else []
  | EmptyString => []
  end.

Definition four_digits (s : string) : list (Z * string) :=
  match PyStr.read_digits 4 0 s with
  | Some r => [ r ]
  | None => []
  end.

Definition literal_ci (c : ascii) (s : string) : list string :=
  match PyStr.expect_ci c s with
  | Some rest => [ rest ]
  | None => []
  end.

(** [%m]: [1[0-2]|0[1-9]|[1-9]]. *)
Definition field_m (s : string) : list (Z * string) :=
  two_digits (fun a b => (a =? 1) && (b <=? 2)) s
  ++ two_digits (fun a b => (a =? 0) && (1 <=? b)) s
  ++ one_digit (fun a => 1 <=? a) s.

(** [%d]: [3[01]|[12]\d|0[1-9]|[1-9]| [1-9]]. *)
Definition field_d (s : string) : list (Z * string) :=
  two_digits (fun a b => (a =? 3) && (b <=? 1)) s
  ++ two_digits (fun a _ => (1 <=? a) && (a <=? 2)) s
  ++ two_digits (fun a b => (a =? 0) && (1 <=? b)) s
  ++ one_digit (fun a => 1 <=? a) s
  ++ match s with
     | String " " rest => one_digit (fun a => 1 <=? a) rest
     | _ => []
     end.

(** [%H]: [2[0-3]|[0-1]\d|\d]. *)
Definition field_H (s : string) : list (Z * string) :=
  two_digits (fun a b => (a =? 2) && (b <=? 3)) s
  ++ two_digits (fun a _ => a <=? 1) s
  ++ one_digit (fun _ => true) s.

(** [%M]: [[0-5]\d|\d]. *)
Definition field_M (s : string) : list (Z * string) :=
  two_digits (fun a _ => a <=? 5) s ++ one_digit (fun _ => true) s.

(** [%S]: [6[0-1]|[0-5]\d|\d]. *)
Definition field_S (s : string) : list (Z * string) :=
  two_digits (fun a b => (a =? 6) && (b <=? 1)) s
  ++ two_digits (fun a _ => a <=? 5) s
  ++ one_digit (fun _ => true) s.

(** The matches of [%Y%m%dT%H%M%SZ] at the front of [s], the one
    [re.match] finds first. *)
Definition scan_ics (s : string) : list (datetime * string) :=
  flat_map (fun '(y, s) =>
  flat_map (fun '(m, s) =>
  flat_map (fun '(d, s) =>
  flat_map (fun s =>
  flat_map (fun '(hh, s) =>
  flat_map (fun '(mi, s) =>
  flat_map (fun '(ss, s) =>
  map (fun s => (mkdt y m d hh mi ss 0 None, s)) (literal_ci "Z" s))
  (field_S s)) (field_M s)) (field_H s)) (literal_ci "T" s)) (field_d s))
  (field_m s)) (four_digits s).

(** [datetime.strptime(s, '%Y%m%dT%H%M%SZ')]: the first match has to end
    where [s] ends, and its fields have to make a date and a time. *)
Definition strptime_ics (s : string) : res datetime :=
  match scan_ics s with
  | (dt, EmptyString) :: _ =>
      datetime_new (year dt) (month dt) (day dt) (hour dt) (minute dt) (second dt) 0 None
  | _ => Raise ValueError
  end.

End Cal.

(** Conversion unfolds the wrappers of [of_wall_us] before [of_wall_us]
    itself, whose body is large. *)
Strategy 100 [Cal.of_wall_us Cal.ord2ymd].

(** ** JSON documents and the dynamic operations applied to them

    A dict keeps its fields in their order, which iteration follows; a key
    is looked up from the front. *)

#[local] Set Warnings "-register-all".

Inductive json : Type :=
| JNull
| JBool (b : bool)
| JInt (n : Z)
| JStr (s : string)
| JList (items : list json)
| JDict (fields : list (string * json)).

Module Py.

Fixpoint lookup (key : string) (fields : list (string * json)) : option json :=
  match fields with
  | [] => None
  | (k, v) :: rest => if String.eqb k key then Some v else lookup key rest
  end.

(** [d.get(key, default)]; only a dict has [get]. *)
Definition get (d : json) (key : string) (default : json) : res json :=
  match d with
  | JDict fields =>
      match lookup key fields with
      | Some v => Ok v
      | None => Ok default
      end
  | _ => Raise AttributeError
  end.

(** Truth value of a JSON value. *)
Definition truthy (v : json) : bool :=
  match v with
  | JNull => false
  | JBool b => b
  | JInt n => negb (n =? 0)
  | JStr s => negb (String.eqb s "")
  | JList items => match items with [] => false | _ => true end
  | JDict fields => match fields with [] => false | _ => true end
  end.

(** [v == s] for a str [s]: only the same str is equal to it. *)
Definition eq_str (v : json) (s : string) : bool :=
  match v with
  | JStr s' => String.eqb s' s
  | _ => false
  end.

(** [v is True]. *)
Definition is_True (v : json) : bool :=
  match v with
  | JBool true => true
  | _ => false
  end.

(** [s in v] for a str [s]: a substring of a str, an element of a list, a
    key of a dict; other values are not containers. *)
Definition in_str (s : string) (v : json) : res bool :=
  match v with
  | JStr hay => Ok (PyStr.contains s hay)
  | JList items => Ok (existsb (fun x => eq_str x s) items)
  | JDict fields => Ok (match lookup s fields with Some _ => true | None => false end)
  | _ => Raise TypeError
  end.

(** [any(keyword in v for keyword in keywords)]. *)
Fixpoint any_in (keywords : list string) (v : json) : res bool :=
  match keywords with
  | [] => Ok false
  | k :: rest => b <- in_str k v ;; if b then Ok true else any_in rest v
  end.

(** [v.count(c)] for a str [c] of one character. *)
Definition count (v : json) (c : ascii) : res Z :=
  match v with
  | JStr s => Ok (PyStr.count_char c s)
  | JList items =>
      Ok (Z.of_nat (List.length (filter (fun x => eq_str x (String c "")) items)))
  | _ => Raise AttributeError
  end.

(** [v.replace(c, new)]. *)
Definition replace (v : json) (c : ascii) (new : string) : res string :=
  match v with
  | JStr s => Ok (PyStr.replace_char c new s)
  | _ => Raise AttributeError
  end.

(** The parsers of [datetime] take a str. *)
Definition as_str (v : json) : res string :=
  match v with
  | JStr s => Ok s
  | _ => Raise TypeError
  end.

(** [for x in v]: elements of a list, keys of a dict, characters of a
    str. *)
Fixpoint chars (s : string) : list json :=
  match s with
  | EmptyString => []
  | String c s' => JStr (String c "") :: chars s'
  end.

Definition iter (v : json) : res (list json) :=
  match v with
  | JList items => Ok items
  | JDict fields => Ok (map (fun kv => JStr (fst kv)) fields)
  | JStr s => Ok (chars s)
  | _ => Raise TypeError
  end.

(** Lists and dicts cannot be hashed, so they cannot be looked up in a
    dict nor tested for membership in one. *)
Definition hashable (v : json) : bool :=
  match v with
  | JList _ | JDict _ => false
  | _ => true
  end.

(** [table.get(v, default)] and [v in table] for a table with str keys. *)
Definition table_get (table : list (string * string)) (v : json) : res (option string) :=
  if hashable v then
    match v with
    | JStr s =>
        Ok (match find (fun kv => String.eqb (fst kv) s) table with
            | Some kv => Some (snd kv)
            | None => None
            end)
    | _ => Ok None
    end
  else Raise TypeError.

(** The number a bool or an int stands for in arithmetic. *)
Definition number (v : json) : option Z :=
  match v with
  | JInt n => Some n
  | JBool b => Some (if b then 1 else 0)
  | _ => None
  end.

(** [v // k] for an int [k] that is not 0. *)
Definition floordiv (v : json) (k : Z) : res Z :=
  match number v with
  | Some n => Ok (n / k)
  | None => Raise TypeError
  end.

(** [a == b]. *)
Fixpoint eqb (a b : json) {struct a} : bool :=
  match a, b with
  | JNull, JNull => true
  | JStr x, JStr y => String.eqb x y
  | JBool x, JBool y => Bool.eqb x y
  | JInt x, JInt y => x =? y
  | JBool x, JInt y => (if x then 1 else 0) =? y
  | JInt x, JBool y => x =? (if y then 1 else 0)
  | JList l1, JList l2 =>
      (fix go (l1 l2 : list json) : bool :=
         match l1, l2 with
         | [], [] => true
         | x :: l1', y :: l2' => eqb x y && go l1' l2'
         | _, _ => false
         end) l1 l2
  | JDict d1, JDict d2 =>
      Nat.eqb (List.length d1) (List.length d2)
      && (fix go (d : list (string * json)) : bool :=
            match d with
            | [] => true
            | (k, v) :: d' =>
                match lookup k d2 with
                | Some v' => eqb v v'
                | None => false
                end && go d'
            end) d1
  | _, _ => false
  end.

(** [a > b]: numbers by value, strs and lists in lexicographic order;
    other pairs are not ordered. *)
Fixpoint gt (a b : json) {struct a} : res bool :=
  match a, b with
  | JStr x, JStr y => Ok (String.ltb y x)
  | JList l1, JList l2 =>
      (fix go (l1 l2 : list json) : res bool :=
         match l1, l2 with
         | [], _ => Ok false
         | _ :: _, [] => Ok true
         | x :: l1', y :: l2' => if eqb x y then go l1' l2' else gt x y
         end) l1 l2
  | _, _ =>
      match number a, number b with
      | Some x, Some y => Ok (y <? x)
      | _, _ => Raise TypeError
      end
  end.

(** [a >= n] for an int [n]. *)
Definition ge_int (a : json) (n : Z) : res bool :=
  match number a with
  | Some x => Ok (n <=? x)
  | None => Raise TypeError
  end.

(** [status in ['Final', 'Game Over']]. *)
Definition in_strs (v : json) (l : list string) : bool :=
  existsb (fun s => eq_str v s) l.

(** [v[key]] under the test [key in v], as the scripts guard a subscript:
    the value a dict has under the key, nothing where the test fails.  A
    str or a list that holds [key] takes no str as an index, and other
    values are not containers. *)
Definition item_if_in (key : string) (v : json) : res (option json) :=
  match v with
  | JDict fields => Ok (lookup key fields)
  | _ => b <- in_str key v ;; if b then Raise TypeError else Ok None
  end.

End Py.

(** [str(v)], as an f-string renders a value.  [repr] renders lists and
    dicts. *)
Definition py_str (repr : json -> string) (v : json) : string :=
  match v with
  | JNull => "None"
  | JBool true => "True"
  | JBool false => "False"
  | JInt n => PyStr.str_of_int n
  | JStr s => s
  | _ => repr v
  end.

(** An f-string renders a missing time as [None]. *)
Definition py_str_opt (o : option string) : string :=
  match o with
  | Some s => s
  | None => "None"
  end.

(** The file system, as far as the scripts use it: [open(path, "w")] with
    [write], [os.path.abspath], [os.path.exists] and [os.path.getsize]. *)
Record filesys : Type := mkfs {
  fs_write : string -> string -> res unit;
  fs_abspath : string -> string;
  fs_exists : string -> bool;
  fs_getsize : string -> res Z
}.

(** The lines every calendar starts with. *)
Definition ics_header : list string :=
  [ "BEGIN:VCALENDAR";
    "VERSION:2.0";
    "PRODID:-//MLB 2025 Postseason Auto-Updated//EN";
    "CALSCALE:GREGORIAN";
    "METHOD:PUBLISH";
    "X-WR-CALNAME:MLB 2025 Postseason";
    "X-WR-TIMEZONE:UTC";
    "X-PUBLISHED-TTL:PT1H" ].

Definition ics_footer : list string := [ ""; "END:VCALENDAR" ].

(** The lines of one event. *)
Definition vevent (uid dtstamp dtstart dtend summary location description : string)
  : list string :=
  [ "";
    "BEGIN:VEVENT";
    "UID:mlb-2025-" ++ uid ++ "@mlb.com";
    "DTSTAMP:" ++ dtstamp;
    "DTSTART:" ++ dtstart;
    "DTEND:" ++ dtend;
    "SUMMARY:" ++ summary;
    "LOCATION:" ++ location;
    "DESCRIPTION:" ++ description;
    "STATUS:CONFIRMED";
    "END:VEVENT" ].

(** ** MLB_PostSeason.py: class MLBPostseasonUpdater *)

Module Updater.
Section Platform.

Variable eastern : Cal.zone.            (* pytz.timezone('US/Eastern') *)
Variable seoul : Cal.zone.              (* pytz.timezone('Asia/Seoul') *)
Variable system_offset : Z -> option Z. (* the local time zone of the machine *)
Variable repr : json -> string.
Variable clock : nat -> Cal.datetime.   (* successive readings of datetime.now(pytz.UTC) *)

Definition keywords : list string := [ "TBD"; "Winner"; "Lower"; "Higher" ].

(** The date of [utc_dt] in Eastern time, at 15:08 Eastern.  The source
    writes these three statements out twice. *)
Definition eastern_1508 (utc_dt : Cal.datetime) : res Cal.datetime :=
  et <- Cal.astimezone_zone eastern utc_dt ;;
  Ok (Cal.localize eastern (Cal.combine_date_time et 15 8)).

(** The first half of the [try] block of [format_game_time]: the chain of
    tests that sets [dt]. *)
Definition parse_game_datetime (game_datetime away_team home_team : json)
  : res (option Cal.datetime) :=
  undetermined <-
    (if negb (Py.truthy game_datetime) then Ok true
     else a <- Py.any_in keywords away_team ;;
          if a then Ok true else Py.any_in keywords home_team) ;;
  if undetermined then
    s <- Py.as_str game_datetime ;;
    utc_dt <- Cal.strptime_z s ;;
    dt <- eastern_1508 (Cal.replace_tzinfo utc_dt (Some Cal.PytzUTC)) ;;
    Ok (Some dt)
  else
    has_z <- Py.in_str "Z" game_datetime ;;
    if has_z then
      s <- Py.as_str game_datetime ;;
      utc_dt <- Cal.strptime_z s ;;
      let utc_dt := Cal.replace_tzinfo utc_dt (Some Cal.PytzUTC) in
      if Cal.minute utc_dt =? 33 then
        dt <- eastern_1508 utc_dt ;; Ok (Some dt)
      else
        s' <- Py.replace game_datetime "Z" "+00:00" ;;
        dt <- Cal.fromisoformat s' ;; Ok (Some dt)
    else
      has_plus <- Py.in_str "+" game_datetime ;;
      has_offset <-
        (if has_plus then Ok true
         else c <- Py.count game_datetime "-" ;; Ok (2 <? c)) ;;
      if has_offset then
        s <- Py.as_str game_datetime ;;
        dt <- Cal.fromisoformat s ;; Ok (Some dt)
      else
        has_t <- Py.in_str "T" game_datetime ;;
        if has_t then
          s <- Py.as_str game_datetime ;;
          dt <- Cal.fromisoformat s ;;
          Ok (Some (match Cal.tz dt with
                    | None => Cal.utc_localize dt
                    | Some _ => dt
                    end))
        else
          s <- Py.as_str game_datetime ;;
          dt <- Cal.strptime_date s ;;
          Ok (Some (Cal.localize eastern
                      (Cal.replace_time dt 15 8 (Cal.second dt) (Cal.microsecond dt)))).

(** The second half: to UTC, then to the wire form, with the end three
    hours and a half later. *)
Definition to_ics_times (dt : option Cal.datetime)
  : res (option string * option string) :=
  match dt with
  | None => Ok (None, None)
  | Some dt =>
      dt_utc <-
        (if negb (Cal.tz_is_pytz_utc dt) then Cal.astimezone_utc system_offset dt
         else Ok dt) ;;
      let start_time := Cal.strftime_ics dt_utc in
      end_dt <- Cal.add_timedelta dt_utc (Cal.hours 3 + Cal.minutes 30) ;;
      let end_time := Cal.strftime_ics end_dt in
      (* the time is also printed in Seoul time *)
      _ <- Cal.astimezone_zone seoul dt_utc ;;
      Ok (Some start_time, Some end_time)
  end.

(** The body of the [try] block of [format_game_time]. *)
Definition format_game_time_try (game_datetime away_team home_team : json)
  : res (option string * option string) :=
  dt <- parse_game_datetime game_datetime away_team home_team ;;
  to_ics_times dt.

Definition format_game_time (game_datetime away_team home_team : json)
  : option string * option string :=
  match format_game_time_try game_datetime away_team home_team with
  | Ok times => times
  | Raise _ => (None, None)
  end.

Definition type_map : list (string * string) :=
  [ ("F", "WC"); ("D", "DS"); ("L", "CS"); ("W", "WS") ].

Definition get_series_name (game_type series_desc : json) : res string :=
  found <- Py.table_get type_map game_type ;;
  let series_name := match found with Some s => s | None => "Postseason" end in
  by_league <-
    (if Py.truthy series_desc then
       american <-
         (a <- Py.in_str "American League" series_desc ;;
          if a then Ok true else Py.in_str "AL" series_desc) ;;
       if american then
         Ok (if Py.eq_str game_type "D" then Some "ALDS"
             else if Py.eq_str game_type "L" then Some "ALCS"
             else None)
       else
         national <-
           (a <- Py.in_str "National League" series_desc ;;
            if a then Ok true else Py.in_str "NL" series_desc) ;;
         if national then
           Ok (if Py.eq_str game_type "D" then Some "NLDS"
               else if Py.eq_str game_type "L" then Some "NLCS"
               else None)
         else Ok None
     else Ok None) ;;
  match by_league with
  | Some name => Ok name
  | None =>
      if Py.eq_str game_type "F" then Ok "WC"
      else if Py.eq_str game_type "W" then Ok "WS"
      else Ok series_name
  end.

Definition special_cases : list (string * string) :=
  [ ("Los Angeles Dodgers", "LA Dodgers");
    ("Los Angeles Angels", "LA Angels");
    ("New York Yankees", "NY Yankees");
    ("New York Mets", "NY Mets");
    ("Chicago White Sox", "Chi White Sox");
    ("Chicago Cubs", "Chi Cubs");
    ("San Francisco Giants", "SF Giants");
    ("San Diego Padres", "San Diego");
    ("Tampa Bay Rays", "Tampa Bay") ].

Definition get_team_location (full_team_name : json) : res string :=
  special <- Py.table_get special_cases full_team_name ;;
  match special with
  | Some short => Ok short
  | None =>
      match full_team_name with
      | JStr name =>
          let words := PyStr.split_ws name in
          if (Nat.ltb 1 (List.length words) && PyStr.ends_with "." (nth 0 words ""))%bool
          then Ok (nth 0 words "" ++ " " ++ nth 1 words "")
          else
            kw <- Py.any_in keywords full_team_name ;;
            if kw then Ok name
            else match words with
                 | w0 :: _ => Ok w0
                 | [] => Raise IndexError
                 end
      | _ => Raise AttributeError     (* no [split] *)
      end
  end.

Definition final_states : list string := [ "Final"; "Game Over" ].

Definition create_event_summary (game : json) : res string :=
  away_team_full <- Py.get game "away_name" (JStr "TBD") ;;
  home_team_full <- Py.get game "home_name" (JStr "TBD") ;;
  away_team <- get_team_location away_team_full ;;
  home_team <- get_team_location home_team_full ;;
  game_type <- Py.get game "game_type" (JStr "") ;;
  series_desc <- Py.get game "series_description" (JStr "") ;;
  game_number <- Py.get game "game_number" (JInt 1) ;;
  game_num <- Py.get game "series_game_number" game_number ;;
  series_name <- get_series_name game_type series_desc ;;
  status <- Py.get game "status" (JStr "") ;;
  if Py.in_strs status final_states then
    away_score <- Py.get game "away_score" (JInt 0) ;;
    home_score <- Py.get game "home_score" (JInt 0) ;;
    Ok ("✓ " ++ series_name ++ " " ++ py_str repr game_num ++ ": "
        ++ away_team ++ " " ++ py_str repr away_score ++ " @ "
        ++ home_team ++ " " ++ py_str repr home_score)
  else
    Ok (series_name ++ " " ++ py_str repr game_num ++ ": "
        ++ away_team ++ " @ " ++ home_team).

Definition create_event_description (game : json) : res string :=
  series_desc <- Py.get game "series_description" (JStr "") ;;
  status <- Py.get game "status" (JStr "") ;;
  venue <- Py.get game "venue_name" (JStr "TBD") ;;
  game_type <- Py.get game "game_type" (JStr "") ;;
  let desc_lines :=
    app (if Py.truthy series_desc then [ "Series: " ++ py_str repr series_desc ] else [])
        [ "Game Type: " ++ py_str repr game_type;
          "Status: " ++ py_str repr status;
          "Venue: " ++ py_str repr venue ] in
  final_lines <-
    (if Py.in_strs status final_states then
       away_score <- Py.get game "away_score" (JInt 0) ;;
       home_score <- Py.get game "home_score" (JInt 0) ;;
       away_name <- Py.get game "away_name" (JStr "Away") ;;
       home_name <- Py.get game "home_name" (JStr "Home") ;;
       Ok [ "\nFinal Score:";
            py_str repr away_name ++ ": " ++ py_str repr away_score;
            py_str repr home_name ++ ": " ++ py_str repr home_score ]
     else Ok []) ;;
  Ok (PyStr.join "\n" (app desc_lines final_lines)).

(** One turn of the loop of [generate_ics_content].  The state is the
    lines so far and the number of clock readings taken. *)
Definition render_game (game : json) (st : list string * nat)
  : res (list string * nat) :=
  let '(ics_lines, k) := st in
  first <- Py.get game "game_datetime" JNull ;;
  game_datetime <-
    (if Py.truthy first then Ok first else Py.get game "game_date" JNull) ;;
  away_team <- Py.get game "away_name" (JStr "TBD") ;;
  home_team <- Py.get game "home_name" (JStr "TBD") ;;
  if negb (Py.truthy game_datetime) then Ok st
  else
    let '(start_time, end_time) := format_game_time game_datetime away_team home_team in
    match start_time with
    | None => Ok st
    | Some "" => Ok st
    | Some start =>
        game_id <- Py.get game "game_id" (JStr "") ;;
        summary <- create_event_summary game ;;
        description <- create_event_description game ;;
        location <- Py.get game "venue_name" (JStr "TBD") ;;
        Ok (app ics_lines
                (vevent (py_str repr game_id) (Cal.strftime_ics (clock k))
                        start (py_str_opt end_time) summary
                        (py_str repr location) description),
            S k)
    end.

Fixpoint render_games (games : list json) (st : list string * nat)
  : res (list string * nat) :=
  match games with
  | [] => Ok st
  | game :: rest => st' <- render_game game st ;; render_games rest st'
  end.

(** The lines joined by [generate_ics_content]. *)
Definition generate_ics_lines (games : list json) : res (list string) :=
  st <- render_games games (ics_header, O) ;;
  Ok (app (fst st) ics_footer).

Definition generate_ics_content (games : list json) : res string :=
  ics_lines <- generate_ics_lines games ;;
  Ok (PyStr.join PyStr.newline ics_lines).

(** [update_ics_file], from the two fetched schedules on: [schedule] is
    what [get_postseason_schedule] returned and [alternative] what
    [get_alternative_schedule] returns.  The result is [None]; printing is
    left out. *)
Definition update_ics_file (fs : filesys) (output_file : string)
    (schedule alternative : list json) : res unit :=
  let games := match schedule with [] => alternative | _ => schedule end in
  match games with
  | [] => Ok tt
  | first_game :: _ =>
      _ <- Py.get first_game "game_date" JNull ;;
      raw <- Py.get first_game "game_date" (JStr "") ;;
      (* the start printed here was converted to Seoul time once already,
         inside format_game_time *)
      let _ := format_game_time raw (JStr "") (JStr "") in
      ics_content <- generate_ics_content games ;;
      _ <- fs_write fs output_file ics_content ;;
      Ok tt
  end.

(** [main] without [--watch]: one update.  The parsing of the arguments
    is left out. *)
Definition main (fs : filesys) (output : string) (schedule alternative : list json)
  : res unit :=
  update_ics_file fs output schedule alternative.

(** *** Fetching the schedule

    What the script asks of the statsapi package is a parameter:
    [statsapi.schedule(start_date, end_date)], a list of games, and
    [statsapi.get(endpoint, params)], a document. *)
Variable statsapi_schedule : string -> string -> res (list json).
Variable statsapi_get : string -> json -> res json.

Definition postseason_start : Cal.datetime := Cal.mkdt 2025 9 30 0 0 0 0 None.
Definition postseason_end : Cal.datetime := Cal.mkdt 2025 11 2 0 0 0 0 None.
Definition postseason_game_types : list string := [ "F"; "D"; "L"; "W" ].

(** The [for] loop of [get_postseason_schedule] over the schedule of one
    date.  [games] is the list the loop appends to; it is returned as the
    loop left it, with the error of the game that ended it. *)
Fixpoint append_postseason_games (schedule games : list json) : list json * res unit :=
  match schedule with
  | [] => (games, Ok tt)
  | game :: rest =>
      match Py.get game "game_type" (JStr "") with
      | Ok game_type =>
          if Py.in_strs game_type postseason_game_types
          then append_postseason_games rest (app games [ game ])
          else append_postseason_games rest games
      | Raise e => (games, Raise e)
      end
  end.

(** The [try] block for one date: an error is printed, and the games
    appended before it stay in the list. *)
Definition fetch_date (date_str : string) (games : list json) : list json :=
  match statsapi_schedule date_str date_str with
  | Ok schedule => fst (append_postseason_games schedule games)
  | Raise _ => games
  end.

(** The [while] loop over the dates, with a bound on its turns. *)
Fixpoint schedule_loop (fuel : nat) (current_date : Cal.datetime) (games : list json)
  : option (res (list json)) :=
  match fuel with
  | O => None
  | S fuel' =>
      if Cal.le_naive current_date postseason_end then
        let games := fetch_date (Cal.strftime_mdy current_date) games in
        match Cal.add_timedelta current_date (Cal.days 1) with
        | Ok next => schedule_loop fuel' next games
        | Raise e => Some (Raise e)
        end
      else Some (Ok games)
  end.

Definition get_postseason_schedule (fuel : nat) : option (res (list json)) :=
  schedule_loop fuel postseason_start [].

(** [game_data.get('teams', {}).get(side, {})] and the two chains that
    continue it. *)
Definition side_of (game_data : json) (side : string) : res json :=
  teams <- Py.get game_data "teams" (JDict []) ;;
  Py.get teams side (JDict []).

Definition team_name_of (game_data : json) (side : string) : res json :=
  s <- side_of game_data side ;;
  team <- Py.get s "team" (JDict []) ;;
  Py.get team "name" (JStr "TBD").

Definition score_of (game_data : json) (side : string) : res json :=
  s <- side_of game_data side ;;
  Py.get s "score" (JInt 0).

(** The body of the [try] block of [parse_game_data]. *)
Definition parse_game_data_try (game_data : json) : res json :=
  (* what is printed first *)
  _ <- team_name_of game_data "away" ;;
  _ <- team_name_of game_data "home" ;;
  _ <- Py.get game_data "gameDate" JNull ;;
  _ <- Py.get game_data "officialDate" JNull ;;
  game_id <- Py.get game_data "gamePk" (JStr "") ;;
  game_type <- Py.get game_data "gameType" (JStr "") ;;
  game_date <- Py.get game_data "gameDate" (JStr "") ;;
  game_datetime <- Py.get game_data "gameDate" (JStr "") ;;
  status_dict <- Py.get game_data "status" (JDict []) ;;
  status <- Py.get status_dict "detailedState" (JStr "Scheduled") ;;
  away_name <- team_name_of game_data "away" ;;
  home_name <- team_name_of game_data "home" ;;
  away_score <- score_of game_data "away" ;;
  home_score <- score_of game_data "home" ;;
  venue <- Py.get game_data "venue" (JDict []) ;;
  venue_name <- Py.get venue "name" (JStr "TBD") ;;
  series_description <- Py.get game_data "seriesDescription" (JStr "") ;;
  series_game_number <- Py.get game_data "seriesGameNumber" (JInt 1) ;;
  game_number <- Py.get game_data "gameNumber" (JInt 1) ;;
  let game_info :=
    [ ("game_id", game_id);
      ("game_type", game_type);
      ("game_date", game_date);
      ("game_datetime", game_datetime);
      ("status", status);
      ("away_name", away_name);
      ("home_name", home_name);
      ("away_score", away_score);
      ("home_score", home_score);
      ("venue_name", venue_name);
      ("series_description", series_description);
      ("series_game_number", series_game_number);
      ("game_number", game_number) ] in
  linescore <- Py.item_if_in "linescore" game_data ;;
  inning_field <-
    match linescore with
    | Some linescore =>
        inning <- Py.get linescore "currentInning" (JStr "") ;;
        inning_state <- Py.get linescore "inningState" (JStr "") ;;
        if Py.truthy inning
        then Ok [ ("inning", JStr (py_str repr inning_state ++ " " ++ py_str repr inning)) ]
        else Ok []
    | None => Ok []
    end ;;
  Ok (JDict (app game_info inning_field)).

Definition parse_game_data (game_data : json) : option json :=
  match parse_game_data_try game_data with
  | Ok game_info => Some game_info
  | Raise _ => None
  end.

Definition season_params : json :=
  JDict [ ("sportId", JInt 1); ("seasonId", JInt 2025) ].

Definition schedule_params : json :=
  JDict [ ("sportId", JInt 1);
          ("startDate", JStr (Cal.strftime_ymd postseason_start));
          ("endDate", JStr (Cal.strftime_ymd postseason_end));
          ("gameType", JStr "F,D,L,W") ].

(** The inner loop of [get_alternative_schedule], over the games of a
    date. *)
Fixpoint append_parsed_games (raw games : list json) : list json :=
  match raw with
  | [] => games
  | game :: rest =>
      match parse_game_data game with
      | Some game_info =>
          if Py.truthy game_info
          then append_parsed_games rest (app games [ game_info ])
          else append_parsed_games rest games
      | None => append_parsed_games rest games
      end
  end.

(** The outer loop, over the dates; [games] is returned as the loop left
    it. *)
Fixpoint append_dates (dates games : list json) : list json * res unit :=
  match dates with
  | [] => (games, Ok tt)
  | date_entry :: rest =>
      match (games_field <- Py.get date_entry "games" (JList []) ;; Py.iter games_field) with
      | Ok raw => append_dates rest (append_parsed_games raw games)
      | Raise e => (games, Raise e)
      end
  end.

Definition get_alternative_schedule : list json :=
  match (season <- statsapi_get "season" season_params ;;
         schedule_data <- statsapi_get "schedule" schedule_params ;;
         found <- Py.item_if_in "dates" schedule_data ;;
         match found with
         | Some dates_field =>
             dates <- Py.iter dates_field ;;
             Ok (fst (append_dates dates []))
         | None => Ok []
         end) with
  | Ok games => games
  | Raise _ => []   (* an error before the loops: nothing was appended *)
  end.

(** The lines of [update_ics_file] that print the times of the first
    game: its start is read back from the wire form and shown in Seoul
    time. *)
Definition first_game_time_info (first_game : json) : res unit :=
  _ <- Py.get first_game "game_date" JNull ;;
  raw <- Py.get first_game "game_date" (JStr "") ;;
  let '(start, _) := format_game_time raw (JStr "") (JStr "") in
  match start with
  | None => Ok tt
  | Some "" => Ok tt
  | Some start =>
      dt_utc <- Cal.strptime_ics start ;;
      let dt_utc := Cal.utc_localize dt_utc in
      _ <- Cal.astimezone_zone seoul dt_utc ;;
      Ok tt
  end.

Definition live_states : list string := [ "In Progress"; "Live" ].

(** The loop of [get_live_games]. *)
Fixpoint append_live_games (schedule live_games : list json) : res (list json) :=
  match schedule with
  | [] => Ok live_games
  | game :: rest =>
      game_type <- Py.get game "game_type" (JStr "") ;;
      status <- Py.get game "status" (JStr "") ;;
      if Py.in_strs game_type postseason_game_types && Py.in_strs status live_states
      then append_live_games rest (app live_games [ game ])
      else append_live_games rest live_games
  end.

(** [now] is the reading of [datetime.now()]. *)
Definition get_live_games (now : Cal.datetime) : list json :=
  let today := Cal.strftime_mdy now in
  match (schedule <- statsapi_schedule today today ;; append_live_games schedule []) with
  | Ok live_games => live_games
  | Raise _ => []
  end.

(** The test the script makes before it calls [main]: outside the
    period it prints a message and exits. *)
Definition in_postseason_period (today : Cal.datetime) : bool :=
  ((Cal.month today =? 9) && (28 <=? Cal.day today))
  || (Cal.month today =? 10)
  || ((Cal.month today =? 11) && (Cal.day today <=? 3)).

End Platform.
End Updater.

(** ** MLB_API.py: class MLBPostseasonICSMaker *)

Module Maker.
Section Platform.

Variable system_offset : Z -> option Z. (* the local time zone of the machine *)
Variable repr : json -> string.
Variable clock : nat -> Cal.datetime.   (* successive readings of datetime.now(pytz.UTC) *)

Definition empty_dict : json := JDict [].

Definition series_type_map : list (string * string) :=
  [ ("F", "WC"); ("D", "DS"); ("L", "CS"); ("W", "WS") ].

(** The loop over the characters of the game type: the first one that is
    a key of the map decides. *)
Fixpoint find_series_type (items : list json) : res (option string) :=
  match items with
  | [] => Ok None
  | c :: rest =>
      found <- Py.table_get series_type_map c ;;
      match found with
      | Some t => Ok (Some t)
      | None => find_series_type rest
      end
  end.

Definition get_series_name (game : json) : res string :=
  teams <- Py.get game "teams" empty_dict ;;
  gamesInSeries <- Py.get game "gamesInSeries" empty_dict ;;
  away_team <- Py.get teams "away" empty_dict ;;
  home_team <- Py.get teams "home" empty_dict ;;
  game_type <- Py.get game "gameType" (JStr "") ;;
  status <- Py.get game "status" empty_dict ;;
  status_code <- Py.get status "statusCode" (JStr "") ;;
  series_game_number <- Py.get game "seriesGameNumber" (JInt 1) ;;
  away <- Py.get away_team "team" empty_dict ;;
  away_name <- Py.get away "abbreviation" (JStr "TBD") ;;
  home <- Py.get home_team "team" empty_dict ;;
  home_name <- Py.get home "abbreviation" (JStr "TBD") ;;
  away <- Py.get away_team "team" empty_dict ;;
  away_name_shortName <- Py.get away "shortName" (JStr "TBD") ;;
  home <- Py.get home_team "team" empty_dict ;;
  home_name_shortName <- Py.get home "shortName" (JStr "TBD") ;;
  home <- Py.get home_team "team" empty_dict ;;
  home_league <- Py.get home "league" empty_dict ;;
  league <- Py.get home_league "abbreviation" (JStr "") ;;
  away_record <- Py.get away_team "leagueRecord" empty_dict ;;
  away_wins <- Py.get away_record "wins" (JInt 0) ;;
  home_record <- Py.get home_team "leagueRecord" empty_dict ;;
  home_wins <- Py.get home_record "wins" (JInt 0) ;;
  away_score <- Py.get away_team "score" (JStr "") ;;
  home_score <- Py.get home_team "score" (JStr "") ;;
  half <- Py.floordiv gamesInSeries 2 ;;
  let wins_needed := half + 1 in
  away_ahead <- Py.gt away_wins home_wins ;;
  series_record <-
    (if away_ahead then
       clinched <- Py.ge_int away_wins wins_needed ;;
       if clinched then Ok (" 🏆️ " ++ py_str repr away_name_shortName ++ " Wins")
       else Ok ("(" ++ py_str repr away_wins ++ "-" ++ py_str repr home_wins ++ ") "
                ++ py_str repr away_name_shortName ++ " Leads")
     else
       home_ahead <- Py.gt home_wins away_wins ;;
       if home_ahead then
         clinched <- Py.ge_int home_wins wins_needed ;;
         if clinched then Ok (" 🏆️ " ++ py_str repr home_name_shortName ++ " Wins")
         else Ok ("(" ++ py_str repr away_wins ++ "-" ++ py_str repr home_wins ++ ") "
                  ++ py_str repr home_name_shortName ++ " Leads")
       else
         Ok ("(" ++ py_str repr away_wins ++ "-" ++ py_str repr home_wins ++ ")  Tied "
             ++ py_str repr away_name ++ "-" ++ py_str repr home_name)) ;;
  is_finished <- Py.in_str "F" status_code ;;
  let team_score :=
    if is_finished then ""
    else py_str repr away_name_shortName ++ " - " ++ py_str repr home_name_shortName in
  game_type_chars <- Py.iter game_type ;;
  series_type <- find_series_type game_type_chars ;;
  match series_type with
  | None => Ok team_score
  | Some series_type =>
      let series_prefix :=
        if String.eqb series_type "WS"
        then series_type ++ py_str repr series_game_number
        else py_str repr league ++ series_type ++ py_str repr series_game_number in
      if is_finished then Ok (series_prefix ++ series_record ++ " " ++ team_score)
      else Ok (series_prefix ++ " " ++ team_score)
  end.

(** The conversion both branches of [get_game_date_time] end with: to UTC,
    formatted, with the end three hours later. *)
Definition start_and_end (local : Cal.datetime) : res (string * string) :=
  utc_time <- Cal.astimezone_utc system_offset local ;;
  let formatted_start_time := Cal.strftime_ics utc_time in
  end_time <- Cal.add_timedelta utc_time (Cal.hours 3) ;;
  Ok (formatted_start_time, Cal.strftime_ics end_time).

Definition get_game_date_time (game : json) : res (string * string) :=
  status_dict <- Py.get game "status" empty_dict ;;
  status <- Py.get status_dict "startTimeTBD" (JBool false) ;;
  game_start_date <- Py.get game "gameDate" (JStr "") ;;
  if Py.is_True status then
    if Py.truthy game_start_date then
      try_except
        (s <- Py.replace game_start_date "Z" "+00:00" ;;
         game_date <- Cal.fromisoformat s ;;
         next_day <- Cal.add_timedelta game_date (Cal.days 1) ;;
         let next_day_0800 := Cal.replace_time next_day 0 8 0 0 in
         start_and_end next_day_0800)
        (fun _ => Ok ("", ""))
    else Ok ("", "")
  else
    if Py.truthy game_start_date then
      try_except
        (s <- Py.replace game_start_date "Z" "+00:00" ;;
         game_date <- Cal.fromisoformat s ;;
         start_and_end game_date)
        (fun _ => Ok ("", ""))
    else Ok ("", "").

Definition get_description (game : json) : res string :=
  teams <- Py.get game "teams" empty_dict ;;
  gamesInSeries <- Py.get game "gamesInSeries" empty_dict ;;
  away_team <- Py.get teams "away" empty_dict ;;
  home_team <- Py.get teams "home" empty_dict ;;
  game_type <- Py.get game "gameType" (JStr "") ;;
  status <- Py.get game "status" empty_dict ;;
  status_code <- Py.get status "statusCode" (JStr "") ;;
  away <- Py.get away_team "team" empty_dict ;;
  away_name_shortName <- Py.get away "shortName" (JStr "TBD") ;;
  home <- Py.get home_team "team" empty_dict ;;
  home_name_shortName <- Py.get home "shortName" (JStr "TBD") ;;
  away_score <- Py.get away_team "score" (JStr "") ;;
  home_score <- Py.get home_team "score" (JStr "") ;;
  is_finished <- Py.in_str "F" status_code ;;
  if is_finished then
    Ok (py_str repr away_name_shortName ++ " " ++ py_str repr away_score ++ " - "
        ++ py_str repr home_name_shortName ++ " " ++ py_str repr home_score)
  else
    Ok (py_str repr away_name_shortName ++ " - " ++ py_str repr home_name_shortName).

(** The dict built by [makeViewModel]. *)
Record game_info : Type := mk_info {
  game_PK : json;
  game_start_time : string;
  game_end_time : string;
  description : string;
  location : json;
  summary : string
}.

Definition makeViewModel (game : json) : res game_info :=
  summary <- get_series_name game ;;
  times <- get_game_date_time game ;;
  description <- get_description game ;;
  game_pk <- Py.get game "gamePk" (JStr "") ;;
  venue <- Py.get game "venue" empty_dict ;;
  location <- Py.get venue "name" (JStr "TBD") ;;
  Ok (mk_info game_pk (fst times) (snd times) description location summary).

(** One turn of the inner loop of [generate_ics_content].  The dict of
    [makeViewModel] is never empty, so its test is left out. *)
Definition render_game (game : json) (st : list string * nat)
  : res (list string * nat) :=
  let '(ics_lines, k) := st in
  info <- makeViewModel game ;;
  let start_time := game_start_time info in
  let end_time := game_end_time info in
  if (String.eqb start_time "" || String.eqb end_time "")%bool then Ok st
  else
    Ok (app ics_lines
            (vevent (py_str repr (game_PK info)) (Cal.strftime_ics (clock k))
                    start_time end_time (summary info)
                    (py_str repr (location info)) (description info)),
        S k).

Fixpoint render_games (games : list json) (st : list string * nat)
  : res (list string * nat) :=
  match games with
  | [] => Ok st
  | game :: rest => st' <- render_game game st ;; render_games rest st'
  end.

(** The outer loop, over the dates. *)
Fixpoint render_dates (dates : list json) (st : list string * nat)
  : res (list string * nat) :=
  match dates with
  | [] => Ok st
  | date_data :: rest =>
      games_field <- Py.get date_data "games" (JList []) ;;
      games <- Py.iter games_field ;;
      st' <- render_games games st ;;
      render_dates rest st'
  end.

(** The lines joined by [generate_ics_content]. *)
Definition generate_ics_lines (games_data : json) : res (list string) :=
  dates_field <- Py.get games_data "dates" (JList []) ;;
  dates <- Py.iter dates_field ;;
  st <- render_dates dates (ics_header, O) ;;
  Ok (app (fst st) ics_footer).

Definition generate_ics_content (games_data : json) : res string :=
  ics_lines <- generate_ics_lines games_data ;;
  Ok (PyStr.join PyStr.newline ics_lines).

(** The body of the [try] block of [save_ics_file]; printing is left
    out. *)
Definition save_ics_file_try (fs : filesys) (output_file : string) (games_data : json)
  : res bool :=
  ics_content <- generate_ics_content games_data ;;
  let absolute_path := fs_abspath fs output_file in
  _ <- fs_write fs output_file ics_content ;;
  _ <- (if fs_exists fs absolute_path then
          size <- fs_getsize fs absolute_path ;; Ok tt
        else Ok tt) ;;
  Ok true.

Definition save_ics_file (fs : filesys) (output_file : string) (games_data : json)
  : res bool :=
  try_except (save_ics_file_try fs output_file games_data) (fun _ => Ok false).

(** [main]: [games_data] is what [get_postseason_schedule] returned, the
    document or the empty dict after a failed request.  Either message is
    printed and the run ends. *)
Definition main (fs : filesys) (output : string) (games_data : json) : res unit :=
  saved <- save_ics_file fs output games_data ;;
  if (saved : bool) then Ok tt else Ok tt.

(** *** Fetching the schedule

    A response of [requests.get]: what [raise_for_status] and [json] do
    on it. *)
Record http_response : Type := mk_response {
  raise_for_status : res unit;
  response_json : res json
}.

Variable requests_get : string -> json -> res http_response.

Definition schedule_url : string := "https://statsapi.mlb.com/api/v1/schedule".

Definition schedule_params : json :=
  JDict [ ("startDate", JStr "09/30/2025");
          ("endDate", JStr "11/02/2025");
          ("sportId", JInt 1);
          ("hydrate",
           JStr "team(league),decisions,probablePitcher,linescore,stats(group=[pitching],type=season,sportId=1),currentTeam") ].

(** Whatever is raised, one of the three handlers prints it, and the
    empty dict is returned. *)
Definition get_postseason_schedule : json :=
  match (response <- requests_get schedule_url schedule_params ;;
         _ <- raise_for_status response ;;
         response_json response) with
  | Ok data => data
  | Raise _ => JDict []
  end.

End Platform.
End Maker.

(** ** Notions the properties are stated with *)

Module Spec.

(** The UTC datetime of an instant given in seconds since the start of
    day 0 (0001-01-01 is day 1). *)
Definition of_seconds (s : Z) : Cal.datetime :=
  let '(y, m, d) := Cal.ord2ymd (s / 86400) in
  let r := s mod 86400 in
  Cal.mkdt y m d (r / 3600) ((r mod 3600) / 60) (r mod 60) 0 (Some Cal.PytzUTC).

(** The wire form [YYYYMMDDTHHMMSSZ] of an instant. *)
Definition stamp (s : Z) : string := Cal.strftime_ics (of_seconds s).

(** The instant a wire form [YYYYMMDDTHHMMSSZ] denotes. *)
Definition instant_of_stamp (w : string) : option Z :=
  Cal.obind (PyStr.read_digits 4 0 w) (fun '(y, w) =>
  Cal.obind (PyStr.read_digits 2 0 w) (fun '(m, w) =>
  Cal.obind (PyStr.read_digits 2 0 w) (fun '(d, w) =>
  Cal.obind (PyStr.expect "T" w) (fun w =>
  Cal.obind (PyStr.read_digits 2 0 w) (fun '(hh, w) =>
  Cal.obind (PyStr.read_digits 2 0 w) (fun '(mi, w) =>
  Cal.obind (PyStr.read_digits 2 0 w) (fun '(ss, w) =>
  match w with
  | "Z"%string =>
      if Cal.valid_date y m d && Cal.valid_time hh mi ss 0
      then Some (Cal.ymd2ord y m d * 86400 + hh * 3600 + mi * 60 + ss)
      else None
  | _ => None
  end))))))).

(** The fields of a datetime are in the ranges its constructor checks. *)
Definition valid_dt (dt : Cal.datetime) : Prop :=
  Cal.valid_date (Cal.year dt) (Cal.month dt) (Cal.day dt) = true
  /\ Cal.valid_time (Cal.hour dt) (Cal.minute dt) (Cal.second dt) (Cal.microsecond dt) = true.

(** Instants from 0002-01-01 to 9999-01-01: no conversion between time
    zones leaves the range of [datetime] from there. *)
Definition first_instant : Z := Cal.ymd2ord 2 1 1 * 86400.
Definition last_instant : Z := Cal.ymd2ord 9999 1 1 * 86400 + 86399.

Definition in_range (s : Z) : Prop := first_instant <= s <= last_instant.

(** The day, in the zone, of the instant [t]. *)
Definition zone_day (z : Cal.zone) (t : Z) : Z :=
  (t + Cal.zone_fromutc z (t * Cal.us_per_second)) / 86400.

(** 15:08 on day [d], as a wall time in seconds. *)
Definition wall_1508 (d : Z) : Z := d * 86400 + 15 * 3600 + 8 * 60.

(** The instant at which the clocks of the zone show the wall time [w],
    with the offset [localize] chooses. *)
Definition instant_of_wall (z : Cal.zone) (w : Z) : Z :=
  w - Cal.zone_localize z (w * Cal.us_per_second).

(** 15:08 in the zone, on the day the instant [t] falls on there. *)
Definition placeholder_instant (z : Cal.zone) (t : Z) : Z :=
  instant_of_wall z (wall_1508 (zone_day z t)).

(** The month and the day of the month of day [n] of a year (from 0),
    as the second half of [ord2ymd] computes them. *)
Definition month_day (n : Z) (leapyear : bool) : Z * Z :=
  let month := Z.shiftr (n + 50) 5 in
  let preceding :=
    Cal.days_before_month_common month + (if (2 <? month) && leapyear then 1 else 0) in
  if n <? preceding then
    let month' := month - 1 in
    let dim :=
      (if month' =? 2 then 28
       else if (month' =? 4) || (month' =? 6) || (month' =? 9) || (month' =? 11)
            then 30 else 31)
      + (if (month' =? 2) && leapyear then 1 else 0) in
    (month', n - (preceding - dim) + 1)
  else (month, n - preceding + 1).

Definition month_day_ok (leapyear : bool) (n : Z) : bool :=
  let '(m, d) := month_day n leapyear in
  (1 <=? m) && (m <=? 12) && (1 <=? d)
  && (d <=? (if m =? 2 then (if leapyear then 29 else 28)
             else if (m =? 4) || (m =? 6) || (m =? 9) || (m =? 11) then 30 else 31))
  && (Cal.days_before_month_common m + (if (2 <? m) && leapyear then 1 else 0) + d =? n + 1).

(** A line of a calendar with the render time blanked. *)
Definition mask_dtstamp (line : string) : string :=
  if prefix "DTSTAMP:" line then "DTSTAMP:" else line.

(** Two results of a renderer agree but for the render time. *)
Definition same_but_dtstamp (r1 r2 : res string) : Prop :=
  match r1, r2 with
  | Ok t1, Ok t2 =>
      map mask_dtstamp (PyStr.lines t1) = map mask_dtstamp (PyStr.lines t2)
  | Raise e1, Raise e2 => e1 = e2
  | _, _ => False
  end.

Fixpoint no_newline (s : string) : bool :=
  match s with
  | EmptyString => true
  | String c s' => negb (Ascii.eqb c (ascii_of_nat 10)) && no_newline s'
  end.

(** Two lines are the same, or both are DTSTAMP lines. *)
Definition line_rel (a b : string) : Prop :=
  a = b
  \/ exists d1 d2, a = "DTSTAMP:" ++ Cal.strftime_ics d1
                   /\ b = "DTSTAMP:" ++ Cal.strftime_ics d2.

(** Two states of a rendering loop agree but for the render times. *)
Definition state_rel (r1 r2 : res (list string * nat)) : Prop :=
  match r1, r2 with
  | Ok (l1, k1), Ok (l2, k2) => Forall2 line_rel l1 l2 /\ k1 = k2
  | Raise e1, Raise e2 => e1 = e2
  | _, _ => False
  end.

(** [{"dates": [{"games": games}, ...]}], one entry per date. *)
Definition date_entry (games : list json) : json :=
  JDict [ ("games", JList games) ].

Definition schedule (dates : list (list json)) : json :=
  JDict [ ("dates", JList (map date_entry dates)) ].

(** A field of a dict, or a default. *)
Definition field (fields : list (string * json)) (key : string) (default : json) : json :=
  match Py.lookup key fields with
  | Some v => v
  | None => default
  end.

(** The timestamp the updater reads from a game:
    [game.get('game_datetime') or game.get('game_date')]. *)
Definition updater_timestamp (fields : list (string * json)) : json :=
  let first := field fields "game_datetime" JNull in
  if Py.truthy first then first else field fields "game_date" JNull.


(** A document of MLB_API.py holds no game. *)
Definition no_games_in_date (date_data : json) : bool :=
  match Py.get date_data "games" (JList []) with
  | Ok games => match Py.iter games with Ok [] => true | _ => false end
  | Raise _ => false
  end.

Definition has_no_games (games_data : json) : bool :=
  match Py.get games_data "dates" (JList []) with
  | Ok dates =>
      match Py.iter dates with
      | Ok l => forallb no_games_in_date l
      | Raise _ => false
      end
  | Raise _ => false
  end.

(** The calendar without events. *)
Definition envelope : string :=
  PyStr.join PyStr.newline (app ics_header ics_footer).

(** The canonical text [YYYY-MM-DDTHH:MM:SSZ] upstream sends. *)
Definition iso_z (y m d hh mi ss : Z) : string :=
  PyStr.pad4 y ++ "-" ++ PyStr.pad2 m ++ "-" ++ PyStr.pad2 d ++ "T"
  ++ PyStr.pad2 hh ++ ":" ++ PyStr.pad2 mi ++ ":" ++ PyStr.pad2 ss ++ "Z".

(** *** Notions for the properties of the rest of the code *)



(** The texts of a timestamp: without offset, with an offset of [oh]
    hours and [om] minutes west or east of Greenwich, the bare date, and
    the wire form of the calendar. *)
Definition iso_naive (y m d hh mi ss : Z) : string :=
  PyStr.pad4 y ++ "-" ++ PyStr.pad2 m ++ "-" ++ PyStr.pad2 d ++ "T"
  ++ PyStr.pad2 hh ++ ":" ++ PyStr.pad2 mi ++ ":" ++ PyStr.pad2 ss.

Definition iso_offset (y m d hh mi ss : Z) (west : bool) (oh om : Z) : string :=
  iso_naive y m d hh mi ss ++ (if west then "-" else "+")
  ++ PyStr.pad2 oh ++ ":" ++ PyStr.pad2 om.

Definition iso_date (y m d : Z) : string :=
  PyStr.pad4 y ++ "-" ++ PyStr.pad2 m ++ "-" ++ PyStr.pad2 d.

Definition ics_text (y m d hh mi ss : Z) : string :=
  PyStr.pad4 y ++ PyStr.pad2 m ++ PyStr.pad2 d ++ "T"
  ++ PyStr.pad2 hh ++ PyStr.pad2 mi ++ PyStr.pad2 ss ++ "Z".

(** Seconds since the start of day 0 of a date and a time of day. *)
Definition seconds_of (y m d hh mi ss : Z) : Z :=
  Cal.ymd2ord y m d * 86400 + hh * 3600 + mi * 60 + ss.


(** The table of a zone changes at whole seconds. *)
Definition whole_second_zone (z : Cal.zone) : Prop :=
  forall x, Cal.zone_fromutc z x
            = Cal.zone_fromutc z (x / Cal.us_per_second * Cal.us_per_second).

(** The days [get_postseason_schedule] of MLB_PostSeason.py asks for, as
    it writes them: 30 September to 2 November 2025. *)
Definition postseason_days : list string :=
  "09/30/2025"
  :: map (fun d => "10/" ++ PyStr.pad2 (Z.of_nat d) ++ "/2025") (seq 1 31)
  ++ [ "11/01/2025"; "11/02/2025" ].

Definition is_dict (v : json) : bool :=
  match v with
  | JDict _ => true
  | _ => false
  end.

(** The entries of a list before the first one that is not a dict. *)
Fixpoint leading_dicts (l : list json) : list json :=
  match l with
  | JDict fields :: rest => JDict fields :: leading_dicts rest
  | _ => []
  end.

(** A game of statsapi whose type is one of F, D, L and W. *)
Definition is_postseason_game (game : json) : bool :=
  match game with
  | JDict fields => Py.in_strs (field fields "game_type" (JStr "")) [ "F"; "D"; "L"; "W" ]
  | _ => false
  end.

(** What one day adds to the schedule. *)
Definition games_of_day (answer : res (list json)) : list json :=
  match answer with
  | Ok schedule => filter is_postseason_game (leading_dicts schedule)
  | Raise _ => []
  end.

(** A postseason game that is being played. *)
Definition is_live_game (game : json) : bool :=
  match game with
  | JDict fields =>
      is_postseason_game game
      && Py.in_strs (field fields "status" (JStr "")) [ "In Progress"; "Live" ]
  | _ => false
  end.

(** The value of a dict under [key], the empty dict where the key is
    missing. *)
Definition section (v : json) (key : string) : json :=
  match v with
  | JDict fields => field fields key (JDict [])
  | _ => JNull
  end.

(** A raw game of the schedule endpoint in which every section that
    [parse_game_data] goes through is a dict or is missing. *)
Definition well_nested (game_data : json) : bool :=
  is_dict game_data
  && is_dict (section game_data "teams")
  && is_dict (section (section game_data "teams") "away")
  && is_dict (section (section (section game_data "teams") "away") "team")
  && is_dict (section (section game_data "teams") "home")
  && is_dict (section (section (section game_data "teams") "home") "team")
  && is_dict (section game_data "status")
  && is_dict (section game_data "venue")
  && is_dict (section game_data "linescore").

(** The keys of a record of [parse_game_data], in their order. *)
Definition record_keys : list string :=
  [ "game_id"; "game_type"; "game_date"; "game_datetime"; "status";
    "away_name"; "home_name"; "away_score"; "home_score"; "venue_name";
    "series_description"; "series_game_number"; "game_number" ].

(** The records of the games that [parse_game_data] accepts. *)
Definition parsed_games (repr : json -> string) (raw : list json) : list json :=
  flat_map (fun game => match Updater.parse_game_data repr game with
                        | Some game_info => [ game_info ]
                        | None => []
                        end) raw.

(** The request of [get_postseason_schedule] of MLB_API.py fails: at
    [requests.get], at [raise_for_status] or at [json]. *)
Definition request_fails (requests_get : string -> json -> res Maker.http_response)
  : Prop :=
  match requests_get Maker.schedule_url Maker.schedule_params with
  | Raise _ => True
  | Ok response =>
      match Maker.raise_for_status response with
      | Raise _ => True
      | Ok _ =>
          match Maker.response_json response with
          | Raise _ => True
          | Ok _ => False
          end
      end
  end.

End Spec.

(** ** Games and platforms for the examples *)

Module Sample.

(** One side of a game of MLB_API.py. *)
Definition side (abbreviation shortName league : string) (wins : Z) : json :=
  JDict [ ("team", JDict [ ("abbreviation", JStr abbreviation);
                           ("shortName", JStr shortName);
                           ("league", JDict [ ("abbreviation", JStr league) ]) ]);
          ("leagueRecord", JDict [ ("wins", JInt wins) ]) ].

(** The game of the worked example: 2025-10-15T23:08:00Z, game type D,
    league AL, game 3 of 5, the away side ahead 2-1.  The text leaves the
    names and the status open. *)
Definition worked_example (away_abbr away_short home_abbr home_short : string)
    (status : list (string * json)) : json :=
  JDict [ ("gamePk", JInt 813024);
          ("gameDate", JStr "2025-10-15T23:08:00Z");
          ("gameType", JStr "D");
          ("seriesGameNumber", JInt 3);
          ("gamesInSeries", JInt 5);
          ("status", JDict status);
          ("teams", JDict [ ("away", side away_abbr away_short "AL" 2);
                            ("home", side home_abbr home_short "AL" 1) ]) ].

Definition seattle_at_detroit (status : list (string * json)) : json :=
  worked_example "SEA" "Seattle" "DET" "Detroit" status.







(** A game of MLB_PostSeason.py. *)
Definition updater_game (game_datetime away_name home_name : string) : json :=
  JDict [ ("game_id", JInt 813028);
          ("game_datetime", JStr game_datetime);
          ("game_type", JStr "L");
          ("series_description", JStr "AL Championship Series");
          ("away_name", JStr away_name);
          ("home_name", JStr home_name);
          ("status", JStr "Scheduled");
          ("venue_name", JStr "Fenway Park") ].

(** Asia/Seoul since 1988: UTC+9 all year. *)
Definition Asia_Seoul : Cal.zone := Cal.mkzone (fun _ => 32400) (fun _ => 32400).

(** A machine whose local time is UTC. *)
Definition utc_machine (wall : Z) : option Z := Some 0.

(** A stand-in for [repr]. *)
Definition repr_stub (v : json) : string := "?".

(** A clock that advances a second per reading, from noon of 2025-10-01. *)
Definition ticking (k : nat) : Cal.datetime :=
  Cal.mkdt 2025 10 1 12 0 (Z.of_nat k mod 60) 0 (Some Cal.PytzUTC).

(** Another clock. *)
Definition later (k : nat) : Cal.datetime :=
  Cal.mkdt 2025 10 2 18 30 (Z.of_nat k mod 60) 0 (Some Cal.PytzUTC).

(** A file system on which no file can be written, and one on which
    every write succeeds. *)
Definition read_only_fs : filesys :=
  mkfs (fun _ _ => Raise OSError) (fun p => p) (fun _ => false) (fun _ => Raise OSError).

Definition writable_fs : filesys :=
  mkfs (fun _ _ => Ok tt) (fun p => p) (fun _ => true)
       (fun _ => Ok 0).

(** A finished game of MLB_PostSeason.py. *)
Definition final_game : list (string * json) :=
  [ ("game_id", JInt 813029);
    ("game_datetime", JStr "2025-10-21T00:08:00Z");
    ("game_type", JStr "L");
    ("series_description", JStr "AL Championship Series");
    ("away_name", JStr "Seattle Mariners");
    ("home_name", JStr "Toronto Blue Jays");
    ("away_score", JInt 3);
    ("home_score", JInt 1);
    ("status", JStr "Final");
    ("venue_name", JStr "Rogers Centre") ].

(** Answers of [statsapi.schedule]: a Wild Card game and a game of the
    regular season on 1 October, a failed request on 2 October, an answer
    cut short by an entry that is not a dict on 3 October, nothing on the
    other days. *)
Definition wild_card_game : json :=
  JDict [ ("game_id", JInt 813030); ("game_type", JStr "F");
          ("game_datetime", JStr "2025-10-01T19:08:00Z");
          ("status", JStr "In Progress") ].

Definition regular_game : json :=
  JDict [ ("game_id", JInt 813031); ("game_type", JStr "R") ].

Definition statsapi_schedule (start_date end_date : string) : res (list json) :=
  if String.eqb start_date "10/01/2025" then Ok [ wild_card_game; regular_game ]
  else if String.eqb start_date "10/02/2025" then Raise OSError
  else if String.eqb start_date "10/03/2025" then Ok [ wild_card_game; JNull; wild_card_game ]
  else Ok [].

(** Raw games of the schedule endpoint: one without teams, and one whose
    teams are a text. *)
Definition raw_game : list (string * json) :=
  [ ("gamePk", JInt 813032);
    ("gameType", JStr "W");
    ("gameDate", JStr "2025-10-25T00:08:00Z") ].

Definition ill_nested_game : json :=
  JDict [ ("gamePk", JInt 813033); ("teams", JStr "to be announced") ].

Definition statsapi_get (endpoint : string) (params : json) : res json :=
  if String.eqb endpoint "season" then Ok (JDict [])
  else Ok (Spec.schedule [ [ JDict raw_game; ill_nested_game ] ]).

(** A request that fails, and the system clock of Eastern daylight
    time. *)
Definition failing_request (url : string) (params : json) : res Maker.http_response :=
  Raise OSError.


End Sample.

(** * Properties *)

(** ** The calendar *)

Ltac zdiv := Z.to_euclidean_division_equations; lia.

Lemma forallb_range (f : Z -> bool) (n : nat) :
  forallb f (map Z.of_nat (seq 0 n)) = true ->
  forall r, 0 <= r < Z.of_nat n -> f r = true.
Proof.
  intros H r Hr.
  rewrite forallb_forall in H.
  apply H.
  apply in_map_iff.
  exists (Z.to_nat r).
  split; [lia|].
  apply in_seq. lia.
Qed.

Lemma month_day_ok_leap r : 0 <= r < 366 -> Spec.month_day_ok true r = true.
Proof. apply (forallb_range (Spec.month_day_ok true) 366). vm_compute. reflexivity. Qed.

Lemma month_day_ok_common r : 0 <= r < 365 -> Spec.month_day_ok false r = true.
Proof. apply (forallb_range (Spec.month_day_ok false) 365). vm_compute. reflexivity. Qed.

Lemma ord2ymd_unfold n :
  Cal.ord2ymd n =
    let n0 := n - 1 in
    let n400 := n0 / 146097 in
    let r400 := n0 mod 146097 in
    let n100 := r400 / 36524 in
    let r100 := r400 mod 36524 in
    let n4 := r100 / 1461 in
    let r4 := r100 mod 1461 in
    let n1 := r4 / 365 in
    let r := r4 mod 365 in
    let y := n400 * 400 + 1 + n100 * 100 + n4 * 4 + n1 in
    if (n1 =? 4) || (n100 =? 4) then (y - 1, 12, 31)
    else
      let '(m, d) := Spec.month_day r ((n1 =? 3) && (negb (n4 =? 24) || (n100 =? 3))) in
      (y, m, d).
Proof.
  unfold Cal.ord2ymd, Spec.month_day, Cal.DI400Y, Cal.DI100Y, Cal.DI4Y.
  cbv zeta.
  destruct ((_ =? 4) || (_ =? 4)); [reflexivity|].
  destruct (_ <? _); reflexivity.
Qed.

Lemma is_leap_decomp a b c e :
  0 <= b <= 3 -> 0 <= c <= 24 -> 0 <= e <= 3 ->
  Cal.is_leap (a * 400 + 1 + b * 100 + c * 4 + e)
  = ((e =? 3) && (negb (c =? 24) || (b =? 3))).
Proof.
  intros Hb Hc He. unfold Cal.is_leap.
  destruct (Z.eqb_spec e 3) as [E|E];
    destruct (Z.eqb_spec c 24) as [C|C];
    destruct (Z.eqb_spec b 3) as [B|B]; cbn [andb orb negb];
    repeat match goal with
           | |- context [?x =? 0] => destruct (Z.eqb_spec x 0)
           end; cbn [andb orb negb]; try reflexivity; exfalso; zdiv.
Qed.

Lemma days_before_year_decomp a b c e :
  0 <= b <= 3 -> 0 <= c <= 24 -> 0 <= e <= 3 ->
  Cal.days_before_year (a * 400 + 1 + b * 100 + c * 4 + e)
  = 146097 * a + 36524 * b + 1461 * c + 365 * e.
Proof. intros. unfold Cal.days_before_year. cbv zeta. zdiv. Qed.

Lemma days_in_month_flag y m :
  Cal.days_in_month y m
  = if m =? 2 then (if Cal.is_leap y then 29 else 28)
    else if (m =? 4) || (m =? 6) || (m =? 9) || (m =? 11) then 30 else 31.
Proof. reflexivity. Qed.

(** [ord2ymd] yields a valid date whose ordinal is the day it was given. *)
Lemma ord2ymd_spec n :
  1 <= n ->
  forall y m d, Cal.ord2ymd n = (y, m, d) ->
  Cal.ymd2ord y m d = n /\ 1 <= m <= 12 /\ 1 <= d <= Cal.days_in_month y m
  /\ 1 <= y /\ (n <= Cal.MAXORDINAL -> y <= 9999).
Proof.
  intros Hn y m d. rewrite ord2ymd_unfold. cbv zeta.
  set (n0 := n - 1).
  assert (H0 : 0 <= n0) by (subst n0; lia).
  pose proof (Z.div_mod n0 146097 ltac:(lia)) as E400.
  pose proof (Z.mod_pos_bound n0 146097 ltac:(lia)) as B400.
  set (a := n0 / 146097) in *. set (r400 := n0 mod 146097) in *.
  pose proof (Z.div_mod r400 36524 ltac:(lia)) as E100.
  pose proof (Z.mod_pos_bound r400 36524 ltac:(lia)) as B100.
  set (b := r400 / 36524) in *. set (r100 := r400 mod 36524) in *.
  pose proof (Z.div_mod r100 1461 ltac:(lia)) as E4.
  pose proof (Z.mod_pos_bound r100 1461 ltac:(lia)) as B4.
  set (c := r100 / 1461) in *. set (r4 := r100 mod 1461) in *.
  pose proof (Z.div_mod r4 365 ltac:(lia)) as E1.
  pose proof (Z.mod_pos_bound r4 365 ltac:(lia)) as B1.
  set (e := r4 / 365) in *. set (r := r4 mod 365) in *.
  assert (Ha : 0 <= a) by lia.
  assert (Hb : 0 <= b <= 4) by lia.
  assert (Hc : 0 <= c <= 24) by lia.
  assert (He : 0 <= e <= 4) by lia.
  assert (Hmax : n <= Cal.MAXORDINAL -> a <= 24) by (unfold Cal.MAXORDINAL; lia).
  destruct (Z.eqb_spec e 4) as [E|E]; cbn [orb].
  - (* the last day of a leap year *)
    intros [= <- <- <-].
    assert (Hb' : 0 <= b <= 3) by lia.
    assert (Hc' : 0 <= c <= 23) by lia.
    replace (a * 400 + 1 + b * 100 + c * 4 + e - 1)
      with (a * 400 + 1 + b * 100 + c * 4 + 3) by lia.
    pose proof (is_leap_decomp a b c 3 Hb' ltac:(lia) ltac:(lia)) as L.
    pose proof (days_before_year_decomp a b c 3 Hb' ltac:(lia) ltac:(lia)) as D.
    unfold Cal.ymd2ord, Cal.days_before_month. rewrite days_in_month_flag, D, L.
    change (Cal.days_before_month_common 12) with 334.
    change (2 <? 12) with true. change (12 =? 2) with false.
    change (12 =? 4) with false. change (12 =? 6) with false.
    change (12 =? 9) with false. change (12 =? 11) with false.
    change (3 =? 3) with true. cbn [andb orb].
    unfold Cal.MAXORDINAL in *.
    destruct (Z.eqb_spec c 24); destruct (Z.eqb_spec b 3);
      cbn [andb orb negb]; lia.
  - destruct (Z.eqb_spec b 4) as [B|B]; cbn [orb].
    + (* the last day of a 400-year cycle *)
      intros [= <- <- <-].
      replace (a * 400 + 1 + b * 100 + c * 4 + e - 1)
        with (a * 400 + 1 + 3 * 100 + 24 * 4 + 3) by lia.
      pose proof (is_leap_decomp a 3 24 3 ltac:(lia) ltac:(lia) ltac:(lia)) as L.
      pose proof (days_before_year_decomp a 3 24 3 ltac:(lia) ltac:(lia) ltac:(lia)) as D.
      unfold Cal.ymd2ord, Cal.days_before_month. rewrite days_in_month_flag, D, L.
      change (Cal.days_before_month_common 12) with 334.
      change (2 <? 12) with true. change (12 =? 2) with false.
      change (12 =? 4) with false. change (12 =? 6) with false.
      change (12 =? 9) with false. change (12 =? 11) with false.
      change (3 =? 3) with true. change (24 =? 24) with true. cbn [andb orb negb].
      unfold Cal.MAXORDINAL in *. lia.
    + assert (Hb' : 0 <= b <= 3) by lia.
      assert (He' : 0 <= e <= 3) by lia.
      pose proof (is_leap_decomp a b c e Hb' Hc He') as L.
      pose proof (days_before_year_decomp a b c e Hb' Hc He') as D.
      set (leap := (e =? 3) && (negb (c =? 24) || (b =? 3))) in *.
      assert (Hr : 0 <= r < (if leap then 366 else 365)).
      { destruct leap; lia. }
      assert (OK : Spec.month_day_ok leap r = true).
      { destruct leap; [apply month_day_ok_leap | apply month_day_ok_common]; lia. }
      unfold Spec.month_day_ok in OK.
      destruct (Spec.month_day r leap) as [m' d'].
      intros [= <- <- <-].
      rewrite !andb_true_iff in OK.
      destruct OK as [[[[O1 O2] O3] O4] O5].
      unfold Cal.ymd2ord, Cal.days_before_month.
      rewrite days_in_month_flag, D, L.
      unfold Cal.MAXORDINAL in *.
      repeat split; try lia.
Qed.

(** ** Digits and the wire form of an instant *)

Lemma digit_char_spec d :
  PyStr.is_digit (PyStr.digit_char d) = true
  /\ PyStr.digit_val (PyStr.digit_char d) = d mod 10
  /\ Ascii.eqb (PyStr.digit_char d) (ascii_of_nat 10) = false.
Proof.
  unfold PyStr.digit_char.
  pose proof (Z.mod_pos_bound d 10 ltac:(lia)) as B.
  set (k := d mod 10) in *.
  assert (C : k = 0 \/ k = 1 \/ k = 2 \/ k = 3 \/ k = 4 \/ k = 5 \/ k = 6
              \/ k = 7 \/ k = 8 \/ k = 9) by lia.
  repeat destruct C as [C|C]; rewrite C; vm_compute; auto.
Qed.

Lemma read_digits_pad2 n rest :
  0 <= n <= 99 -> PyStr.read_digits 2 0 (PyStr.pad2 n ++ rest) = Some (n, rest).
Proof.
  intros Hn. unfold PyStr.pad2. cbn [append PyStr.read_digits].
  destruct (digit_char_spec (n / 10)) as (-> & -> & _).
  destruct (digit_char_spec n) as (-> & -> & _).
  f_equal. f_equal. zdiv.
Qed.

Lemma read_digits_pad4 n rest :
  0 <= n <= 9999 -> PyStr.read_digits 4 0 (PyStr.pad4 n ++ rest) = Some (n, rest).
Proof.
  intros Hn. unfold PyStr.pad4. cbn [append PyStr.read_digits].
  destruct (digit_char_spec (n / 1000)) as (-> & -> & _).
  destruct (digit_char_spec (n / 100)) as (-> & -> & _).
  destruct (digit_char_spec (n / 10)) as (-> & -> & _).
  destruct (digit_char_spec n) as (-> & -> & _).
  f_equal. f_equal. zdiv.
Qed.

Lemma valid_date_bounds y m d :
  Cal.valid_date y m d = true ->
  1 <= y <= 9999 /\ 1 <= m <= 12 /\ 1 <= d <= Cal.days_in_month y m /\ d <= 31.
Proof.
  unfold Cal.valid_date. rewrite !andb_true_iff, !Z.leb_le.
  intros [[[[[? ?] ?] ?] ?] Hd].
  assert (Cal.days_in_month y m <= 31).
  { unfold Cal.days_in_month.
    destruct (m =? 2); [destruct (Cal.is_leap y); lia|].
    destruct ((m =? 4) || (m =? 6) || (m =? 9) || (m =? 11)); lia. }
  lia.
Qed.

Lemma valid_time_bounds hh mi ss us :
  Cal.valid_time hh mi ss us = true ->
  0 <= hh <= 23 /\ 0 <= mi <= 59 /\ 0 <= ss <= 59 /\ 0 <= us <= 999999.
Proof.
  unfold Cal.valid_time. rewrite !andb_true_iff, !Z.leb_le. lia.
Qed.

Lemma valid_time_intro hh mi ss us :
  0 <= hh <= 23 -> 0 <= mi <= 59 -> 0 <= ss <= 59 -> 0 <= us <= 999999 ->
  Cal.valid_time hh mi ss us = true.
Proof.
  intros. unfold Cal.valid_time. rewrite !andb_true_iff, !Z.leb_le. lia.
Qed.

Lemma valid_date_intro y m d :
  1 <= y <= 9999 -> 1 <= m <= 12 -> 1 <= d <= Cal.days_in_month y m ->
  Cal.valid_date y m d = true.
Proof.
  intros. unfold Cal.valid_date. rewrite !andb_true_iff, !Z.leb_le. lia.
Qed.

(** Reading back what strftime wrote gives the wall time of the datetime. *)
Lemma instant_of_strftime dt :
  Spec.valid_dt dt ->
  Spec.instant_of_stamp (Cal.strftime_ics dt) = Some (Cal.wall_seconds dt).
Proof.
  intros [Hd Ht].
  pose proof (valid_date_bounds _ _ _ Hd) as (By & Bm & Bd & Bd').
  pose proof (valid_time_bounds _ _ _ _ Ht) as (Bh & Bmi & Bs & _).
  assert (Ht0 : Cal.valid_time (Cal.hour dt) (Cal.minute dt) (Cal.second dt) 0 = true)
    by (apply valid_time_intro; lia).
  unfold Spec.instant_of_stamp, Cal.strftime_ics.
  rewrite read_digits_pad4 by lia. cbn [Cal.obind].
  rewrite read_digits_pad2 by lia. cbn [Cal.obind].
  rewrite read_digits_pad2 by lia. cbn [Cal.obind].
  cbn [append PyStr.expect]. rewrite Ascii.eqb_refl. cbn [Cal.obind].
  rewrite read_digits_pad2 by lia. cbn [Cal.obind].
  rewrite read_digits_pad2 by lia. cbn [Cal.obind].
  change (PyStr.pad2 (Cal.second dt) ++ "Z") with (PyStr.pad2 (Cal.second dt) ++ "Z" ++ "").
  rewrite read_digits_pad2 by lia. cbn [Cal.obind append].
  rewrite Hd, Ht0. reflexivity.
Qed.

(** ** Arithmetic on datetimes *)

Lemma of_wall_us_ok x t dt :
  Cal.of_wall_us x t = Ok dt ->
  Spec.valid_dt dt /\ Cal.wall_us dt = x /\ Cal.tz dt = t
  /\ Cal.ymd2ord (Cal.year dt) (Cal.month dt) (Cal.day dt) = x / Cal.us_per_day
  /\ Cal.wall_seconds dt = x / Cal.us_per_second
  /\ Cal.strftime_ics dt = Spec.stamp (x / Cal.us_per_second).
Proof.
  unfold Cal.of_wall_us. cbv zeta.
  destruct ((0 <? x / Cal.us_per_day) && (x / Cal.us_per_day <=? Cal.MAXORDINAL)) eqn:R;
    [|discriminate].
  apply andb_true_iff in R. destruct R as [R1 R2].
  apply Z.ltb_lt in R1. apply Z.leb_le in R2.
  destruct (Cal.ord2ymd (x / Cal.us_per_day)) as [[y m] d] eqn:E.
  pose proof (ord2ymd_spec (x / Cal.us_per_day) ltac:(lia) _ _ _ E) as (Ho & Bm & Bd & By & Bmax).
  specialize (Bmax R2).
  intros [= <-].
  unfold Cal.us_per_day, Cal.us_per_second in *.
  assert (Hsec : x / 1000000 / 86400 = x / (86400 * 1000000)) by zdiv.
  assert (Hrem : x mod (86400 * 1000000) / 1000000 = (x / 1000000) mod 86400) by zdiv.
  split; [split|].
  - apply valid_date_intro; cbn [Cal.year Cal.month Cal.day]; lia.
  - apply valid_time_intro; cbn [Cal.hour Cal.minute Cal.second Cal.microsecond]; zdiv.
  - unfold Cal.wall_us, Cal.wall_seconds, Spec.stamp, Spec.of_seconds, Cal.strftime_ics.
    cbn [Cal.year Cal.month Cal.day Cal.hour Cal.minute Cal.second Cal.microsecond Cal.tz].
    unfold Cal.us_per_second. rewrite Ho, Hsec, E.
    cbn [Cal.year Cal.month Cal.day Cal.hour Cal.minute Cal.second Cal.microsecond Cal.tz].
    rewrite Hrem.
    repeat split; try reflexivity; zdiv.
Qed.

Lemma of_wall_us_total x t :
  Cal.us_per_day <= x < (Cal.MAXORDINAL + 1) * Cal.us_per_day ->
  exists dt, Cal.of_wall_us x t = Ok dt.
Proof.
  intros Hx. unfold Cal.of_wall_us. cbv zeta.
  unfold Cal.us_per_day, Cal.us_per_second, Cal.MAXORDINAL in *.
  assert (R : (0 <? x / (86400 * 1000000)) && (x / (86400 * 1000000) <=? 3652059) = true).
  { apply andb_true_iff. split; [apply Z.ltb_lt | apply Z.leb_le]; zdiv. }
  rewrite R. destruct (Cal.ord2ymd _) as [[y m] d]. eauto.
Qed.

(** ** The parsers yield valid datetimes *)

Lemma datetime_new_ok y m d hh mi ss us t dt :
  Cal.datetime_new y m d hh mi ss us t = Ok dt ->
  dt = Cal.mkdt y m d hh mi ss us t /\ Spec.valid_dt dt.
Proof.
  unfold Cal.datetime_new.
  destruct (Cal.valid_date y m d && Cal.valid_time hh mi ss us) eqn:V; [|discriminate].
  apply andb_true_iff in V. intros [= <-]. split; [reflexivity|exact V].
Qed.

Lemma strptime_z_ok s dt :
  Cal.strptime_z s = Ok dt ->
  Spec.valid_dt dt /\ Cal.tz dt = None /\ Cal.microsecond dt = 0.
Proof.
  unfold Cal.strptime_z.
  destruct (Cal.scan_ymd s) as [[[[y m] d] s1]|]; [|discriminate].
  destruct (Cal.scan_hms_z s1) as [[[[hh mi] ss] [|? ?]]|]; try discriminate.
  intros H. apply datetime_new_ok in H. destruct H as [-> V]. auto.
Qed.

Lemma strptime_date_ok s dt :
  Cal.strptime_date s = Ok dt ->
  Spec.valid_dt dt /\ Cal.tz dt = None /\ Cal.microsecond dt = 0 /\ Cal.second dt = 0.
Proof.
  unfold Cal.strptime_date.
  destruct (Cal.scan_ymd s) as [[[[y m] d] [|? ?]]|]; try discriminate.
  intros H. apply datetime_new_ok in H. destruct H as [-> V]. auto.
Qed.

Lemma obind_some {A B} (o : option A) (k : A -> option B) b :
  Cal.obind o k = Some b -> exists a, o = Some a /\ k a = Some b.
Proof. destruct o; [eauto|discriminate]. Qed.

Lemma fromisoformat_ok s dt : Cal.fromisoformat s = Ok dt -> Spec.valid_dt dt.
Proof.
  unfold Cal.fromisoformat, Cal.opt_res.
  match goal with |- match ?o with _ => _ end = _ -> _ => destruct o as [r|] eqn:E end;
    [|discriminate].
  intros [= ->].
  repeat (apply obind_some in E; destruct E as (? & _ & E);
          repeat match goal with x : (_ * _)%type |- _ => destruct x end).
  match type of E with match ?t with _ => _ end = _ => destruct t as [|sep t'] end.
  - destruct (Cal.valid_date _ _ _) eqn:V; [|discriminate].
    injection E as <-. split; [exact V|reflexivity].
  - destruct (PyStr.break_at Cal.is_sign t') as [timestr after].
    repeat (apply obind_some in E; destruct E as (? & _ & E);
            repeat match goal with x : (_ * _)%type |- _ => destruct x end).
    match type of E with (if ?c then _ else _) = _ => destruct c eqn:V end; [|discriminate].
    apply andb_true_iff in V. injection E as <-. exact V.
Qed.

(** ** Instants in range *)

Lemma days_before_month_bounds y m :
  1 <= m <= 12 -> 0 <= Cal.days_before_month y m <= 335.
Proof.
  intros Hm. unfold Cal.days_before_month.
  assert (C : m = 1 \/ m = 2 \/ m = 3 \/ m = 4 \/ m = 5 \/ m = 6 \/ m = 7 \/ m = 8
              \/ m = 9 \/ m = 10 \/ m = 11 \/ m = 12) by lia.
  repeat destruct C as [C|C]; subst m; destruct (Cal.is_leap y); vm_compute; split; discriminate.
Qed.

Lemma wall_seconds_in_range dt :
  Spec.valid_dt dt -> 2 <= Cal.year dt <= 9998 -> Spec.in_range (Cal.wall_seconds dt).
Proof.
  intros [Hd Ht] Hy.
  pose proof (valid_date_bounds _ _ _ Hd) as (By & Bm & Bd & Bd').
  pose proof (valid_time_bounds _ _ _ _ Ht) as (Bh & Bmi & Bs & _).
  pose proof (days_before_month_bounds (Cal.year dt) _ Bm) as Bdm.
  unfold Spec.in_range, Cal.wall_seconds, Cal.ymd2ord.
  change Spec.first_instant with 31622400.
  change Spec.last_instant with 315506534399.
  assert (365 <= Cal.days_before_year (Cal.year dt) <= 3651329).
  { unfold Cal.days_before_year. cbv zeta. zdiv. }
  lia.
Qed.

Lemma in_range_bounds t :
  Spec.in_range t -> 31622400 <= t <= 315506534399.
Proof. intros H. exact H. Qed.

(** ** The 15:08 Eastern placeholder *)

Lemma wall_us_replace_tzinfo dt t : Cal.wall_us (Cal.replace_tzinfo dt t) = Cal.wall_us dt.
Proof. reflexivity. Qed.

Lemma wall_us_seconds dt :
  Cal.microsecond dt = 0 -> Cal.wall_us dt = Cal.wall_seconds dt * Cal.us_per_second.
Proof. intros H. unfold Cal.wall_us. rewrite H. lia. Qed.

Lemma eastern_1508_spec z utc_dt :
  Cal.zone_bounded z ->
  Cal.microsecond utc_dt = 0 ->
  Spec.in_range (Cal.wall_seconds utc_dt) ->
  let w := Spec.wall_1508 (Spec.zone_day z (Cal.wall_seconds utc_dt)) in
  exists dt,
    Updater.eastern_1508 z utc_dt = Ok dt
    /\ Spec.valid_dt dt
    /\ Cal.tz dt = Some (Cal.ZoneLocal (Cal.zone_localize z (w * Cal.us_per_second)))
    /\ Cal.wall_us dt = w * Cal.us_per_second.
Proof.
  intros Hz Hus Hr w.
  apply in_range_bounds in Hr.
  unfold Updater.eastern_1508, Cal.astimezone_zone.
  rewrite (wall_us_seconds _ Hus).
  set (t := Cal.wall_seconds utc_dt) in *.
  destruct (Hz (t * Cal.us_per_second)) as [Hoff _].
  set (off := Cal.zone_fromutc z (t * Cal.us_per_second)) in *.
  destruct (of_wall_us_total (t * Cal.us_per_second + off * Cal.us_per_second)
              (Some (Cal.ZoneLocal off))) as [et Het].
  { unfold Cal.us_per_day, Cal.us_per_second, Cal.MAXORDINAL. lia. }
  rewrite Het. cbn [bind].
  apply of_wall_us_ok in Het.
  destruct Het as ([Vd Vt] & _ & _ & Hord & _).
  assert (Hday : Cal.ymd2ord (Cal.year et) (Cal.month et) (Cal.day et)
                 = Spec.zone_day z t).
  { rewrite Hord. unfold Spec.zone_day. fold off.
    unfold Cal.us_per_day, Cal.us_per_second. zdiv. }
  assert (Hw : Cal.wall_us (Cal.combine_date_time et 15 8) = w * Cal.us_per_second).
  { unfold Cal.wall_us, Cal.wall_seconds, Cal.combine_date_time.
    cbn [Cal.year Cal.month Cal.day Cal.hour Cal.minute Cal.second Cal.microsecond].
    rewrite Hday. unfold w, Spec.wall_1508. lia. }
  eexists. split; [reflexivity|].
  unfold Cal.localize. rewrite Hw.
  repeat split; try assumption.
Qed.

(** The second half of the resolver, for a datetime in a pytz zone whose
    wall time is a whole second. *)
Lemma to_ics_times_zone seoul sys dt off w :
  Cal.zone_bounded seoul ->
  Cal.tz dt = Some (Cal.ZoneLocal off) ->
  Cal.wall_us dt = w * Cal.us_per_second ->
  -86400 < off < 86400 ->
  31622400 - 3 * 86400 <= w <= 315506534399 + 3 * 86400 ->
  Updater.to_ics_times seoul sys (Some dt)
  = Ok (Some (Spec.stamp (w - off)), Some (Spec.stamp (w - off + 12600))).
Proof.
  intros Hs Htz Hw Hoff Hr.
  unfold Updater.to_ics_times, Cal.tz_is_pytz_utc, Cal.astimezone_utc.
  rewrite Htz. cbn [negb Cal.utcoffset_us]. rewrite Hw.
  destruct (of_wall_us_total (w * Cal.us_per_second - off * Cal.us_per_second)
              (Some Cal.PytzUTC)) as [u Hu].
  { unfold Cal.us_per_day, Cal.us_per_second, Cal.MAXORDINAL. lia. }
  rewrite Hu. cbn [bind].
  apply of_wall_us_ok in Hu. destruct Hu as (_ & Hwu & _ & _ & _ & Hs1).
  assert (Hq : (w * Cal.us_per_second - off * Cal.us_per_second) / Cal.us_per_second = w - off)
    by (unfold Cal.us_per_second; zdiv).
  rewrite Hq in Hs1.
  unfold Cal.add_timedelta. rewrite Hwu.
  destruct (of_wall_us_total
              (w * Cal.us_per_second - off * Cal.us_per_second
               + (Cal.hours 3 + Cal.minutes 30)) (Cal.tz u)) as [e He].
  { unfold Cal.hours, Cal.minutes, Cal.us_per_day, Cal.us_per_second, Cal.MAXORDINAL. lia. }
  rewrite He. cbn [bind].
  apply of_wall_us_ok in He. destruct He as (_ & _ & _ & _ & _ & Hs2).
  assert (Hq2 : (w * Cal.us_per_second - off * Cal.us_per_second
                 + (Cal.hours 3 + Cal.minutes 30)) / Cal.us_per_second = w - off + 12600)
    by (unfold Cal.hours, Cal.minutes, Cal.us_per_second; zdiv).
  rewrite Hq2 in Hs2.
  unfold Cal.astimezone_zone. rewrite Hwu.
  set (x := w * Cal.us_per_second - off * Cal.us_per_second) in *.
  destruct (Hs x) as [Hso _].
  destruct (of_wall_us_total (x + Cal.zone_fromutc seoul x * Cal.us_per_second)
              (Some (Cal.ZoneLocal (Cal.zone_fromutc seoul x)))) as [k Hk].
  { subst x. unfold Cal.us_per_day, Cal.us_per_second, Cal.MAXORDINAL in *. lia. }
  rewrite Hk. cbn [bind]. rewrite Hs1, Hs2. reflexivity.
Qed.

Lemma any_in_str kws a : exists b, Py.any_in kws (JStr a) = Ok b.
Proof.
  induction kws as [|k kws IH]; cbn [Py.any_in Py.in_str bind]; [eauto|].
  destruct (PyStr.contains k a); [eauto|exact IH].
Qed.

Lemma zone_day_bounds z t :
  Cal.zone_bounded z ->
  t - 2 * 86400 < Spec.wall_1508 (Spec.zone_day z t) < t + 2 * 86400.
Proof.
  intros Hz. unfold Spec.wall_1508, Spec.zone_day.
  destruct (Hz (t * Cal.us_per_second)) as [H _]. zdiv.
Qed.

(** The resolver on a text that strptime reads as a UTC time, once the
    15:08 Eastern rule applies to it. *)
Lemma placeholder_times eastern seoul sys utc_dt :
  Cal.zone_bounded eastern -> Cal.zone_bounded seoul ->
  Cal.microsecond utc_dt = 0 ->
  Spec.in_range (Cal.wall_seconds utc_dt) ->
  exists dt,
    Updater.eastern_1508 eastern utc_dt = Ok dt
    /\ Updater.to_ics_times seoul sys (Some dt)
       = Ok (Some (Spec.stamp (Spec.placeholder_instant eastern (Cal.wall_seconds utc_dt))),
             Some (Spec.stamp (Spec.placeholder_instant eastern (Cal.wall_seconds utc_dt)
                               + 12600))).
Proof.
  intros He Hs Hus Hr.
  destruct (eastern_1508_spec eastern utc_dt He Hus Hr) as (dt & E & V & Htz & Hw).
  exists dt. split; [exact E|].
  pose proof (zone_day_bounds eastern (Cal.wall_seconds utc_dt) He) as Hb.
  apply in_range_bounds in Hr.
  unfold Spec.placeholder_instant, Spec.instant_of_wall.
  apply to_ics_times_zone; try assumption.
  - apply He.
  - lia.
Qed.

(** A timestamp in the Z form whose minute is 33 gets the 15:08 Eastern
    rule, with and without a placeholder among the team names. *)
Lemma minute_33_times
    (eastern seoul : Cal.zone) (sys : Z -> option Z) (s away home : string)
    (dt : Cal.datetime) :
  Cal.zone_bounded eastern -> Cal.zone_bounded seoul ->
  Cal.strptime_z s = Ok dt ->
  PyStr.contains "Z" s = true ->
  Cal.minute dt = 33 ->
  2 <= Cal.year dt <= 9998 ->
  let start := Spec.placeholder_instant eastern (Cal.wall_seconds dt) in
  Updater.format_game_time eastern seoul sys (JStr s) (JStr away) (JStr home)
  = (Some (Spec.stamp start), Some (Spec.stamp (start + 12600))).
Proof.
  intros He Hs Hp Hz Hm Hy start.
  destruct (strptime_z_ok _ _ Hp) as (V & _ & Hus).
  pose proof (wall_seconds_in_range dt V Hy) as Hr.
  destruct (placeholder_times eastern seoul sys
              (Cal.replace_tzinfo dt (Some Cal.PytzUTC)) He Hs Hus Hr)
    as (dt' & E & T).
  change (Cal.wall_seconds (Cal.replace_tzinfo dt (Some Cal.PytzUTC)))
    with (Cal.wall_seconds dt) in T.
  unfold Updater.format_game_time, Updater.format_game_time_try,
    Updater.parse_game_datetime.
  assert (Ht : Py.truthy (JStr s) = true).
  { destruct s; [discriminate Hz | reflexivity]. }
  rewrite Ht. cbn [negb].
  destruct (any_in_str Updater.keywords away) as [a ->]. cbn [bind].
  assert (U : exists u,
             (if a then Ok true else Py.any_in Updater.keywords (JStr home)) = Ok u).
  { destruct a; [eauto | apply any_in_str]. }
  destruct U as [u ->]. cbn [bind].
  destruct u.
  - cbn [Py.as_str bind]. rewrite Hp. cbn [bind]. rewrite E. cbn [bind].
    rewrite T. reflexivity.
  - cbn [Py.in_str bind]. rewrite Hz. cbn [Py.as_str bind]. rewrite Hp. cbn [bind].
    change (Cal.minute (Cal.replace_tzinfo dt (Some Cal.PytzUTC))) with (Cal.minute dt).
    rewrite Hm. cbn [Z.eqb Pos.eqb]. rewrite E. cbn [bind]. rewrite T. reflexivity.
Qed.

(** ** End is start plus a fixed duration *)

Lemma eastern_1508_valid z utc_dt dt :
  Updater.eastern_1508 z utc_dt = Ok dt -> Spec.valid_dt dt.
Proof.
  unfold Updater.eastern_1508.
  destruct (Cal.astimezone_zone z utc_dt) as [et|] eqn:E; [|discriminate].
  cbn [bind]. intros [= <-].
  apply of_wall_us_ok in E. destruct E as ([Vd _] & _).
  split; [exact Vd | reflexivity].
Qed.

Lemma bind_ok {A B} (r : res A) (k : A -> res B) b :
  bind r k = Ok b -> exists a, r = Ok a /\ k a = Ok b.
Proof. destruct r; [eauto|discriminate]. Qed.

Ltac bind_inv H :=
  let x := fresh "x" in
  let E := fresh "E" in
  apply bind_ok in H; destruct H as (x & E & H).

Lemma parse_game_datetime_valid eastern gd away home dt :
  Updater.parse_game_datetime eastern gd away home = Ok (Some dt) -> Spec.valid_dt dt.
Proof.
  unfold Updater.parse_game_datetime. intros H.
  bind_inv H. destruct x.
  - bind_inv H. bind_inv H. bind_inv H. injection H as <-.
    eapply eastern_1508_valid; eassumption.
  - bind_inv H. destruct x.
    + bind_inv H. bind_inv H. cbv zeta in H.
      destruct (_ =? 33).
      * bind_inv H. injection H as <-. eapply eastern_1508_valid; eassumption.
      * bind_inv H. bind_inv H. injection H as <-. eapply fromisoformat_ok; eassumption.
    + bind_inv H. bind_inv H. destruct x0.
      * bind_inv H. bind_inv H. injection H as <-. eapply fromisoformat_ok; eassumption.
      * bind_inv H. destruct x0.
        -- bind_inv H. bind_inv H. injection H as <-.
           match goal with E : Cal.fromisoformat _ = Ok ?d |- _ =>
             apply fromisoformat_ok in E; destruct (Cal.tz d); exact E end.
        -- bind_inv H. bind_inv H. injection H as <-.
           match goal with E : Cal.strptime_date _ = Ok ?d |- _ =>
             apply strptime_date_ok in E; destruct E as ([Vd Vt] & _) end.
           split; [exact Vd|].
           apply valid_time_bounds in Vt.
           apply valid_time_intro; cbn; lia.
Qed.

Lemma astimezone_utc_valid sys dt u :
  Spec.valid_dt dt -> Cal.astimezone_utc sys dt = Ok u -> Spec.valid_dt u.
Proof.
  intros V. unfold Cal.astimezone_utc.
  destruct (Cal.tz dt) as [[| |]|].
  - intros [= <-]. exact V.
  - intros H. apply of_wall_us_ok in H. apply H.
  - intros H. apply of_wall_us_ok in H. apply H.
  - destruct (sys _); [|discriminate]. intros H. apply of_wall_us_ok in H. apply H.
Qed.

(** Adding whole seconds to a datetime adds them to what its wire form
    denotes. *)
Lemma add_timedelta_stamps dt k e :
  Spec.valid_dt dt ->
  Cal.add_timedelta dt (k * Cal.us_per_second) = Ok e ->
  Spec.instant_of_stamp (Cal.strftime_ics dt) = Some (Cal.wall_seconds dt)
  /\ Spec.instant_of_stamp (Cal.strftime_ics e) = Some (Cal.wall_seconds dt + k).
Proof.
  intros V H. split; [apply instant_of_strftime; exact V|].
  unfold Cal.add_timedelta in H. apply of_wall_us_ok in H.
  destruct H as (Ve & _ & _ & _ & Hs & _).
  rewrite (instant_of_strftime e Ve), Hs. f_equal.
  destruct V as [_ Vt]. apply valid_time_bounds in Vt.
  unfold Cal.wall_us, Cal.us_per_second. zdiv.
Qed.

Lemma to_ics_times_spec seoul sys dt times :
  Spec.valid_dt dt ->
  Updater.to_ics_times seoul sys (Some dt) = Ok times ->
  exists st en u,
    times = (Some st, Some en)
    /\ Spec.instant_of_stamp st = Some u
    /\ Spec.instant_of_stamp en = Some (u + 12600).
Proof.
  intros V H. unfold Updater.to_ics_times in H.
  bind_inv H. bind_inv H. bind_inv H. injection H as <-.
  assert (Vx : Spec.valid_dt x).
  { destruct (Cal.tz_is_pytz_utc dt); cbn [negb] in E.
    - injection E as <-. exact V.
    - eapply astimezone_utc_valid; eassumption. }
  change (Cal.hours 3 + Cal.minutes 30) with (12600 * Cal.us_per_second) in E0.
  destruct (add_timedelta_stamps x 12600 x0 Vx E0) as [S1 S2].
  eauto 6.
Qed.

(** The resolver of the updater returns both times or neither, and the
    end is 3 h 30 min after the start. *)
Lemma format_game_time_spec eastern seoul sys gd away home :
  Updater.format_game_time eastern seoul sys gd away home = (None, None)
  \/ exists st en u,
       Updater.format_game_time eastern seoul sys gd away home = (Some st, Some en)
       /\ Spec.instant_of_stamp st = Some u
       /\ Spec.instant_of_stamp en = Some (u + 12600).
Proof.
  unfold Updater.format_game_time, Updater.format_game_time_try.
  destruct (Updater.parse_game_datetime eastern gd away home) as [[dt|]|] eqn:P;
    cbn [bind]; auto.
  destruct (Updater.to_ics_times seoul sys (Some dt)) as [times|] eqn:T; auto.
  right. apply parse_game_datetime_valid in P.
  destruct (to_ics_times_spec _ _ _ _ P T) as (st & en & u & -> & S1 & S2).
  eauto 6.
Qed.







(** ** The rendering loops *)

Lemma get_dict fields key default :
  Py.get (JDict fields) key default = Ok (Spec.field fields key default).
Proof. unfold Py.get, Spec.field. destruct (Py.lookup key fields); reflexivity. Qed.

Lemma updater_render_games_app eastern seoul sys repr clock l1 l2 st :
  Updater.render_games eastern seoul sys repr clock (l1 ++ l2) st
  = bind (Updater.render_games eastern seoul sys repr clock l1 st)
         (Updater.render_games eastern seoul sys repr clock l2).
Proof.
  revert st. induction l1 as [|g l1 IH]; intros st; cbn [app Updater.render_games bind].
  - reflexivity.
  - destruct (Updater.render_game eastern seoul sys repr clock g st); cbn [bind]; auto.
Qed.









(** ** Rendering twice *)

Lemma line_rel_refl a : Spec.line_rel a a.
Proof. left. reflexivity. Qed.

Lemma lines_rel_refl l : Forall2 Spec.line_rel l l.
Proof. induction l; constructor; auto using line_rel_refl. Qed.

Lemma vevent_rel uid d1 d2 dtstart dtend summary location description :
  Forall2 Spec.line_rel
    (vevent uid (Cal.strftime_ics d1) dtstart dtend summary location description)
    (vevent uid (Cal.strftime_ics d2) dtstart dtend summary location description).
Proof.
  unfold vevent.
  repeat (constructor; [first [apply line_rel_refl | right; eauto]|]).
  constructor.
Qed.

Ltac step_both :=
  match goal with
  | |- Spec.state_rel (bind ?r _) (bind ?r _) => destruct r; cbn [bind]
  | |- Spec.state_rel (if ?c then _ else _) (if ?c then _ else _) => destruct c
  | |- Spec.state_rel (Raise ?e) (Raise ?e) => reflexivity
  | |- Spec.state_rel (Ok (_, ?k)) (Ok (_, ?k)) => split; [|reflexivity]
  end.

Lemma updater_render_game_rel eastern seoul sys repr c1 c2 g l1 l2 k :
  Forall2 Spec.line_rel l1 l2 ->
  Spec.state_rel (Updater.render_game eastern seoul sys repr c1 g (l1, k))
                 (Updater.render_game eastern seoul sys repr c2 g (l2, k)).
Proof.
  intros H. unfold Updater.render_game.
  repeat step_both; try assumption.
  destruct (Updater.format_game_time _ _ _ _ _ _) as [[[|c s]|] end_time];
    repeat step_both; try assumption.
  apply Forall2_app; [assumption | apply vevent_rel].
Qed.

Lemma maker_render_game_rel sys repr c1 c2 g l1 l2 k :
  Forall2 Spec.line_rel l1 l2 ->
  Spec.state_rel (Maker.render_game sys repr c1 g (l1, k))
                 (Maker.render_game sys repr c2 g (l2, k)).
Proof.
  intros H. unfold Maker.render_game.
  repeat step_both; try assumption.
  apply Forall2_app; [assumption | apply vevent_rel].
Qed.

Lemma updater_render_games_rel eastern seoul sys repr c1 c2 games l1 l2 k :
  Forall2 Spec.line_rel l1 l2 ->
  Spec.state_rel (Updater.render_games eastern seoul sys repr c1 games (l1, k))
                 (Updater.render_games eastern seoul sys repr c2 games (l2, k)).
Proof.
  revert l1 l2 k. induction games as [|g games IH]; intros l1 l2 k H;
    cbn [Updater.render_games].
  - split; [assumption|reflexivity].
  - pose proof (updater_render_game_rel eastern seoul sys repr c1 c2 g l1 l2 k H) as R.
    destruct (Updater.render_game eastern seoul sys repr c1 g (l1, k)) as [[l1' k1]|e1];
      destruct (Updater.render_game eastern seoul sys repr c2 g (l2, k)) as [[l2' k2]|e2];
      cbn [Spec.state_rel bind] in *; try contradiction.
    + destruct R as [R ->]. apply IH. exact R.
    + exact R.
Qed.

Lemma maker_render_games_rel sys repr c1 c2 games l1 l2 k :
  Forall2 Spec.line_rel l1 l2 ->
  Spec.state_rel (Maker.render_games sys repr c1 games (l1, k))
                 (Maker.render_games sys repr c2 games (l2, k)).
Proof.
  revert l1 l2 k. induction games as [|g games IH]; intros l1 l2 k H;
    cbn [Maker.render_games].
  - split; [assumption|reflexivity].
  - pose proof (maker_render_game_rel sys repr c1 c2 g l1 l2 k H) as R.
    destruct (Maker.render_game sys repr c1 g (l1, k)) as [[l1' k1]|e1];
      destruct (Maker.render_game sys repr c2 g (l2, k)) as [[l2' k2]|e2];
      cbn [Spec.state_rel bind] in *; try contradiction.
    + destruct R as [R ->]. apply IH. exact R.
    + exact R.
Qed.

Lemma maker_render_dates_rel sys repr c1 c2 dates l1 l2 k :
  Forall2 Spec.line_rel l1 l2 ->
  Spec.state_rel (Maker.render_dates sys repr c1 dates (l1, k))
                 (Maker.render_dates sys repr c2 dates (l2, k)).
Proof.
  revert l1 l2 k. induction dates as [|d dates IH]; intros l1 l2 k H;
    cbn [Maker.render_dates].
  - split; [assumption|reflexivity].
  - destruct (Py.get d "games" (JList [])) as [gf|]; cbn [bind]; [|reflexivity].
    destruct (Py.iter gf) as [games|]; cbn [bind]; [|reflexivity].
    pose proof (maker_render_games_rel sys repr c1 c2 games l1 l2 k H) as R.
    destruct (Maker.render_games sys repr c1 games (l1, k)) as [[l1' k1]|e1];
      destruct (Maker.render_games sys repr c2 games (l2, k)) as [[l2' k2]|e2];
      cbn [Spec.state_rel bind] in *; try contradiction.
    + destruct R as [R ->]. apply IH. exact R.
    + exact R.
Qed.

(** *** Lines of a joined text *)

Lemma lines_from_app cur a rest :
  PyStr.lines_from cur (a ++ PyStr.newline ++ rest)
  = (PyStr.lines_from cur a ++ PyStr.lines_from "" rest)%list.
Proof.
  revert cur. induction a as [|c a IH]; intros cur; cbn [append PyStr.lines_from].
  - unfold PyStr.newline. cbn [append PyStr.lines_from]. rewrite Ascii.eqb_refl. reflexivity.
  - destruct (Ascii.eqb c (ascii_of_nat 10)); cbn [app]; rewrite IH; reflexivity.
Qed.

Lemma lines_join p rest :
  PyStr.lines (PyStr.join PyStr.newline (p :: rest)) = flat_map PyStr.lines (p :: rest).
Proof.
  revert p. induction rest as [|q rest IH]; intros p.
  - cbn [PyStr.join flat_map]. rewrite app_nil_r. reflexivity.
  - change (PyStr.join PyStr.newline (p :: q :: rest))
      with (p ++ PyStr.newline ++ PyStr.join PyStr.newline (q :: rest)).
    unfold PyStr.lines at 1. rewrite lines_from_app.
    change (PyStr.lines_from "" (PyStr.join PyStr.newline (q :: rest)))
      with (PyStr.lines (PyStr.join PyStr.newline (q :: rest))).
    rewrite IH. reflexivity.
Qed.

Lemma lines_join_nonempty parts :
  parts <> [] ->
  PyStr.lines (PyStr.join PyStr.newline parts) = flat_map PyStr.lines parts.
Proof. destruct parts as [|p rest]; [congruence|]. intros _. apply lines_join. Qed.

Lemma append_nil_r s : s ++ "" = s.
Proof. induction s as [|c s IH]; cbn [append]; [reflexivity | rewrite IH; reflexivity]. Qed.

Lemma append_snoc cur c s : (cur ++ String c "") ++ s = cur ++ String c s.
Proof. induction cur as [|a cur IH]; cbn [append]; [reflexivity | rewrite IH; reflexivity]. Qed.

Lemma lines_from_no_newline cur s :
  Spec.no_newline s = true -> PyStr.lines_from cur s = [cur ++ s].
Proof.
  revert cur. induction s as [|c s IH]; intros cur H; cbn [PyStr.lines_from].
  - rewrite append_nil_r. reflexivity.
  - cbn [Spec.no_newline] in H. apply andb_true_iff in H. destruct H as [Hc Hs].
    apply negb_true_iff in Hc. rewrite Hc, (IH _ Hs).
    rewrite append_snoc. reflexivity.
Qed.

Lemma strftime_no_newline dt : Spec.no_newline (Cal.strftime_ics dt) = true.
Proof.
  unfold Cal.strftime_ics, PyStr.pad4, PyStr.pad2.
  cbn [append Spec.no_newline].
  repeat match goal with
         | |- context [Ascii.eqb (PyStr.digit_char ?d) (ascii_of_nat 10)] =>
             let H := fresh in
             destruct (digit_char_spec d) as (_ & _ & H); rewrite H; clear H
         end.
  reflexivity.
Qed.

Lemma masked_lines_rel l1 l2 :
  Forall2 Spec.line_rel l1 l2 ->
  map Spec.mask_dtstamp (flat_map PyStr.lines l1)
  = map Spec.mask_dtstamp (flat_map PyStr.lines l2).
Proof.
  induction 1 as [|a b l1 l2 R _ IH]; [reflexivity|].
  cbn [flat_map]. rewrite !map_app, IH. f_equal.
  destruct R as [-> | (d1 & d2 & -> & ->)]; [reflexivity|].
  unfold PyStr.lines.
  rewrite !lines_from_no_newline
    by (cbn [append Spec.no_newline Ascii.eqb Bool.eqb negb andb];
        apply strftime_no_newline).
  reflexivity.
Qed.

Lemma joined_lines_rel (r1 r2 : res (list string * nat)) :
  Spec.state_rel r1 r2 ->
  Spec.same_but_dtstamp
    (bind (bind r1 (fun st => Ok (fst st ++ ics_footer)%list))
          (fun l => Ok (PyStr.join PyStr.newline l)))
    (bind (bind r2 (fun st => Ok (fst st ++ ics_footer)%list))
          (fun l => Ok (PyStr.join PyStr.newline l))).
Proof.
  destruct r1 as [[l1 k1]|e1]; destruct r2 as [[l2 k2]|e2];
    cbn [Spec.state_rel bind Spec.same_but_dtstamp fst]; try tauto.
  intros [R _].
  rewrite !lines_join_nonempty
    by (intros E; apply app_eq_nil in E; destruct E; discriminate).
  apply masked_lines_rel. apply Forall2_app; [exact R | apply lines_rel_refl].
Qed.

(** C10.  Two runs of a renderer on the same games, at different times,
    end the same way: with the same error, or with two texts that have the
    same lines once the value of every DTSTAMP line is blanked. *)
Theorem rendering_differs_only_in_dtstamp
    (eastern seoul : Cal.zone) (sys : Z -> option Z) (repr : json -> string)
    (clock1 clock2 : nat -> Cal.datetime) :
  (forall games,
      Spec.same_but_dtstamp
        (Updater.generate_ics_content eastern seoul sys repr clock1 games)
        (Updater.generate_ics_content eastern seoul sys repr clock2 games))
  /\ (forall games_data,
         Spec.same_but_dtstamp
           (Maker.generate_ics_content sys repr clock1 games_data)
           (Maker.generate_ics_content sys repr clock2 games_data)).
Proof.
  split.
  - intros games. unfold Updater.generate_ics_content, Updater.generate_ics_lines.
    apply joined_lines_rel, updater_render_games_rel, lines_rel_refl.
  - intros games_data. unfold Maker.generate_ics_content, Maker.generate_ics_lines.
    destruct (Py.get games_data "dates" (JList [])) as [df|]; cbn [bind]; [|reflexivity].
    destruct (Py.iter df) as [dates|]; cbn [bind]; [|reflexivity].
    apply joined_lines_rel, maker_render_dates_rel, lines_rel_refl.
Qed.

(** ** Concrete zones *)



(** ** No games *)

Lemma maker_render_dates_no_games sys repr clock dates st :
  forallb Spec.no_games_in_date dates = true ->
  Maker.render_dates sys repr clock dates st = Ok st.
Proof.
  revert st. induction dates as [|d dates IH]; intros st H; cbn [Maker.render_dates].
  - reflexivity.
  - cbn [forallb] in H. apply andb_true_iff in H. destruct H as [Hd Hrest].
    unfold Spec.no_games_in_date in Hd.
    destruct (Py.get d "games" (JList [])) as [gf|]; [|discriminate].
    cbn [bind].
    destruct (Py.iter gf) as [[|g games]|]; try discriminate.
    cbn [bind Maker.render_games]. apply IH. exact Hrest.
Qed.

(** C8.  A collection without games renders as the envelope alone: the
    eight header lines, an empty line and END:VCALENDAR, with no
    BEGIN:VEVENT in it. *)
Theorem no_games_render_as_the_envelope
    (eastern seoul : Cal.zone) (sys : Z -> option Z) (repr : json -> string)
    (clock : nat -> Cal.datetime) :
  Updater.generate_ics_content eastern seoul sys repr clock [] = Ok Spec.envelope
  /\ (forall games_data,
         Spec.has_no_games games_data = true ->
         Maker.generate_ics_content sys repr clock games_data = Ok Spec.envelope)
  /\ PyStr.lines Spec.envelope
     = [ "BEGIN:VCALENDAR"; "VERSION:2.0";
         "PRODID:-//MLB 2025 Postseason Auto-Updated//EN"; "CALSCALE:GREGORIAN";
         "METHOD:PUBLISH"; "X-WR-CALNAME:MLB 2025 Postseason"; "X-WR-TIMEZONE:UTC";
         "X-PUBLISHED-TTL:PT1H"; ""; "END:VCALENDAR" ]
  /\ PyStr.contains "BEGIN:VEVENT" Spec.envelope = false.
Proof.
  split; [reflexivity|]. split; [|split; vm_compute; reflexivity].
  intros games_data H. unfold Spec.has_no_games in H.
  unfold Maker.generate_ics_content, Maker.generate_ics_lines.
  destruct (Py.get games_data "dates" (JList [])) as [df|]; [|discriminate].
  cbn [bind].
  destruct (Py.iter df) as [dates|]; [|discriminate].
  cbn [bind]. rewrite (maker_render_dates_no_games _ _ _ _ _ H). reflexivity.
Qed.

(** Witness of C8: a document with two dates and no game. *)
Lemma no_games_render_as_the_envelope_witness :
  Spec.has_no_games (Spec.schedule [ []; [] ]) = true
  /\ Maker.generate_ics_content Sample.utc_machine Sample.repr_stub Sample.ticking
       (Spec.schedule [ []; [] ])
     = Ok Spec.envelope.
Proof.
  split; [reflexivity|].
  apply (no_games_render_as_the_envelope Cal.US_Eastern Sample.Asia_Seoul
           Sample.utc_machine Sample.repr_stub Sample.ticking).
  reflexivity.
Defined.

(** ** Games without a time *)





(** ** Errors outside the resolution of the time *)

Lemma get_game_date_time_total sys fields status :
  Py.get (JDict fields) "status" Maker.empty_dict = Ok (JDict status) ->
  exists times, Maker.get_game_date_time sys (JDict fields) = Ok times.
Proof.
  intros H. unfold Maker.get_game_date_time.
  rewrite H. cbn [bind]. rewrite !get_dict. cbn [bind].
  destruct (Py.is_True _); destruct (Py.truthy _); eauto;
    match goal with |- context [try_except ?b _] => destruct b; cbn [try_except]; eauto end.
Qed.





(** ** Writing the file *)







(** ** The worked example *)

Lemma append_assoc a b c : (a ++ b) ++ c = a ++ (b ++ c).
Proof. induction a as [|x a IH]; cbn [append]; [reflexivity | rewrite IH; reflexivity]. Qed.



(** ** A start time still to be determined, in MLB_API.py *)







(** ** Undetermined teams *)

(** With a placeholder in a team name the resolver only tries the format
    [%Y-%m-%dT%H:%M:%SZ]: a timestamp of another shape gives no time. *)
Lemma placeholder_team_needs_z_form eastern seoul sys s away home e :
  Py.any_in Updater.keywords (JStr away) = Ok true
  \/ Py.any_in Updater.keywords (JStr home) = Ok true ->
  Cal.strptime_z s = Raise e ->
  Updater.format_game_time eastern seoul sys (JStr s) (JStr away) (JStr home)
  = (None, None).
Proof.
  intros K P.
  unfold Updater.format_game_time, Updater.format_game_time_try,
    Updater.parse_game_datetime.
  assert (U : (if negb (Py.truthy (JStr s)) then Ok true
               else a <- Py.any_in Updater.keywords (JStr away) ;;
                    if a then Ok true else Py.any_in Updater.keywords (JStr home))
              = Ok true).
  { destruct (negb (Py.truthy (JStr s))); [reflexivity|].
    destruct K as [K|K].
    - rewrite K. reflexivity.
    - destruct (any_in_str Updater.keywords away) as [[|] ->]; cbn [bind];
        [reflexivity | exact K]. }
  rewrite U. cbn [bind Py.as_str]. rewrite P. reflexivity.
Qed.


(** C2, on the code.  With TBD as a team, the timestamp in the Z form
    resolves to 15:08 Eastern (19:08 UTC on 2025-10-20), but the bare date,
    the timestamp with an offset and the timestamp without one give no time
    at all, although each of them resolves when both teams are known: the
    bare date to that same 15:08 Eastern. *)
Theorem placeholder_team_with_other_shapes_gives_no_time :
  let resolve := Updater.format_game_time Cal.US_Eastern Sample.Asia_Seoul Sample.utc_machine in
  resolve (JStr "2025-10-20T13:08:00Z") (JStr "TBD") (JStr "Boston Red Sox")
  = (Some "20251020T190800Z", Some "20251020T223800Z")
  /\ resolve (JStr "2025-10-20") (JStr "TBD") (JStr "Boston Red Sox") = (None, None)
  /\ resolve (JStr "2025-10-20") (JStr "Seattle Mariners") (JStr "Boston Red Sox")
     = (Some "20251020T190800Z", Some "20251020T223800Z")
  /\ resolve (JStr "2025-10-20T13:08:00-04:00") (JStr "TBD") (JStr "Boston Red Sox")
     = (None, None)
  /\ resolve (JStr "2025-10-20T13:08:00-04:00") (JStr "Seattle Mariners") (JStr "Boston Red Sox")
     = (Some "20251020T170800Z", Some "20251020T203800Z")
  /\ resolve (JStr "2025-10-20T17:08:00") (JStr "TBD") (JStr "Boston Red Sox")
     = (None, None)
  /\ resolve (JStr "2025-10-20T17:08:00") (JStr "Seattle Mariners") (JStr "Boston Red Sox")
     = (Some "20251020T170800Z", Some "20251020T203800Z").
Proof. intros resolve. repeat split; vm_compute; reflexivity. Qed.

(** ** The canonical text of a timestamp is read back *)

Lemma read_num2_pad2 n rest :
  0 <= n <= 99 -> PyStr.read_num2 (PyStr.pad2 n ++ rest) = Some (n, rest).
Proof.
  intros Hn. unfold PyStr.pad2. cbn [append PyStr.read_num2].
  destruct (digit_char_spec (n / 10)) as (-> & -> & _).
  destruct (digit_char_spec n) as (-> & -> & _).
  f_equal. f_equal. zdiv.
Qed.

Lemma digit_char_mod d : PyStr.digit_char d = PyStr.digit_char (d mod 10).
Proof. unfold PyStr.digit_char. rewrite Z.mod_mod by lia. reflexivity. Qed.

Lemma read_day_pad2 n rest :
  0 <= n <= 99 -> Cal.read_day (PyStr.pad2 n ++ rest) = Some (n, rest).
Proof.
  intros Hn. rewrite <- (read_num2_pad2 n rest Hn).
  unfold PyStr.pad2. cbn [append].
  rewrite (digit_char_mod (n / 10)).
  pose proof (Z.mod_pos_bound (n / 10) 10 ltac:(lia)) as B.
  set (k := (n / 10) mod 10) in *.
  assert (C : k = 0 \/ k = 1 \/ k = 2 \/ k = 3 \/ k = 4 \/ k = 5 \/ k = 6
              \/ k = 7 \/ k = 8 \/ k = 9) by lia.
  repeat destruct C as [C|C]; rewrite C; reflexivity.
Qed.

Lemma prefix_refl b : prefix b b = true.
Proof.
  induction b as [|x b IH]; cbn [prefix]; [reflexivity|].
  destruct (ascii_dec x x); [exact IH | congruence].
Qed.

Lemma contains_at_end a b : PyStr.contains b (a ++ b) = true.
Proof.
  induction a as [|c a IH]; cbn [append].
  - destruct b as [|c b]; [reflexivity|].
    cbn [PyStr.contains]. rewrite prefix_refl. reflexivity.
  - cbn [PyStr.contains]. rewrite IH. apply orb_true_r.
Qed.

(** Every date and time of day has a text [YYYY-MM-DDTHH:MM:SSZ], which
    holds a Z and which strptime reads back. *)
Lemma strptime_z_iso_z y m d hh mi ss :
  Cal.valid_date y m d = true -> Cal.valid_time hh mi ss 0 = true ->
  Cal.strptime_z (Spec.iso_z y m d hh mi ss) = Ok (Cal.mkdt y m d hh mi ss 0 None)
  /\ PyStr.contains "Z" (Spec.iso_z y m d hh mi ss) = true.
Proof.
  intros Vd Vt.
  pose proof (valid_date_bounds _ _ _ Vd) as (By & Bm & Bd & Bd').
  pose proof (valid_time_bounds _ _ _ _ Vt) as (Bh & Bmi & Bs & _).
  split.
  - unfold Cal.strptime_z, Cal.scan_ymd, Cal.scan_hms_z, Spec.iso_z.
    change (PyStr.pad2 ss ++ "Z") with (PyStr.pad2 ss ++ "Z" ++ "").
    rewrite read_digits_pad4 by lia.
    cbn [Cal.obind append PyStr.expect_ci]. rewrite Ascii.eqb_refl. cbn [Cal.obind].
    rewrite read_num2_pad2 by lia.
    cbn [Cal.obind append PyStr.expect_ci]. rewrite Ascii.eqb_refl. cbn [Cal.obind].
    rewrite read_day_pad2 by lia.
    cbn [Cal.obind append PyStr.expect_ci]. rewrite Ascii.eqb_refl. cbn [Cal.obind].
    rewrite read_num2_pad2 by lia.
    cbn [Cal.obind append PyStr.expect_ci]. rewrite Ascii.eqb_refl. cbn [Cal.obind].
    rewrite read_num2_pad2 by lia.
    cbn [Cal.obind append PyStr.expect_ci]. rewrite Ascii.eqb_refl. cbn [Cal.obind].
    rewrite read_num2_pad2 by lia.
    cbn [Cal.obind append PyStr.expect_ci]. rewrite Ascii.eqb_refl. cbn [Cal.obind].
    unfold Cal.datetime_new. rewrite Vd, Vt. reflexivity.
  - unfold Spec.iso_z.
    repeat match goal with
           | |- PyStr.contains _ (?a ++ ?b ++ ?c) = true =>
               rewrite <- (append_assoc a b c)
           end.
    apply contains_at_end.
Qed.

(** ** Eastern time under the rule in force since 2007 *)

Lemma year_of_seconds_same_day d r r' :
  0 <= r < 86400 -> 0 <= r' < 86400 ->
  Cal.year_of_seconds (d * 86400 + r) = Cal.year_of_seconds (d * 86400 + r').
Proof.
  intros Hr Hr'. unfold Cal.year_of_seconds.
  replace ((d * 86400 + r) / 86400) with d by zdiv.
  replace ((d * 86400 + r') / 86400) with d by zdiv.
  reflexivity.
Qed.

(** At 15:08 of any day the two readings of the table agree: the offset
    that [localize] attaches to the wall time is the offset in force at the
    instant it gives, which is 19:08 UTC (daylight time) or 20:08 UTC
    (standard time) of that day. *)
Lemma us_eastern_1508_offsets_agree d :
  let w := Spec.wall_1508 d in
  let u := Spec.instant_of_wall Cal.US_Eastern w in
  Cal.zone_fromutc Cal.US_Eastern (u * Cal.us_per_second)
  = Cal.zone_localize Cal.US_Eastern (w * Cal.us_per_second)
  /\ (u = d * 86400 + 19 * 3600 + 8 * 60 \/ u = d * 86400 + 20 * 3600 + 8 * 60).
Proof.
  intros w u. subst u. unfold Spec.instant_of_wall, Cal.US_Eastern.
  cbn [Cal.zone_fromutc Cal.zone_localize].
  unfold Cal.us_per_second. rewrite !Z.div_mul by lia.
  unfold Cal.eastern_dst_utc, Cal.eastern_dst_local. subst w. unfold Spec.wall_1508.
  replace (Cal.year_of_seconds (d * 86400 + 15 * 3600 + 8 * 60))
    with (Cal.year_of_seconds (d * 86400 + 54480)) by (f_equal; lia).
  set (y := Cal.year_of_seconds (d * 86400 + 54480)).
  set (s3 := Cal.nth_sunday y 3 2). set (s11 := Cal.nth_sunday y 11 1).
  destruct ((s3 * 86400 + 3 * 3600 <=? d * 86400 + 15 * 3600 + 8 * 60)
            && (d * 86400 + 15 * 3600 + 8 * 60 <? s11 * 86400 + 1 * 3600)) eqn:L.
  - apply andb_true_iff in L. destruct L as [L1 L2].
    apply Z.leb_le in L1. apply Z.ltb_lt in L2.
    replace (Cal.year_of_seconds (d * 86400 + 15 * 3600 + 8 * 60 - -14400))
      with y by (unfold y; rewrite (year_of_seconds_same_day d 54480 68880) by lia;
                 f_equal; lia).
    fold s3 s11.
    assert (U : (s3 * 86400 + 7 * 3600 <=? d * 86400 + 15 * 3600 + 8 * 60 - -14400)
                && (d * 86400 + 15 * 3600 + 8 * 60 - -14400 <? s11 * 86400 + 6 * 3600)
                = true).
    { apply andb_true_iff. split; [apply Z.leb_le | apply Z.ltb_lt]; lia. }
    rewrite U. split; [reflexivity | left; lia].
  - replace (Cal.year_of_seconds (d * 86400 + 15 * 3600 + 8 * 60 - -18000))
      with y by (unfold y; rewrite (year_of_seconds_same_day d 54480 72480) by lia;
                 f_equal; lia).
    fold s3 s11.
    assert (U : (s3 * 86400 + 7 * 3600 <=? d * 86400 + 15 * 3600 + 8 * 60 - -18000)
                && (d * 86400 + 15 * 3600 + 8 * 60 - -18000 <? s11 * 86400 + 6 * 3600)
                = false).
    { apply andb_false_iff in L. apply andb_false_iff.
      destruct L as [L|L]; [left | right].
      - apply Z.leb_gt in L. apply Z.leb_gt. lia.
      - apply Z.ltb_ge in L. apply Z.ltb_ge. lia. }
    rewrite U. split; [reflexivity | right; lia].
Qed.

(** So the start of a placeholder, read on an Eastern clock, shows 15:08 on
    the Eastern day of the timestamp. *)
Lemma us_eastern_placeholder_reads_1508 t :
  let start := Spec.placeholder_instant Cal.US_Eastern t in
  start + Cal.zone_fromutc Cal.US_Eastern (start * Cal.us_per_second)
  = Spec.wall_1508 (Spec.zone_day Cal.US_Eastern t)
  /\ Spec.zone_day Cal.US_Eastern start = Spec.zone_day Cal.US_Eastern t.
Proof.
  intros start.
  destruct (us_eastern_1508_offsets_agree (Spec.zone_day Cal.US_Eastern t)) as [E _].
  cbv zeta in E. fold (Spec.placeholder_instant Cal.US_Eastern t) in E. fold start in E.
  assert (S : start + Cal.zone_fromutc Cal.US_Eastern (start * Cal.us_per_second)
              = Spec.wall_1508 (Spec.zone_day Cal.US_Eastern t)).
  { rewrite E. unfold start, Spec.placeholder_instant, Spec.instant_of_wall. lia. }
  split; [exact S|].
  unfold Spec.zone_day at 1. rewrite S. unfold Spec.wall_1508. zdiv.
Qed.

(** The rule on the postseason of 2025: daylight time ends on Sunday,
    2 November, at 06:00 UTC. *)
Example us_eastern_2025 :
  Cal.ord2ymd (Cal.nth_sunday 2025 3 2) = (2025, 3, 9)
  /\ Cal.ord2ymd (Cal.nth_sunday 2025 11 1) = (2025, 11, 2)
  /\ Spec.stamp (Spec.placeholder_instant Cal.US_Eastern
                   (Cal.ymd2ord 2025 11 1 * 86400 + 23 * 3600))
     = "20251101T190800Z"
  /\ Spec.stamp (Spec.placeholder_instant Cal.US_Eastern
                   (Cal.ymd2ord 2025 11 2 * 86400 + 23 * 3600))
     = "20251102T200800Z".
Proof. repeat split; vm_compute; reflexivity. Qed.

(** The wire form of an instant denotes that instant. *)
Lemma instant_of_stamp_stamp s :
  86400 <= s < (Cal.MAXORDINAL + 1) * 86400 ->
  Spec.instant_of_stamp (Spec.stamp s) = Some s.
Proof.
  intros Hs.
  destruct (of_wall_us_total (s * Cal.us_per_second) None) as [dt H].
  { unfold Cal.us_per_day, Cal.us_per_second, Cal.MAXORDINAL in *. lia. }
  apply of_wall_us_ok in H. destruct H as (V & _ & _ & _ & Hw & Hst).
  assert (Q : s * Cal.us_per_second / Cal.us_per_second = s)
    by (unfold Cal.us_per_second; zdiv).
  rewrite Q in Hw, Hst. rewrite <- Hst, (instant_of_strftime dt V), Hw. reflexivity.
Qed.

(** ** The two placeholder rules of MLB_PostSeason.py *)



(** The same for every canonical text [YYYY-MM-DDTHH:33:SSZ]. *)
Lemma minute_33_of_canonical_text eastern seoul sys y m d hh ss away home :
  Cal.zone_bounded eastern -> Cal.zone_bounded seoul ->
  Cal.valid_date y m d = true -> Cal.valid_time hh 33 ss 0 = true ->
  2 <= y <= 9998 ->
  let start :=
    Spec.placeholder_instant eastern
      (Cal.ymd2ord y m d * 86400 + hh * 3600 + 33 * 60 + ss) in
  Updater.format_game_time eastern seoul sys (JStr (Spec.iso_z y m d hh 33 ss))
    (JStr away) (JStr home)
  = (Some (Spec.stamp start), Some (Spec.stamp (start + 12600))).
Proof.
  intros He Hs Vd Vt Hy.
  destruct (strptime_z_iso_z y m d hh 33 ss Vd Vt) as [P C].
  exact (minute_33_times eastern seoul sys _ away home _ He Hs P C eq_refl Hy).
Qed.


(** ** The embedding on sample inputs *)

Example get_team_location_samples :
  Updater.get_team_location (JStr "Boston Red Sox") = Ok "Boston"
  /\ Updater.get_team_location (JStr "St. Louis Cardinals") = Ok "St. Louis"
  /\ Updater.get_team_location (JStr "Los Angeles Dodgers") = Ok "LA Dodgers"
  /\ Updater.get_team_location (JStr "Winner of ALDS 1") = Ok "Winner of ALDS 1"
  /\ Updater.get_team_location (JStr "TBD") = Ok "TBD"
  /\ Updater.get_team_location (JStr "") = Raise IndexError.
Proof. repeat split; vm_compute; reflexivity. Qed.

Example updater_get_series_name_samples :
  Updater.get_series_name (JStr "D") (JStr "AL Division Series") = Ok "ALDS"
  /\ Updater.get_series_name (JStr "L") (JStr "National League Championship Series")
     = Ok "NLCS"
  /\ Updater.get_series_name (JStr "F") (JStr "AL Wild Card Series") = Ok "WC"
  /\ Updater.get_series_name (JStr "W") (JStr "World Series") = Ok "WS"
  /\ Updater.get_series_name (JStr "D") (JStr "") = Ok "DS"
  /\ Updater.get_series_name (JStr "S") (JStr "") = Ok "Postseason".
Proof. repeat split; vm_compute; reflexivity. Qed.

Example create_event_summary_sample :
  Updater.create_event_summary Sample.repr_stub
    (Sample.updater_game "2025-10-20T23:08:00Z" "Seattle Mariners" "Boston Red Sox")
  = Ok "ALCS 1: Seattle @ Boston".
Proof. vm_compute. reflexivity. Qed.

Example maker_get_series_name_samples :
  Maker.get_series_name Sample.repr_stub
    (Sample.seattle_at_detroit [ ("statusCode", JStr "F") ])
  = Ok "ALDS3(2-1) Seattle Leads "
  /\ Maker.get_description Sample.repr_stub
       (Sample.seattle_at_detroit [ ("statusCode", JStr "S") ])
     = Ok "Seattle - Detroit".
Proof. repeat split; vm_compute; reflexivity. Qed.

(** The resolver of the updater on each shape of timestamp, both teams
    known: a confirmed Z time is kept, minute 33 and the bare date give
    15:08 Eastern (19:08 UTC in October), an offset is converted, and a
    time without offset is read as UTC. *)
Example format_game_time_samples :
  let resolve s :=
    Updater.format_game_time Cal.US_Eastern Sample.Asia_Seoul Sample.utc_machine
      (JStr s) (JStr "Seattle Mariners") (JStr "Toronto Blue Jays") in
  resolve "2025-10-15T23:08:00Z" = (Some "20251015T230800Z", Some "20251016T023800Z")
  /\ resolve "2025-10-24T07:33:00Z" = (Some "20251024T190800Z", Some "20251024T223800Z")
  /\ resolve "2025-09-30T13:08:00-04:00" = (Some "20250930T170800Z", Some "20250930T203800Z")
  /\ resolve "2025-09-30T17:08:00" = (Some "20250930T170800Z", Some "20250930T203800Z")
  /\ resolve "2025-09-30" = (Some "20250930T190800Z", Some "20250930T223800Z")
  /\ resolve "" = (None, None)
  /\ resolve "next week" = (None, None).
Proof. intros resolve. repeat split; vm_compute; reflexivity. Qed.

(** ** Team names in MLB_PostSeason.py *)

Lemma split_ws_from_cur cur s : cur <> "" -> PyStr.split_ws_from cur s <> [].
Proof.
  revert cur. induction s as [|c s IH]; intros cur Hc; cbn [PyStr.split_ws_from].
  - destruct cur; [congruence | discriminate].
  - destruct (PyStr.is_space c).
    + destruct cur; [congruence | discriminate].
    + apply IH. destruct cur; discriminate.
Qed.

Lemma flush_nonempty cur l : l <> [] -> PyStr.flush cur l <> [].
Proof. destruct cur; cbn; [auto | discriminate]. Qed.

(** A text that holds a word holds at least one word. *)
Lemma split_ws_from_contains c k cur s :
  PyStr.is_space c = false ->
  PyStr.contains (String c k) s = true ->
  PyStr.split_ws_from cur s <> [].
Proof.
  intros Hc. revert cur. induction s as [|a s IH]; intros cur H.
  - cbn in H. discriminate.
  - cbn [PyStr.contains] in H. cbn [PyStr.split_ws_from].
    apply orb_true_iff in H. destruct H as [H|H].
    + cbn [prefix] in H. destruct (ascii_dec c a) as [<-|]; [|discriminate].
      rewrite Hc. apply split_ws_from_cur. destruct cur; discriminate.
    + destruct (PyStr.is_space a).
      * apply flush_nonempty. apply IH. exact H.
      * apply IH. exact H.
Qed.

Lemma split_ws_from_words cur s :
  Forall (fun w => w <> "") (PyStr.split_ws_from cur s).
Proof.
  revert cur. induction s as [|c s IH]; intros cur; cbn [PyStr.split_ws_from].
  - destruct cur; cbn; constructor; [discriminate | constructor].
  - destruct (PyStr.is_space c); [|apply IH].
    destruct cur; cbn; [apply IH|].
    constructor; [discriminate | apply IH].
Qed.

Lemma keyword_has_word kws name :
  Forall (fun k => exists c k', k = String c k' /\ PyStr.is_space c = false) kws ->
  Py.any_in kws (JStr name) = Ok true ->
  PyStr.split_ws name <> [].
Proof.
  induction 1 as [|k kws (c & k' & -> & Hc) _ IH]; cbn [Py.any_in Py.in_str bind].
  - discriminate.
  - destruct (PyStr.contains (String c k') name) eqn:E.
    + intros _. eapply split_ws_from_contains; eassumption.
    + exact IH.
Qed.

Lemma keywords_are_words :
  Forall (fun k => exists c k', k = String c k' /\ PyStr.is_space c = false)
         Updater.keywords.
Proof. repeat constructor; eexists; eexists; split; reflexivity. Qed.

Lemma get_team_location_cases (full_team_name : string) :
  (PyStr.split_ws full_team_name = []
   /\ Updater.get_team_location (JStr full_team_name) = Raise IndexError)
  \/ (PyStr.split_ws full_team_name <> []
      /\ exists short,
           Updater.get_team_location (JStr full_team_name) = Ok short /\ short <> "").
Proof.
  unfold Updater.get_team_location.
  cbn [Py.table_get Py.hashable bind].
  destruct (find _ Updater.special_cases) as [kv|] eqn:F.
  - right. apply find_some in F. destruct F as [Hin Heq].
    apply String.eqb_eq in Heq. subst full_team_name.
    cbn [Updater.special_cases In] in Hin.
    repeat (destruct Hin as [<- | Hin]; [split; [vm_compute; discriminate | eexists; split; [reflexivity | discriminate]]|]).
    contradiction.
  - cbn [bind].
    pose proof (split_ws_from_words "" full_team_name) as W.
    fold (PyStr.split_ws full_team_name) in W.
    destruct (PyStr.split_ws full_team_name) as [|w0 rest] eqn:S.
    + left. split; [reflexivity|]. cbn [List.length Nat.ltb Nat.leb andb].
      destruct (Py.any_in Updater.keywords (JStr full_team_name)) as [[|]|] eqn:K;
        cbn [bind]; try reflexivity.
      * exfalso. apply (keyword_has_word _ _ keywords_are_words K). exact S.
      * destruct (any_in_str Updater.keywords full_team_name) as [b Hb]. congruence.
    + right. split; [discriminate|].
      destruct (_ && _)%bool.
      * eexists. split; [reflexivity|]. cbn [nth]. destruct w0; discriminate.
      * destruct (any_in_str Updater.keywords full_team_name) as [b ->]. cbn [bind].
        destruct b.
        -- eexists. split; [reflexivity|]. intros ->. discriminate S.
        -- eexists. split; [reflexivity|]. inversion W; assumption.
Qed.


(** ** Series names and summaries in MLB_PostSeason.py *)

Lemma type_map_values found game_type :
  Py.table_get Updater.type_map game_type = Ok found ->
  In (match found with Some s => s | None => "Postseason" end)
     [ "WC"; "DS"; "CS"; "WS"; "Postseason" ].
Proof.
  unfold Py.table_get. destruct (Py.hashable game_type); [|discriminate].
  destruct game_type; try (intros [= <-]; cbn [In]; auto 6; fail).
  match goal with |- context [find ?f ?l] =>
    destruct (find f l) as [kv|] eqn:F end; intros [= <-]; [|cbn; auto 6].
  apply find_some in F. destruct F as [Hin _].
  cbn [Updater.type_map In] in Hin.
  repeat (destruct Hin as [<- | Hin]; [cbn; auto 6|]). contradiction.
Qed.

(** Whatever its arguments, a series name is one of nine texts. *)
Lemma updater_series_name_range game_type series_desc name :
  Updater.get_series_name game_type series_desc = Ok name ->
  In name [ "WC"; "DS"; "CS"; "WS"; "Postseason"; "ALDS"; "ALCS"; "NLDS"; "NLCS" ].
Proof.
  unfold Updater.get_series_name. intros H.
  bind_inv H. apply type_map_values in E.
  bind_inv H.
  assert (L : match x0 with
              | Some n => In n [ "ALDS"; "ALCS"; "NLDS"; "NLCS" ]
              | None => True
              end).
  { destruct (Py.truthy series_desc); [|injection E0 as <-; exact I].
    bind_inv E0. destruct x1.
    - injection E0 as <-.
      destruct (Py.eq_str game_type "D"); [cbn; auto|].
      destruct (Py.eq_str game_type "L"); [cbn; auto|exact I].
    - bind_inv E0. destruct x1; injection E0 as <-; [|exact I].
      destruct (Py.eq_str game_type "D"); [cbn; auto|].
      destruct (Py.eq_str game_type "L"); [cbn; auto|exact I]. }
  destruct x0 as [n|].
  - injection H as <-. cbn [In] in L |- *. intuition.
  - destruct (Py.eq_str game_type "F"); [injection H as <-; cbn; auto|].
    destruct (Py.eq_str game_type "W"); [injection H as <-; cbn; auto|].
    injection H as <-. cbn [In] in E |- *. intuition.
Qed.

Lemma in_str_str k s : Py.in_str k (JStr s) = Ok (PyStr.contains k s).
Proof. reflexivity. Qed.

(** X2.  [get_series_name] of MLB_PostSeason.py on two strs always returns,
    and the game type decides the result: WC for F and WS for W whatever
    the description says, a Division or Championship Series with the
    league only where the description names one, and Postseason for every
    other game type. *)
Theorem series_name_follows_the_game_type (game_type series_desc : string) :
  exists name,
    Updater.get_series_name (JStr game_type) (JStr series_desc) = Ok name
    /\ (game_type = "F" -> name = "WC")
    /\ (game_type = "W" -> name = "WS")
    /\ (game_type = "D" -> name = "ALDS" \/ name = "NLDS" \/ name = "DS")
    /\ (game_type = "L" -> name = "ALCS" \/ name = "NLCS" \/ name = "CS")
    /\ (game_type <> "F" -> game_type <> "W" -> game_type <> "D" -> game_type <> "L" ->
        name = "Postseason")
    /\ (PyStr.contains "AL" series_desc = false ->
        PyStr.contains "NL" series_desc = false ->
        PyStr.contains "American League" series_desc = false ->
        PyStr.contains "National League" series_desc = false ->
        name <> "ALDS" /\ name <> "ALCS" /\ name <> "NLDS" /\ name <> "NLCS").
Proof.
  unfold Updater.get_series_name.
  cbn [Py.table_get Py.hashable bind Py.truthy Py.eq_str].
  rewrite !in_str_str.
  destruct (String.eqb_spec game_type "F") as [->|NF];
    [destruct (negb (series_desc =? "")%string); cbn [bind];
     repeat (destruct (PyStr.contains _ series_desc); cbn [bind]);
     eexists; (split; [reflexivity|]); repeat split; intros; try discriminate; try congruence; auto|].
  destruct (String.eqb_spec game_type "W") as [->|NW];
    [destruct (negb (series_desc =? "")%string); cbn [bind];
     repeat (destruct (PyStr.contains _ series_desc); cbn [bind]);
     eexists; (split; [reflexivity|]); repeat split; intros; try discriminate; try congruence; auto|].
  destruct (String.eqb_spec game_type "D") as [->|ND];
    [destruct (negb (series_desc =? "")%string); cbn [bind];
     repeat (destruct (PyStr.contains _ series_desc); cbn [bind]);
     eexists; (split; [reflexivity|]); repeat split; intros; try discriminate; try congruence; auto|].
  destruct (String.eqb_spec game_type "L") as [->|NL];
    [destruct (negb (series_desc =? "")%string); cbn [bind];
     repeat (destruct (PyStr.contains _ series_desc); cbn [bind]);
     eexists; (split; [reflexivity|]); repeat split; intros; try discriminate; try congruence; auto|].
  assert (F : find (fun kv : string * string => (fst kv =? game_type)%string)
                Updater.type_map = None).
  { unfold Updater.type_map. cbn [find fst].
    destruct (String.eqb_spec "F" game_type); [congruence|].
    destruct (String.eqb_spec "D" game_type); [congruence|].
    destruct (String.eqb_spec "L" game_type); [congruence|].
    destruct (String.eqb_spec "W" game_type); [congruence|]. reflexivity. }
  rewrite F.
  destruct (negb (series_desc =? "")%string); cbn [bind];
    repeat (destruct (PyStr.contains _ series_desc); cbn [bind]);
    eexists; (split; [reflexivity|]); repeat split; intros; try discriminate; try congruence; auto.
Qed.

Lemma prefix_app a b : prefix a (a ++ b) = true.
Proof.
  induction a as [|x a IH]; cbn [append prefix]; [destruct b; reflexivity|].
  destruct (ascii_dec x x); [exact IH | congruence].
Qed.

(** X3.  The summary of a game starts with the check mark exactly when the
    status of the game is Final or Game Over. *)
Theorem finished_games_and_only_they_get_the_check_mark
    (repr : json -> string) (fields : list (string * json)) (summary : string) :
  Updater.create_event_summary repr (JDict fields) = Ok summary ->
  prefix "✓ " summary
  = Py.in_strs (Spec.field fields "status" (JStr "")) Updater.final_states.
Proof.
  unfold Updater.create_event_summary. rewrite !get_dict. cbn [bind].
  intros H. bind_inv H. bind_inv H.
  repeat (rewrite !get_dict in H; cbn [bind] in H).
  bind_inv H. repeat (rewrite !get_dict in H; cbn [bind] in H).
  apply updater_series_name_range in E1.
  destruct (Py.in_strs _ Updater.final_states).
  - repeat (rewrite !get_dict in H; cbn [bind] in H).
    injection H as <-. apply (prefix_app "✓ ").
  - injection H as <-. cbn [In] in E1.
    repeat (destruct E1 as [<- | E1]; [reflexivity|]). contradiction.
Qed.

(** ** The shape of a calendar *)










(** ** A date is the date of its ordinal *)



Lemma month_cases m :
  1 <= m <= 12 ->
  m = 1 \/ m = 2 \/ m = 3 \/ m = 4 \/ m = 5 \/ m = 6 \/ m = 7 \/ m = 8
  \/ m = 9 \/ m = 10 \/ m = 11 \/ m = 12.
Proof. lia. Qed.

(** The days before each month and in it. *)
Lemma month_table y m :
  1 <= m <= 12 ->
  let L := if Cal.is_leap y then 1 else 0 in
  let before := Cal.days_before_month y m in
  let within := Cal.days_in_month y m in
  (m = 1 /\ before = 0 /\ within = 31)
  \/ (m = 2 /\ before = 31 /\ within = 28 + L)
  \/ (m = 3 /\ before = 59 + L /\ within = 31)
  \/ (m = 4 /\ before = 90 + L /\ within = 30)
  \/ (m = 5 /\ before = 120 + L /\ within = 31)
  \/ (m = 6 /\ before = 151 + L /\ within = 30)
  \/ (m = 7 /\ before = 181 + L /\ within = 31)
  \/ (m = 8 /\ before = 212 + L /\ within = 31)
  \/ (m = 9 /\ before = 243 + L /\ within = 30)
  \/ (m = 10 /\ before = 273 + L /\ within = 31)
  \/ (m = 11 /\ before = 304 + L /\ within = 30)
  \/ (m = 12 /\ before = 334 + L /\ within = 31).
Proof.
  intros Hm. apply month_cases in Hm. cbv zeta.
  unfold Cal.days_before_month, Cal.days_in_month.
  repeat destruct Hm as [Hm|Hm]; subst m; destruct (Cal.is_leap y);
    repeat (first [left; repeat split; reflexivity
                  | right; repeat split; reflexivity
                  | right]).
Qed.







(** ** The canonical texts of a timestamp *)












Lemma pad2_zero : PyStr.pad2 0 = "00".
Proof. reflexivity. Qed.












(** ** The resolver of MLB_PostSeason.py on each shape of timestamp *)





Lemma truthy_text y rest : Py.truthy (JStr (PyStr.pad4 y ++ rest)) = true.
Proof. reflexivity. Qed.









(** ** The resolver of MLB_API.py on each shape of timestamp *)




(** ** Fetching the schedule in MLB_PostSeason.py *)

Lemma append_postseason_games_spec schedule games :
  fst (Updater.append_postseason_games schedule games)
  = (games ++ filter Spec.is_postseason_game (Spec.leading_dicts schedule))%list.
Proof.
  revert games. induction schedule as [|game rest IH]; intros games;
    cbn [Updater.append_postseason_games Spec.leading_dicts filter fst].
  - symmetry. apply app_nil_r.
  - destruct game as [| | | | |fields];
      try (cbn [Py.get fst filter]; symmetry; apply app_nil_r).
    rewrite get_dict. cbn [filter Spec.is_postseason_game].
    change Updater.postseason_game_types with [ "F"; "D"; "L"; "W" ].
    destruct (Py.in_strs _ _); rewrite IH; [|reflexivity].
    rewrite <- app_assoc. reflexivity.
Qed.

Lemma fetch_date_spec api date_str games :
  Updater.fetch_date api date_str games
  = (games ++ Spec.games_of_day (api date_str date_str))%list.
Proof.
  unfold Updater.fetch_date, Spec.games_of_day.
  destruct (api date_str date_str) as [schedule|e].
  - apply append_postseason_games_spec.
  - symmetry. apply app_nil_r.
Qed.

Lemma schedule_loop_step api fuel cur next games :
  Cal.le_naive cur Updater.postseason_end = true ->
  Cal.add_timedelta cur (Cal.days 1) = Ok next ->
  Updater.schedule_loop api (S fuel) cur games
  = Updater.schedule_loop api fuel next
      (games ++ Spec.games_of_day (api (Cal.strftime_mdy cur) (Cal.strftime_mdy cur)))%list.
Proof.
  intros L A. cbn [Updater.schedule_loop]. rewrite L, A, fetch_date_spec. reflexivity.
Qed.

Lemma schedule_loop_stop api fuel cur games :
  Cal.le_naive cur Updater.postseason_end = false ->
  Updater.schedule_loop api (S fuel) cur games = Some (Ok games).
Proof. intros L. cbn [Updater.schedule_loop]. rewrite L. reflexivity. Qed.

Lemma get_postseason_schedule_days
    (statsapi_schedule : string -> string -> res (list json)) (fuel : nat) :
  (35 <= fuel)%nat ->
  Updater.get_postseason_schedule statsapi_schedule fuel
  = Some (Ok (List.concat
                (map (fun day => Spec.games_of_day (statsapi_schedule day day))
                     Spec.postseason_days))).
Proof.
  intros H. destruct (Nat.le_exists_sub 35 fuel H) as (k & -> & _).
  rewrite Nat.add_comm. cbn [Nat.add].
  unfold Updater.get_postseason_schedule, Updater.postseason_start.
  do 34 (erewrite schedule_loop_step; [ | vm_compute; reflexivity | vm_compute; reflexivity ]).
  rewrite schedule_loop_stop by (vm_compute; reflexivity).
  do 2 f_equal. cbn [app].
  etransitivity; [symmetry; apply app_nil_r|].
  rewrite <- !app_assoc. reflexivity.
Qed.

(** X11.  [get_postseason_schedule] of MLB_PostSeason.py ends after a
    request for each of the 34 days from 30 September to 2 November 2025,
    in order.  A day adds the games of type F, D, L or W among the entries
    of its answer that come before the first entry that is not a dict; a
    day whose request fails adds nothing and the other days keep their
    games. *)
Theorem postseason_schedule_asks_each_day_once
    (statsapi_schedule : string -> string -> res (list json)) (fuel : nat) :
  (35 <= fuel)%nat ->
  Updater.get_postseason_schedule statsapi_schedule fuel
  = Some (Ok (List.concat
                (map (fun day => Spec.games_of_day (statsapi_schedule day day))
                     Spec.postseason_days))).
Proof. exact (get_postseason_schedule_days statsapi_schedule fuel). Qed.

(** ** The records of the alternative schedule in MLB_PostSeason.py *)

(** What a record of [parse_game_data] is made of. *)
Lemma parse_game_data_fields repr game_data info :
  Updater.parse_game_data repr game_data = Some info ->
  exists fields status_dict status away_name home_name away_score home_score venue
         venue_name inning_field,
    game_data = JDict fields
    /\ Py.get (JDict fields) "status" (JDict []) = Ok status_dict
    /\ Py.get status_dict "detailedState" (JStr "Scheduled") = Ok status
    /\ Updater.team_name_of game_data "away" = Ok away_name
    /\ Updater.team_name_of game_data "home" = Ok home_name
    /\ Updater.score_of game_data "away" = Ok away_score
    /\ Updater.score_of game_data "home" = Ok home_score
    /\ Py.get (JDict fields) "venue" (JDict []) = Ok venue
    /\ Py.get venue "name" (JStr "TBD") = Ok venue_name
    /\ (inning_field = [] \/ exists inning, inning_field = [ ("inning", inning) ])
    /\ info
       = JDict ([ ("game_id", Spec.field fields "gamePk" (JStr ""));
                  ("game_type", Spec.field fields "gameType" (JStr ""));
                  ("game_date", Spec.field fields "gameDate" (JStr ""));
                  ("game_datetime", Spec.field fields "gameDate" (JStr ""));
                  ("status", status);
                  ("away_name", away_name);
                  ("home_name", home_name);
                  ("away_score", away_score);
                  ("home_score", home_score);
                  ("venue_name", venue_name);
                  ("series_description", Spec.field fields "seriesDescription" (JStr ""));
                  ("series_game_number", Spec.field fields "seriesGameNumber" (JInt 1));
                  ("game_number", Spec.field fields "gameNumber" (JInt 1)) ]
                ++ inning_field)%list.
Proof.
  unfold Updater.parse_game_data.
  destruct (Updater.parse_game_data_try repr game_data) as [r|] eqn:H; [|discriminate].
  intros [= <-]. unfold Updater.parse_game_data_try in H.
  destruct game_data as [| | | | |fields]; try discriminate H.
  bind_inv H. bind_inv H.
  repeat (rewrite !get_dict in H; cbn [bind] in H).
  bind_inv H. bind_inv H. bind_inv H. bind_inv H. bind_inv H.
  repeat (rewrite !get_dict in H; cbn [bind] in H).
  bind_inv H. bind_inv H. bind_inv H. injection H as <-.
  assert (I : x8 = [] \/ exists inning, x8 = [ ("inning", inning) ]).
  { destruct x7 as [linescore|]; [|injection E8 as <-; auto].
    bind_inv E8. bind_inv E8.
    destruct (Py.truthy x7); injection E8 as <-; eauto. }
  exists fields, (Spec.field fields "status" (JDict [])), x1, x2, x3, x4, x5,
    (Spec.field fields "venue" (JDict [])), x6, x8.
  rewrite !get_dict.
  repeat (split; [first [reflexivity | assumption]|]). reflexivity.
Qed.

Lemma get_not_dict v key default :
  Spec.is_dict v = false -> Py.get v key default = Raise AttributeError.
Proof. destruct v; [reflexivity..|discriminate]. Qed.

Lemma get_section v key :
  Spec.is_dict v = true -> Py.get v key (JDict []) = Ok (Spec.section v key).
Proof. destruct v; try discriminate. intros _. apply get_dict. Qed.

Lemma get_any_default v key default :
  Spec.is_dict v = true -> exists x, Py.get v key default = Ok x.
Proof. destruct v; try discriminate. intros _. rewrite get_dict. eauto. Qed.

Lemma side_of_spec game_data side :
  Updater.side_of game_data side
  = if Spec.is_dict game_data && Spec.is_dict (Spec.section game_data "teams")
    then Ok (Spec.section (Spec.section game_data "teams") side)
    else Raise AttributeError.
Proof.
  unfold Updater.side_of.
  destruct (Spec.is_dict game_data) eqn:D; cbn [andb].
  - rewrite (get_section _ _ D). cbn [bind].
    destruct (Spec.is_dict (Spec.section game_data "teams")) eqn:T.
    + apply get_section. exact T.
    + apply get_not_dict. exact T.
  - rewrite (get_not_dict _ _ _ D). reflexivity.
Qed.

Lemma team_name_of_ok game_data side :
  is_ok (Updater.team_name_of game_data side)
  = Spec.is_dict game_data && Spec.is_dict (Spec.section game_data "teams")
    && Spec.is_dict (Spec.section (Spec.section game_data "teams") side)
    && Spec.is_dict (Spec.section (Spec.section (Spec.section game_data "teams") side) "team").
Proof.
  unfold Updater.team_name_of. rewrite side_of_spec.
  destruct (Spec.is_dict game_data && Spec.is_dict (Spec.section game_data "teams"));
    cbn [bind andb]; [|reflexivity].
  set (s := Spec.section (Spec.section game_data "teams") side).
  destruct (Spec.is_dict s) eqn:S; cbn [andb].
  - rewrite (get_section _ _ S). cbn [bind].
    destruct (Spec.is_dict (Spec.section s "team")) eqn:T.
    + destruct (get_any_default _ "name" (JStr "TBD") T) as [x ->]. reflexivity.
    + rewrite (get_not_dict _ _ _ T). reflexivity.
  - rewrite (get_not_dict _ _ _ S). reflexivity.
Qed.

Lemma score_of_ok game_data side :
  is_ok (Updater.score_of game_data side)
  = Spec.is_dict game_data && Spec.is_dict (Spec.section game_data "teams")
    && Spec.is_dict (Spec.section (Spec.section game_data "teams") side).
Proof.
  unfold Updater.score_of. rewrite side_of_spec.
  destruct (Spec.is_dict game_data && Spec.is_dict (Spec.section game_data "teams"));
    cbn [bind andb]; [|reflexivity].
  set (s := Spec.section (Spec.section game_data "teams") side).
  destruct (Spec.is_dict s) eqn:S.
  - destruct (get_any_default _ "score" (JInt 0) S) as [x ->]. reflexivity.
  - rewrite (get_not_dict _ _ _ S). reflexivity.
Qed.

Lemma is_ok_true {A} (r : res A) : is_ok r = true -> exists a, r = Ok a.
Proof. destruct r; [eauto | discriminate]. Qed.

Lemma is_ok_false {A} (r : res A) : is_ok r = false -> exists e, r = Raise e.
Proof. destruct r; [discriminate | eauto]. Qed.

Lemma parse_game_data_ok repr game_data :
  is_ok (Updater.parse_game_data_try repr game_data) = Spec.well_nested game_data.
Proof.
  unfold Spec.well_nested.
  pose proof (team_name_of_ok game_data "away") as TA.
  pose proof (team_name_of_ok game_data "home") as TH.
  pose proof (score_of_ok game_data "away") as SA.
  pose proof (score_of_ok game_data "home") as SH.
  unfold Updater.parse_game_data_try.
  destruct (Spec.is_dict game_data) eqn:D; cbn [andb] in *;
    [|destruct (is_ok_false _ TA) as [e ->]; reflexivity].
  destruct (Spec.is_dict (Spec.section game_data "teams")); cbn [andb] in *;
    [|destruct (is_ok_false _ TA) as [e ->]; reflexivity].
  destruct (Spec.is_dict (Spec.section (Spec.section game_data "teams") "away"));
    cbn [andb] in *; [|destruct (is_ok_false _ TA) as [e ->]; reflexivity].
  destruct (Spec.is_dict
              (Spec.section (Spec.section (Spec.section game_data "teams") "away") "team"));
    cbn [andb] in *; [|destruct (is_ok_false _ TA) as [e ->]; reflexivity].
  destruct (is_ok_true _ TA) as [an ->]. cbn [bind].
  destruct (Spec.is_dict (Spec.section (Spec.section game_data "teams") "home"));
    cbn [andb] in *; [|destruct (is_ok_false _ TH) as [e ->]; reflexivity].
  destruct (Spec.is_dict
              (Spec.section (Spec.section (Spec.section game_data "teams") "home") "team"));
    cbn [andb] in *; [|destruct (is_ok_false _ TH) as [e ->]; reflexivity].
  destruct (is_ok_true _ TH) as [hn ->]. cbn [bind].
  destruct (is_ok_true _ SA) as [sa ->]. destruct (is_ok_true _ SH) as [sh ->].
  destruct game_data as [| | | | |fields]; try discriminate D.
  repeat (rewrite !get_dict; cbn [bind]).
  cbn [Spec.section].
  destruct (Spec.field fields "status" (JDict [])) as [| | | | |status];
    try reflexivity.
  rewrite get_dict. cbn [bind Spec.is_dict andb].
  destruct (Spec.field fields "venue" (JDict [])) as [| | | | |venue];
    try reflexivity.
  repeat (rewrite !get_dict; cbn [bind]).
  cbn [Spec.is_dict andb Py.item_if_in].
  assert (L : Spec.is_dict (Spec.field fields "linescore" (JDict []))
              = match Py.lookup "linescore" fields with
                | Some v => Spec.is_dict v
                | None => true
                end).
  { unfold Spec.field. destruct (Py.lookup "linescore" fields); reflexivity. }
  rewrite L.
  destruct (Py.lookup "linescore" fields) as [linescore|]; cbn [bind]; [|reflexivity].
  destruct linescore as [| | | | |ls]; try reflexivity.
  repeat (rewrite !get_dict; cbn [bind]).
  destruct (Py.truthy _); reflexivity.
Qed.

(** X12.  [parse_game_data] gives no record exactly for a raw game in
    which one of the sections it goes through (the game itself, teams, the
    two sides and their teams, status, venue, linescore) is there but is not
    an object.  A record has the thirteen keys in their order, it keeps
    the gameDate of the raw game, the empty text if there is none, as its
    game_date and as its game_datetime, and it counts as true. *)
Theorem parse_game_data_drops_only_ill_nested_games
    (repr : json -> string) (game_data : json) :
  (Spec.well_nested game_data = false -> Updater.parse_game_data repr game_data = None)
  /\ (Spec.well_nested game_data = true ->
      exists fields info,
        game_data = JDict fields
        /\ Updater.parse_game_data repr game_data = Some (JDict info)
        /\ map fst (firstn 13 info) = Spec.record_keys
        /\ Spec.field info "game_date" JNull = Spec.field fields "gameDate" (JStr "")
        /\ Spec.field info "game_datetime" JNull = Spec.field fields "gameDate" (JStr "")
        /\ Py.truthy (JDict info) = true).
Proof.
  pose proof (parse_game_data_ok repr game_data) as K.
  split; intros W; rewrite W in K.
  - unfold Updater.parse_game_data.
    destruct (is_ok_false _ K) as [e ->]. reflexivity.
  - destruct (is_ok_true _ K) as [r Hr].
    assert (P : Updater.parse_game_data repr game_data = Some r).
    { unfold Updater.parse_game_data. rewrite Hr. reflexivity. }
    destruct (parse_game_data_fields _ _ _ P)
      as (fields & sd & st & an & hn & sa & sh & v & vn & inn & -> & _ & _ & _ & _ & _ & _
          & _ & _ & _ & ->).
    eexists. eexists. split; [reflexivity|]. split; [exact P|].
    repeat split.
Qed.

(** ** The alternative schedule in MLB_PostSeason.py *)

Lemma parse_game_data_truthy repr game_data info :
  Updater.parse_game_data repr game_data = Some info -> Py.truthy info = true.
Proof.
  intros P.
  destruct (parse_game_data_fields _ _ _ P)
    as (fields & sd & st & an & hn & sa & sh & v & vn & inn & _ & _ & _ & _ & _ & _ & _
        & _ & _ & _ & ->).
  reflexivity.
Qed.

Lemma append_parsed_games_spec repr raw games :
  Updater.append_parsed_games repr raw games
  = (games ++ Spec.parsed_games repr raw)%list.
Proof.
  revert games. induction raw as [|game rest IH]; intros games;
    cbn [Updater.append_parsed_games Spec.parsed_games flat_map].
  - symmetry. apply app_nil_r.
  - fold (Spec.parsed_games repr rest).
    destruct (Updater.parse_game_data repr game) as [info|] eqn:P.
    + rewrite (parse_game_data_truthy _ _ _ P), IH, <- app_assoc. reflexivity.
    + rewrite IH. reflexivity.
Qed.

Lemma parsed_games_app repr a b :
  Spec.parsed_games repr (a ++ b)
  = (Spec.parsed_games repr a ++ Spec.parsed_games repr b)%list.
Proof. apply flat_map_app. Qed.

Lemma append_dates_schedule repr dates games :
  Updater.append_dates repr (map Spec.date_entry dates) games
  = ((games ++ Spec.parsed_games repr (List.concat dates))%list, Ok tt).
Proof.
  revert games. induction dates as [|raw dates IH]; intros games;
    cbn [map Updater.append_dates List.concat].
  - rewrite app_nil_r. reflexivity.
  - unfold Spec.date_entry at 1.
    cbn [Py.get Py.lookup String.eqb Ascii.eqb Bool.eqb bind Py.iter].
    rewrite IH, append_parsed_games_spec, parsed_games_app, <- app_assoc. reflexivity.
Qed.

(** X13.  [get_alternative_schedule]: when both requests succeed and the
    schedule is a document of dates with their games, the result is the
    records of the games that [parse_game_data] accepts, in the order of
    the document; a game it rejects is left out and the others stay.  When
    the season request fails, whose answer is never used, or the schedule
    request fails, the result is empty. *)
Theorem alternative_schedule_keeps_the_games_it_can_parse
    (repr : json -> string) (statsapi_get : string -> json -> res json) :
  (forall season dates,
      statsapi_get "season" Updater.season_params = Ok season ->
      statsapi_get "schedule" Updater.schedule_params = Ok (Spec.schedule dates) ->
      Updater.get_alternative_schedule repr statsapi_get
      = Spec.parsed_games repr (List.concat dates))
  /\ (forall e,
         statsapi_get "season" Updater.season_params = Raise e ->
         Updater.get_alternative_schedule repr statsapi_get = [])
  /\ (forall e,
         statsapi_get "schedule" Updater.schedule_params = Raise e ->
         Updater.get_alternative_schedule repr statsapi_get = []).
Proof.
  unfold Updater.get_alternative_schedule. repeat split.
  - intros season dates S1 S2. rewrite S1. cbn [bind]. rewrite S2. cbn [bind].
    unfold Spec.schedule.
    cbn [Py.item_if_in Py.lookup String.eqb Ascii.eqb Bool.eqb bind Py.iter].
    rewrite append_dates_schedule. reflexivity.
  - intros e S1. rewrite S1. reflexivity.
  - intros e S2. rewrite S2. destruct (statsapi_get "season" _); reflexivity.
Qed.



(** ** Live games and the period of the script in MLB_PostSeason.py *)

Lemma append_live_games_spec schedule live_games :
  Updater.append_live_games schedule live_games
  = if forallb Spec.is_dict schedule
    then Ok (live_games ++ filter Spec.is_live_game schedule)%list
    else Raise AttributeError.
Proof.
  revert live_games. induction schedule as [|game rest IH]; intros live_games;
    cbn [Updater.append_live_games forallb filter].
  - rewrite app_nil_r. reflexivity.
  - destruct game as [| | | | |fields]; try reflexivity.
    rewrite !get_dict. cbn [bind Spec.is_dict andb Spec.is_live_game Spec.is_postseason_game].
    change Updater.postseason_game_types with [ "F"; "D"; "L"; "W" ].
    change Updater.live_states with [ "In Progress"; "Live" ].
    destruct (Py.in_strs _ _ && Py.in_strs _ _); rewrite IH;
      destruct (forallb Spec.is_dict rest); try reflexivity.
    rewrite <- app_assoc. reflexivity.
Qed.

(** X15.  [get_live_games] is all or nothing: when the request succeeds
    and every entry of the answer is a dict, it returns the postseason games
    whose status is In Progress or Live, in their order; when the request
    fails or one entry is not a dict, it returns the empty list, also if
    live games came before that entry. *)
Theorem live_games_are_all_or_nothing
    (statsapi_schedule : string -> string -> res (list json)) (now : Cal.datetime) :
  Updater.get_live_games statsapi_schedule now
  = match statsapi_schedule (Cal.strftime_mdy now) (Cal.strftime_mdy now) with
    | Ok schedule =>
        if forallb Spec.is_dict schedule then filter Spec.is_live_game schedule else []
    | Raise _ => []
    end.
Proof.
  unfold Updater.get_live_games. cbv zeta.
  destruct (statsapi_schedule _ _) as [schedule|e]; cbn [bind]; [|reflexivity].
  rewrite append_live_games_spec.
  destruct (forallb Spec.is_dict schedule); reflexivity.
Qed.

(** X16.  The test the script makes before it runs holds exactly from
    28 September to 3 November of the year of the day, in every year; the
    days whose schedule [get_postseason_schedule] asks for, 30 September to
    2 November 2025, all pass it. *)
Theorem script_runs_from_28_september_to_3_november (today : Cal.datetime) :
  Spec.valid_dt today ->
  (Updater.in_postseason_period today = true
   <-> Cal.ymd2ord (Cal.year today) 9 28
       <= Cal.ymd2ord (Cal.year today) (Cal.month today) (Cal.day today)
       <= Cal.ymd2ord (Cal.year today) 11 3)
  /\ (Cal.le_naive Updater.postseason_start today = true ->
      Cal.le_naive today Updater.postseason_end = true ->
      Updater.in_postseason_period today = true).
Proof.
  intros [Vd Vt].
  pose proof (valid_date_bounds _ _ _ Vd) as (By & Bm & Bd & Bd').
  pose proof (valid_time_bounds _ _ _ _ Vt) as (Bh & Bmi & Bs & Bus).
  pose proof (month_table (Cal.year today) (Cal.month today) Bm) as T.
  pose proof (month_table (Cal.year today) 9 ltac:(lia)) as T9.
  pose proof (month_table (Cal.year today) 11 ltac:(lia)) as T11.
  cbv zeta in T, T9, T11.
  assert (P : Updater.in_postseason_period today = true
              <-> (Cal.month today = 9 /\ 28 <= Cal.day today)
                  \/ Cal.month today = 10
                  \/ (Cal.month today = 11 /\ Cal.day today <= 3)).
  { unfold Updater.in_postseason_period.
    rewrite !orb_true_iff, !andb_true_iff, !Z.eqb_eq, !Z.leb_le.
    rewrite or_assoc. reflexivity. }
  assert (B9 : Cal.days_before_month (Cal.year today) 9
               = 243 + (if Cal.is_leap (Cal.year today) then 1 else 0)) by lia.
  assert (B11 : Cal.days_before_month (Cal.year today) 11
                = 304 + (if Cal.is_leap (Cal.year today) then 1 else 0)) by lia.
  clear T9 T11.
  split.
  - rewrite P. unfold Cal.ymd2ord. rewrite B9, B11.
    destruct (Cal.is_leap (Cal.year today)); lia.
  - intros L1 L2. apply P.
    unfold Cal.le_naive, Cal.fields, Updater.postseason_start, Updater.postseason_end in L1, L2.
    cbn [Cal.lex_le Cal.year Cal.month Cal.day Cal.hour Cal.minute Cal.second
         Cal.microsecond] in L1, L2.
    apply orb_true_iff in L1. apply orb_true_iff in L2.
    rewrite andb_true_iff, orb_true_iff, andb_true_iff, orb_true_iff, andb_true_iff in L1, L2.
    rewrite !Z.ltb_lt, !Z.eqb_eq in L1, L2.
    assert (D1 : 2025 < Cal.year today
                 \/ (2025 = Cal.year today
                     /\ (9 < Cal.month today \/ (9 = Cal.month today /\ 30 <= Cal.day today)))).
    { destruct L1 as [?|[? [?|[? [?|[? _]]]]]]; lia. }
    assert (D2 : Cal.year today < 2025
                 \/ (Cal.year today = 2025
                     /\ (Cal.month today < 11
                         \/ (Cal.month today = 11 /\ Cal.day today <= 2)))).
    { destruct L2 as [?|[? [?|[? [?|[? _]]]]]]; lia. }
    clear L1 L2 T. lia.
Qed.

(** ** The wire form is read back *)

Lemma two_digits_pad2 p n rest :
  0 <= n <= 99 ->
  Cal.two_digits p (PyStr.pad2 n ++ rest)
  = if p (n / 10) (n mod 10) then [ (n, rest) ] else [].
Proof.
  intros Hn. unfold Cal.two_digits, PyStr.pad2. cbn [append].
  destruct (digit_char_spec (n / 10)) as (-> & -> & _).
  destruct (digit_char_spec n) as (-> & -> & _).
  cbn [andb].
  replace ((n / 10) mod 10) with (n / 10) by zdiv.
  replace (10 * (n / 10) + n mod 10) with n by zdiv.
  reflexivity.
Qed.

Ltac field_cases :=
  repeat match goal with
         | |- context [if ?c then [ _ ] else []] =>
             let C := fresh "C" in
             destruct c eqn:C; [cbn [app]; eexists; reflexivity | cbn [app]]
         end.

Ltac bool_props :=
  repeat match goal with
         | H : (_ && _) = false |- _ => apply andb_false_iff in H; destruct H as [H|H]
         | H : (_ =? _) = false |- _ => apply Z.eqb_neq in H
         | H : (_ <=? _) = false |- _ => apply Z.leb_gt in H
         end.

Lemma field_m_pad2 n rest :
  1 <= n <= 12 -> exists tl, Cal.field_m (PyStr.pad2 n ++ rest) = (n, rest) :: tl.
Proof.
  intros Hn. unfold Cal.field_m. rewrite !two_digits_pad2 by lia.
  field_cases. exfalso. bool_props; zdiv.
Qed.

Lemma field_d_pad2 n rest :
  1 <= n <= 31 -> exists tl, Cal.field_d (PyStr.pad2 n ++ rest) = (n, rest) :: tl.
Proof.
  intros Hn. unfold Cal.field_d. rewrite !two_digits_pad2 by lia.
  field_cases. exfalso. bool_props; zdiv.
Qed.

Lemma field_H_pad2 n rest :
  0 <= n <= 23 -> exists tl, Cal.field_H (PyStr.pad2 n ++ rest) = (n, rest) :: tl.
Proof.
  intros Hn. unfold Cal.field_H. rewrite !two_digits_pad2 by lia.
  field_cases. exfalso. bool_props; zdiv.
Qed.

Lemma field_M_pad2 n rest :
  0 <= n <= 59 -> exists tl, Cal.field_M (PyStr.pad2 n ++ rest) = (n, rest) :: tl.
Proof.
  intros Hn. unfold Cal.field_M. rewrite !two_digits_pad2 by lia.
  field_cases. exfalso. bool_props; zdiv.
Qed.

Lemma field_S_pad2 n rest :
  0 <= n <= 59 -> exists tl, Cal.field_S (PyStr.pad2 n ++ rest) = (n, rest) :: tl.
Proof.
  intros Hn. unfold Cal.field_S. rewrite !two_digits_pad2 by lia.
  field_cases. exfalso. bool_props; zdiv.
Qed.

Lemma literal_ci_same c rest : Cal.literal_ci c (String c rest) = [ rest ].
Proof.
  unfold Cal.literal_ci, PyStr.expect_ci. rewrite Ascii.eqb_refl. reflexivity.
Qed.

Lemma flat_map_first {A B} (f : A -> list B) a l x :
  (exists tl, f a = x :: tl) -> exists tl, flat_map f (a :: l) = x :: tl.
Proof. intros [tl E]. cbn [flat_map]. rewrite E. eexists. reflexivity. Qed.

(** [strptime] with the format [%Y%m%dT%H%M%SZ] reads back what
    [strftime] wrote with it, less the microseconds and the time zone. *)
Lemma strptime_ics_strftime dt :
  Spec.valid_dt dt ->
  Cal.strptime_ics (Cal.strftime_ics dt)
  = Ok (Cal.mkdt (Cal.year dt) (Cal.month dt) (Cal.day dt)
                 (Cal.hour dt) (Cal.minute dt) (Cal.second dt) 0 None).
Proof.
  intros [Vd Vt].
  pose proof (valid_date_bounds _ _ _ Vd) as (By & Bm & Bd & Bd').
  pose proof (valid_time_bounds _ _ _ _ Vt) as (Bh & Bmi & Bs & _).
  assert (Vt0 : Cal.valid_time (Cal.hour dt) (Cal.minute dt) (Cal.second dt) 0 = true)
    by (apply valid_time_intro; lia).
  assert (S : exists tl,
             Cal.scan_ics (Cal.strftime_ics dt)
             = (Cal.mkdt (Cal.year dt) (Cal.month dt) (Cal.day dt)
                         (Cal.hour dt) (Cal.minute dt) (Cal.second dt) 0 None, "") :: tl).
  { unfold Cal.scan_ics, Cal.strftime_ics, Cal.four_digits.
    rewrite read_digits_pad4 by lia.
    apply flat_map_first.
    destruct (field_m_pad2 (Cal.month dt)
                (PyStr.pad2 (Cal.day dt) ++ "T" ++ PyStr.pad2 (Cal.hour dt)
                 ++ PyStr.pad2 (Cal.minute dt) ++ PyStr.pad2 (Cal.second dt) ++ "Z")
                ltac:(lia)) as [tl1 ->].
    apply flat_map_first.
    destruct (field_d_pad2 (Cal.day dt)
                ("T" ++ PyStr.pad2 (Cal.hour dt)
                 ++ PyStr.pad2 (Cal.minute dt) ++ PyStr.pad2 (Cal.second dt) ++ "Z")
                ltac:(lia)) as [tl2 ->].
    apply flat_map_first.
    cbn [append]. rewrite literal_ci_same.
    apply flat_map_first.
    destruct (field_H_pad2 (Cal.hour dt)
                (PyStr.pad2 (Cal.minute dt) ++ PyStr.pad2 (Cal.second dt) ++ "Z")
                ltac:(lia)) as [tl3 ->].
    apply flat_map_first.
    destruct (field_M_pad2 (Cal.minute dt) (PyStr.pad2 (Cal.second dt) ++ "Z")
                ltac:(lia)) as [tl4 ->].
    apply flat_map_first.
    destruct (field_S_pad2 (Cal.second dt) "Z" ltac:(lia)) as [tl5 ->].
    apply flat_map_first.
    rewrite literal_ci_same. eexists. reflexivity. }
  destruct S as [tl S]. unfold Cal.strptime_ics. rewrite S.
  cbn [Cal.year Cal.month Cal.day Cal.hour Cal.minute Cal.second].
  unfold Cal.datetime_new. rewrite Vd, Vt0. reflexivity.
Qed.

Lemma of_wall_us_range x t dt :
  Cal.of_wall_us x t = Ok dt ->
  Cal.us_per_day <= x < (Cal.MAXORDINAL + 1) * Cal.us_per_day.
Proof.
  unfold Cal.of_wall_us. cbv zeta.
  destruct ((0 <? x / Cal.us_per_day) && (x / Cal.us_per_day <=? Cal.MAXORDINAL)) eqn:R;
    [|discriminate].
  intros _. apply andb_true_iff in R. destruct R as [R1 R2].
  apply Z.ltb_lt in R1. apply Z.leb_le in R2.
  unfold Cal.us_per_day, Cal.us_per_second, Cal.MAXORDINAL in *. zdiv.
Qed.

(** What the resolver of MLB_PostSeason.py returns as a start is the wire
    form of a datetime that its own conversion to Seoul time accepted. *)
Lemma format_game_time_start eastern seoul sys gd away home st en :
  Updater.format_game_time eastern seoul sys gd away home = (Some st, en) ->
  exists dt_utc kst,
    Spec.valid_dt dt_utc
    /\ st = Cal.strftime_ics dt_utc
    /\ Cal.astimezone_zone seoul dt_utc = Ok kst.
Proof.
  unfold Updater.format_game_time, Updater.format_game_time_try.
  destruct (Updater.parse_game_datetime eastern gd away home) as [[dt|]|] eqn:P;
    cbn [bind]; try discriminate.
  apply parse_game_datetime_valid in P.
  destruct (Updater.to_ics_times seoul sys (Some dt)) as [times|] eqn:T; [|discriminate].
  intros ->. unfold Updater.to_ics_times in T.
  bind_inv T. bind_inv T. bind_inv T. injection T as <- <-.
  exists x, x1. split; [|split; [reflexivity | exact E1]].
  destruct (Cal.tz_is_pytz_utc dt); cbn [negb] in E.
  - injection E as <-. exact P.
  - eapply astimezone_utc_valid; eassumption.
Qed.

(** X17.  The lines of [update_ics_file] that print the times of the first
    game never raise: the start the resolver returned is read back by
    [strptime], and its conversion to Seoul time succeeds as it did inside
    the resolver. *)
Theorem first_game_time_info_never_raises
    (eastern seoul : Cal.zone) (sys : Z -> option Z) (fields : list (string * json)) :
  Spec.whole_second_zone seoul ->
  Updater.first_game_time_info eastern seoul sys (JDict fields) = Ok tt.
Proof.
  intros Hz. unfold Updater.first_game_time_info.
  rewrite !get_dict. cbn [bind].
  destruct (Updater.format_game_time eastern seoul sys
              (Spec.field fields "game_date" (JStr "")) (JStr "") (JStr ""))
    as [[st|] en] eqn:F; [|reflexivity].
  destruct (format_game_time_start _ _ _ _ _ _ _ _ F) as (dt_utc & kst & V & -> & K).
  assert (N : exists c s, Cal.strftime_ics dt_utc = String c s).
  { unfold Cal.strftime_ics, PyStr.pad4. cbn [append]. eauto. }
  destruct N as (c & s & N). rewrite N, <- N.
  rewrite (strptime_ics_strftime dt_utc V). cbn [bind].
  unfold Cal.astimezone_zone in *. 
  set (naive := Cal.mkdt _ _ _ _ _ _ 0 None).
  assert (W : Cal.wall_us (Cal.utc_localize naive)
              = Cal.wall_us dt_utc / Cal.us_per_second * Cal.us_per_second).
  { destruct V as [_ Vt]. apply valid_time_bounds in Vt.
    unfold Cal.wall_us, Cal.wall_seconds, Cal.utc_localize, Cal.replace_tzinfo, naive.
    cbn [Cal.year Cal.month Cal.day Cal.hour Cal.minute Cal.second Cal.microsecond].
    unfold Cal.us_per_second. zdiv. }
  rewrite W, <- (Hz (Cal.wall_us dt_utc)).
  apply of_wall_us_range in K.
  set (off := Cal.zone_fromutc seoul (Cal.wall_us dt_utc)) in *.
  destruct (of_wall_us_total
              (Cal.wall_us dt_utc / Cal.us_per_second * Cal.us_per_second
               + off * Cal.us_per_second) (Some (Cal.ZoneLocal off))) as [k Hk].
  { unfold Cal.us_per_day, Cal.us_per_second, Cal.MAXORDINAL in *. zdiv. }
  rewrite Hk. reflexivity.
Qed.

(** ** The request and the view model in MLB_API.py *)

(** X18.  When the request of MLB_API.py fails, at whichever step,
    [get_postseason_schedule] returns the empty dict, and the script goes
    on with it: the calendar rendered is the one without events, and
    [save_ics_file] writes it over the output file and reports success. *)
Theorem failed_request_still_writes_an_empty_calendar
    (sys : Z -> option Z) (repr : json -> string) (clock : nat -> Cal.datetime)
    (requests_get : string -> json -> res Maker.http_response)
    (fs : filesys) (output_file : string) :
  Spec.request_fails requests_get ->
  Maker.get_postseason_schedule requests_get = JDict []
  /\ Maker.generate_ics_content sys repr clock (Maker.get_postseason_schedule requests_get)
     = Ok Spec.envelope
  /\ (fs_write fs output_file Spec.envelope = Ok tt ->
      (fs_exists fs (fs_abspath fs output_file) = true ->
       exists size, fs_getsize fs (fs_abspath fs output_file) = Ok size) ->
      Maker.save_ics_file sys repr clock fs output_file
        (Maker.get_postseason_schedule requests_get)
      = Ok true).
Proof.
  intros F.
  assert (E : Maker.get_postseason_schedule requests_get = JDict []).
  { unfold Spec.request_fails in F. unfold Maker.get_postseason_schedule.
    destruct (requests_get _ _) as [response|]; cbn [bind]; [|reflexivity].
    destruct (Maker.raise_for_status response); cbn [bind]; [|reflexivity].
    destruct (Maker.response_json response); [contradiction | reflexivity]. }
  rewrite E. split; [reflexivity|]. split; [reflexivity|].
  intros W S. unfold Maker.save_ics_file, Maker.save_ics_file_try.
  change (Maker.generate_ics_content sys repr clock (JDict [])) with (Ok Spec.envelope).
  cbn [bind]. rewrite W. cbn [bind].
  destruct (fs_exists fs (fs_abspath fs output_file)); [|reflexivity].
  destruct (S eq_refl) as [size ->]. reflexivity.
Qed.

Ltac same_calls :=
  repeat match goal with
         | H1 : ?a = Ok ?x, H2 : ?a = Ok ?y |- _ =>
             tryif constr_eq x y then fail
             else (rewrite H1 in H2; injection H2 as ?; subst)
         end.

Ltac replay :=
  repeat match goal with
         | H : ?a = Ok _ |- context [bind ?a _] => rewrite H; cbn [bind]
         end.

(** X19.  In [makeViewModel] only the summary and the venue can fail: it
    raises what [get_series_name] raises; when [get_series_name] returns,
    the time and the description are built without an error, and the view
    model is built unless the venue of the game is there and is not an
    object. *)
Theorem view_model_fails_only_in_the_summary_or_the_venue
    (sys : Z -> option Z) (repr : json -> string) (game : json) :
  (forall e, Maker.get_series_name repr game = Raise e ->
             Maker.makeViewModel sys repr game = Raise e)
  /\ (forall summary,
         Maker.get_series_name repr game = Ok summary ->
         exists times description,
           Maker.get_game_date_time sys game = Ok times
           /\ Maker.get_description repr game = Ok description
           /\ (Spec.is_dict (Spec.section game "venue") = false ->
               Maker.makeViewModel sys repr game = Raise AttributeError)
           /\ (Spec.is_dict (Spec.section game "venue") = true ->
               exists info,
                 Maker.makeViewModel sys repr game = Ok info
                 /\ Maker.summary info = summary
                 /\ Maker.description info = description
                 /\ (Maker.game_start_time info, Maker.game_end_time info) = times)).
Proof.
  split.
  - intros e H. unfold Maker.makeViewModel. rewrite H. reflexivity.
  - intros summary H.
    assert (D : exists description, Maker.get_description repr game = Ok description).
    { unfold Maker.get_series_name in H.
      do 29 bind_inv H.
      same_calls. unfold Maker.get_description. replay.
      destruct x27; eauto. }
    assert (T : exists times, Maker.get_game_date_time sys game = Ok times).
    { unfold Maker.get_series_name in H.
      do 7 bind_inv H.
      destruct game as [| | | | |fields]; try discriminate E.
      destruct x4 as [| | | | |status]; try discriminate E5.
      apply (get_game_date_time_total sys fields status). exact E4. }
    destruct D as [description D]. destruct T as [times T].
    exists times, description. split; [exact T|]. split; [exact D|].
    assert (G : Spec.is_dict game = true).
    { unfold Maker.get_series_name in H. bind_inv H.
      destruct game; try discriminate E. reflexivity. }
    destruct (get_any_default game "gamePk" (JStr "") G) as [pk Hpk].
    unfold Maker.makeViewModel. rewrite H, T, D. cbn [bind]. rewrite Hpk. cbn [bind].
    unfold Maker.empty_dict. rewrite (get_section game "venue" G). cbn [bind].
    split.
    + intros V. rewrite (get_not_dict _ _ _ V). reflexivity.
    + intros V. destruct (get_any_default _ "name" (JStr "TBD") V) as [loc ->].
      cbn [bind]. eexists. split; [reflexivity|].
      cbn [Maker.summary Maker.description Maker.game_start_time Maker.game_end_time].
      destruct times. repeat split.
Qed.

(** ** The further properties on sample inputs *)

(** The texts of the timestamps used below. *)
Example timestamp_texts :
  Spec.iso_z 2025 10 15 23 8 0 = "2025-10-15T23:08:00Z"
  /\ Spec.iso_naive 2025 10 24 7 33 0 = "2025-10-24T07:33:00"
  /\ Spec.iso_offset 2025 10 24 3 33 0 true 4 0 = "2025-10-24T03:33:00-04:00"
  /\ Spec.iso_offset 2025 10 15 23 8 0 false 0 0 = "2025-10-15T23:08:00+00:00"
  /\ Spec.iso_date 2025 11 2 = "2025-11-02"
  /\ Spec.ics_text 2025 10 15 23 8 0 = "20251015T230800Z"
  /\ Spec.stamp (Spec.seconds_of 2025 10 15 23 8 0 + 12600) = "20251016T023800Z"
  /\ Spec.postseason_days
     = [ "09/30/2025"; "10/01/2025"; "10/02/2025"; "10/03/2025"; "10/04/2025";
         "10/05/2025"; "10/06/2025"; "10/07/2025"; "10/08/2025"; "10/09/2025";
         "10/10/2025"; "10/11/2025"; "10/12/2025"; "10/13/2025"; "10/14/2025";
         "10/15/2025"; "10/16/2025"; "10/17/2025"; "10/18/2025"; "10/19/2025";
         "10/20/2025"; "10/21/2025"; "10/22/2025"; "10/23/2025"; "10/24/2025";
         "10/25/2025"; "10/26/2025"; "10/27/2025"; "10/28/2025"; "10/29/2025";
         "10/30/2025"; "10/31/2025"; "11/01/2025"; "11/02/2025" ]
  /\ Updater.schedule_params
     = JDict [ ("sportId", JInt 1); ("startDate", JStr "2025-09-30");
               ("endDate", JStr "2025-11-02"); ("gameType", JStr "F,D,L,W") ].
Proof. repeat split; vm_compute; reflexivity. Qed.

Lemma Asia_Seoul_whole_seconds : Spec.whole_second_zone Sample.Asia_Seoul.
Proof. intros x. reflexivity. Qed.

(** Witness of X3: a finished game, and one that is scheduled. *)
Lemma finished_games_and_only_they_get_the_check_mark_witness :
  prefix "✓ " "✓ ALCS 1: Seattle 3 @ Toronto 1" = true
  /\ prefix "✓ " "ALCS 1: Seattle @ Boston" = false.
Proof.
  split.
  - apply (finished_games_and_only_they_get_the_check_mark Sample.repr_stub
             Sample.final_game "✓ ALCS 1: Seattle 3 @ Toronto 1").
    vm_compute. reflexivity.
  - reflexivity.
Defined.








(** Witness of X11: a Wild Card game on 1 October, a failed request on
    2 October, an answer cut short on 3 October. *)
Lemma postseason_schedule_asks_each_day_once_witness :
  Updater.get_postseason_schedule Sample.statsapi_schedule 35
  = Some (Ok [ Sample.wild_card_game; Sample.wild_card_game ]).
Proof.
  apply (postseason_schedule_asks_each_day_once Sample.statsapi_schedule 35).
  lia.
Defined.

(** Witness of X12: a raw game without teams, and one whose teams are a
    text. *)
Lemma parse_game_data_drops_only_ill_nested_games_witness :
  Updater.parse_game_data Sample.repr_stub Sample.ill_nested_game = None
  /\ exists fields info,
       JDict Sample.raw_game = JDict fields
       /\ Updater.parse_game_data Sample.repr_stub (JDict Sample.raw_game)
          = Some (JDict info)
       /\ map fst (firstn 13 info) = Spec.record_keys
       /\ Spec.field info "game_date" JNull = Spec.field fields "gameDate" (JStr "")
       /\ Spec.field info "game_datetime" JNull = Spec.field fields "gameDate" (JStr "")
       /\ Py.truthy (JDict info) = true.
Proof.
  split.
  - apply (proj1 (parse_game_data_drops_only_ill_nested_games Sample.repr_stub
                    Sample.ill_nested_game)).
    reflexivity.
  - apply (proj2 (parse_game_data_drops_only_ill_nested_games Sample.repr_stub
                    (JDict Sample.raw_game))).
    reflexivity.
Defined.

(** Witness of X13: a schedule of those two raw games. *)
Lemma alternative_schedule_keeps_the_games_it_can_parse_witness :
  List.length (Updater.get_alternative_schedule Sample.repr_stub Sample.statsapi_get)
  = 1%nat
  /\ Updater.get_alternative_schedule Sample.repr_stub Sample.statsapi_get
     = Spec.parsed_games Sample.repr_stub [ JDict Sample.raw_game; Sample.ill_nested_game ].
Proof.
  split; [vm_compute; reflexivity|].
  apply (proj1 (alternative_schedule_keeps_the_games_it_can_parse Sample.repr_stub
                  Sample.statsapi_get)
           (JDict []) [ [ JDict Sample.raw_game; Sample.ill_nested_game ] ]).
  - reflexivity.
  - reflexivity.
Defined.


(** Witness of X16: 15 October 2025. *)
Lemma script_runs_from_28_september_to_3_november_witness :
  let today := Cal.mkdt 2025 10 15 9 0 0 0 None in
  (Updater.in_postseason_period today = true
   <-> Cal.ymd2ord 2025 9 28 <= Cal.ymd2ord 2025 10 15 <= Cal.ymd2ord 2025 11 3)
  /\ (Cal.le_naive Updater.postseason_start today = true ->
      Cal.le_naive today Updater.postseason_end = true ->
      Updater.in_postseason_period today = true).
Proof.
  intros today.
  apply (script_runs_from_28_september_to_3_november today).
  split; reflexivity.
Defined.

(** Witness of X17: a first game of 2025-10-15T23:08:00Z. *)
Lemma first_game_time_info_never_raises_witness :
  Updater.first_game_time_info Cal.US_Eastern Sample.Asia_Seoul Sample.utc_machine
    (JDict [ ("game_date", JStr "2025-10-15T23:08:00Z") ])
  = Ok tt.
Proof.
  apply (first_game_time_info_never_raises Cal.US_Eastern Sample.Asia_Seoul
           Sample.utc_machine [ ("game_date", JStr "2025-10-15T23:08:00Z") ]).
  exact Asia_Seoul_whole_seconds.
Defined.

(** Witness of X18: a request that fails, on a file system that takes
    every write. *)
Lemma failed_request_still_writes_an_empty_calendar_witness :
  Maker.get_postseason_schedule Sample.failing_request = JDict []
  /\ Maker.generate_ics_content Sample.utc_machine Sample.repr_stub Sample.ticking
       (Maker.get_postseason_schedule Sample.failing_request)
     = Ok Spec.envelope
  /\ Maker.save_ics_file Sample.utc_machine Sample.repr_stub Sample.ticking
       Sample.writable_fs "public/mlb_postseason_2025.ics"
       (Maker.get_postseason_schedule Sample.failing_request)
     = Ok true.
Proof.
  destruct (failed_request_still_writes_an_empty_calendar Sample.utc_machine
              Sample.repr_stub Sample.ticking Sample.failing_request Sample.writable_fs
              "public/mlb_postseason_2025.ics" I) as (A & B & C).
  split; [exact A|]. split; [exact B|].
  apply C.
  - reflexivity.
  - intros _. exists 0. reflexivity.
Defined.

(** Witness of X19: the game of the worked example, which has no venue. *)
Lemma view_model_fails_only_in_the_summary_or_the_venue_witness :
  exists times description,
    Maker.get_game_date_time Sample.utc_machine (Sample.seattle_at_detroit []) = Ok times
    /\ Maker.get_description Sample.repr_stub (Sample.seattle_at_detroit [])
       = Ok description
    /\ (Spec.is_dict (Spec.section (Sample.seattle_at_detroit []) "venue") = false ->
        Maker.makeViewModel Sample.utc_machine Sample.repr_stub (Sample.seattle_at_detroit [])
        = Raise AttributeError)
    /\ (Spec.is_dict (Spec.section (Sample.seattle_at_detroit []) "venue") = true ->
        exists info,
          Maker.makeViewModel Sample.utc_machine Sample.repr_stub
            (Sample.seattle_at_detroit [])
          = Ok info
          /\ Maker.summary info = "ALDS3 Seattle - Detroit"
          /\ Maker.description info = description
          /\ (Maker.game_start_time info, Maker.game_end_time info) = times).
Proof.
  apply (proj2 (view_model_fails_only_in_the_summary_or_the_venue Sample.utc_machine
                  Sample.repr_stub (Sample.seattle_at_detroit []))
           "ALDS3 Seattle - Detroit").
  vm_compute. reflexivity.
Defined.

(** ** Runs that write no calendar in MLB_PostSeason.py *)

Lemma games_of_failed_days
    (statsapi_schedule : string -> string -> res (list json)) (days : list string) :
  (forall day, In day days -> is_ok (statsapi_schedule day day) = false) ->
  List.concat (map (fun day => Spec.games_of_day (statsapi_schedule day day)) days) = [].
Proof.
  induction days as [|day days IH]; intros H; cbn [map List.concat]; [reflexivity|].
  rewrite IH by (intros d Hd; apply H; right; exact Hd).
  destruct (is_ok_false _ (H day (or_introl eq_refl))) as [e ->]. reflexivity.
Qed.

(** X20.  When the request of every day fails and the season request
    fails, both schedules are empty, and [update_ics_file] returns without
    writing: the outcome does not depend on the file system, and the
    calendar of an earlier run stays as it is. *)
Theorem nothing_is_written_when_every_request_fails
    (eastern seoul : Cal.zone) (sys : Z -> option Z) (repr : json -> string)
    (clock : nat -> Cal.datetime)
    (statsapi_schedule : string -> string -> res (list json))
    (statsapi_get : string -> json -> res json) (fuel : nat) :
  (35 <= fuel)%nat ->
  (forall day, In day Spec.postseason_days -> is_ok (statsapi_schedule day day) = false) ->
  is_ok (statsapi_get "season" Updater.season_params) = false ->
  Updater.get_postseason_schedule statsapi_schedule fuel = Some (Ok [])
  /\ Updater.get_alternative_schedule repr statsapi_get = []
  /\ forall fs output_file schedule,
       Updater.get_postseason_schedule statsapi_schedule fuel = Some (Ok schedule) ->
       Updater.update_ics_file eastern seoul sys repr clock fs output_file schedule
         (Updater.get_alternative_schedule repr statsapi_get)
       = Ok tt.
Proof.
  intros Hf Hd Hs.
  assert (A : Updater.get_postseason_schedule statsapi_schedule fuel = Some (Ok [])).
  { rewrite (get_postseason_schedule_days statsapi_schedule fuel Hf).
    rewrite (games_of_failed_days statsapi_schedule _ Hd). reflexivity. }
  assert (B : Updater.get_alternative_schedule repr statsapi_get = []).
  { unfold Updater.get_alternative_schedule.
    destruct (is_ok_false _ Hs) as [e ->]. reflexivity. }
  split; [exact A|]. split; [exact B|].
  intros fs output_file schedule H. rewrite A in H. injection H as <-.
  rewrite B. reflexivity.
Qed.

(** X21.  A game whose time resolves and whose away or home name is a text
    without a word, the empty text for one, ends the rendering of
    MLB_PostSeason.py with IndexError, whatever games come after it: no
    calendar is produced. *)
Theorem blank_team_name_ends_the_rendering
    (eastern seoul : Cal.zone) (sys : Z -> option Z) (repr : json -> string)
    (clock : nat -> Cal.datetime) (pre post : list json)
    (fields : list (string * json)) (away home : string) :
  is_ok (Updater.render_games eastern seoul sys repr clock pre (ics_header, O)) = true ->
  Py.truthy (Spec.updater_timestamp fields) = true ->
  Spec.field fields "away_name" (JStr "TBD") = JStr away ->
  Spec.field fields "home_name" (JStr "TBD") = JStr home ->
  Updater.format_game_time eastern seoul sys (Spec.updater_timestamp fields)
    (JStr away) (JStr home) <> (None, None) ->
  PyStr.split_ws away = [] \/ PyStr.split_ws home = [] ->
  Updater.generate_ics_content eastern seoul sys repr clock (pre ++ JDict fields :: post)
  = Raise IndexError.
Proof.
  intros Hpre Ht Ha Hh Hf Hb.
  unfold Updater.generate_ics_content, Updater.generate_ics_lines.
  rewrite updater_render_games_app.
  destruct (is_ok_true _ Hpre) as [[l k] ->]. cbn [bind Updater.render_games].
  assert (R : Updater.render_game eastern seoul sys repr clock (JDict fields) (l, k)
              = Raise IndexError).
  { unfold Updater.render_game. rewrite !get_dict. cbn [bind].
    assert (E : (if Py.truthy (Spec.field fields "game_datetime" JNull)
                 then Ok (Spec.field fields "game_datetime" JNull)
                 else Ok (Spec.field fields "game_date" JNull))
                = Ok (Spec.updater_timestamp fields)).
    { unfold Spec.updater_timestamp. cbv zeta.
      destruct (Py.truthy (Spec.field fields "game_datetime" JNull)); reflexivity. }
    rewrite E. cbn [bind]. rewrite Ht, Ha, Hh. cbn [negb].
    destruct (format_game_time_spec eastern seoul sys (Spec.updater_timestamp fields)
                (JStr away) (JStr home)) as [N | (st & en & u & T & S1 & _)];
      [contradiction|].
    rewrite T. destruct st as [|c st]; [discriminate S1|].
    cbn [bind]. unfold Updater.create_event_summary.
    rewrite !get_dict. cbn [bind]. rewrite Ha, Hh.
    destruct (get_team_location_cases away) as [[_ ->] | [Na (sa & -> & _)]];
      [reflexivity|].
    cbn [bind].
    destruct (get_team_location_cases home) as [[_ ->] | [Nh _]]; [reflexivity|].
    destruct Hb; contradiction. }
  rewrite R. reflexivity.
Qed.

Lemma scan_ymd_text y m d rest :
  0 <= y <= 9999 -> 0 <= m <= 99 -> 0 <= d <= 99 ->
  Cal.scan_ymd (PyStr.pad4 y ++ "-" ++ PyStr.pad2 m ++ "-" ++ PyStr.pad2 d ++ rest)
  = Some (y, m, d, rest).
Proof.
  intros Hy Hm Hd. unfold Cal.scan_ymd.
  rewrite read_digits_pad4 by lia.
  cbn [Cal.obind append PyStr.expect_ci]. rewrite Ascii.eqb_refl. cbn [Cal.obind].
  rewrite read_num2_pad2 by lia.
  cbn [Cal.obind append PyStr.expect_ci]. rewrite Ascii.eqb_refl. cbn [Cal.obind].
  rewrite read_day_pad2 by lia. reflexivity.
Qed.

Lemma scan_hms_without_z hh mi ss tail :
  0 <= hh <= 99 -> 0 <= mi <= 99 -> 0 <= ss <= 99 ->
  PyStr.expect_ci "Z" tail = None ->
  Cal.scan_hms_z ("T" ++ PyStr.pad2 hh ++ ":" ++ PyStr.pad2 mi ++ ":" ++ PyStr.pad2 ss ++ tail)
  = None.
Proof.
  intros Hh Hm Hs Ht. unfold Cal.scan_hms_z.
  cbn [Cal.obind append PyStr.expect_ci]. rewrite Ascii.eqb_refl. cbn [Cal.obind].
  rewrite read_num2_pad2 by lia.
  cbn [Cal.obind append PyStr.expect_ci]. rewrite Ascii.eqb_refl. cbn [Cal.obind].
  rewrite read_num2_pad2 by lia.
  cbn [Cal.obind append PyStr.expect_ci]. rewrite Ascii.eqb_refl. cbn [Cal.obind].
  rewrite read_num2_pad2 by lia. cbn [Cal.obind]. rewrite Ht. reflexivity.
Qed.

(** The format [%Y-%m-%dT%H:%M:%SZ] reads none of the other shapes. *)
Lemma strptime_z_other_shapes y m d hh mi ss (west : bool) oh om :
  Cal.valid_date y m d = true -> Cal.valid_time hh mi ss 0 = true ->
  Cal.strptime_z (Spec.iso_date y m d) = Raise ValueError
  /\ Cal.strptime_z (Spec.iso_naive y m d hh mi ss) = Raise ValueError
  /\ Cal.strptime_z (Spec.iso_offset y m d hh mi ss west oh om) = Raise ValueError.
Proof.
  intros Vd Vt.
  pose proof (valid_date_bounds _ _ _ Vd) as (By & Bm & Bd & Bd').
  pose proof (valid_time_bounds _ _ _ _ Vt) as (Bh & Bmi & Bs & _).
  unfold Cal.strptime_z. repeat split.
  - unfold Spec.iso_date. change (PyStr.pad2 d) with (PyStr.pad2 d ++ "").
    rewrite scan_ymd_text by lia. reflexivity.
  - unfold Spec.iso_naive. change (PyStr.pad2 ss) with (PyStr.pad2 ss ++ "").
    rewrite scan_ymd_text by lia.
    rewrite scan_hms_without_z by (lia || reflexivity). reflexivity.
  - unfold Spec.iso_offset, Spec.iso_naive. rewrite !append_assoc.
    rewrite scan_ymd_text by lia.
    rewrite scan_hms_without_z by (lia || (destruct west; reflexivity)). reflexivity.
Qed.

(** X22.  With a placeholder (TBD, Winner, Lower, Higher) in a team name,
    the resolver of MLB_PostSeason.py gives no time for any bare date, any
    timestamp without offset and any timestamp with an offset: only the
    Z form is read in that branch. *)
Theorem placeholder_team_resolves_only_the_z_form
    (eastern seoul : Cal.zone) (sys : Z -> option Z) (away home : string)
    (y m d hh mi ss : Z) (west : bool) (oh om : Z) :
  Py.any_in Updater.keywords (JStr away) = Ok true
  \/ Py.any_in Updater.keywords (JStr home) = Ok true ->
  Cal.valid_date y m d = true -> Cal.valid_time hh mi ss 0 = true ->
  Updater.format_game_time eastern seoul sys (JStr (Spec.iso_date y m d))
    (JStr away) (JStr home) = (None, None)
  /\ Updater.format_game_time eastern seoul sys (JStr (Spec.iso_naive y m d hh mi ss))
       (JStr away) (JStr home) = (None, None)
  /\ Updater.format_game_time eastern seoul sys
       (JStr (Spec.iso_offset y m d hh mi ss west oh om))
       (JStr away) (JStr home) = (None, None).
Proof.
  intros K Vd Vt.
  destruct (strptime_z_other_shapes y m d hh mi ss west oh om Vd Vt) as (A & B & C).
  repeat split; eapply placeholder_team_needs_z_form; eassumption.
Qed.

(** Witness of X20: no request succeeds, on a file system that refuses
    every write. *)
Lemma nothing_is_written_when_every_request_fails_witness :
  Updater.get_postseason_schedule (fun _ _ => Raise OSError) 35 = Some (Ok [])
  /\ Updater.update_ics_file Cal.US_Eastern Sample.Asia_Seoul Sample.utc_machine
       Sample.repr_stub Sample.ticking Sample.read_only_fs "public/mlb_postseason_2025.ics"
       []
       (Updater.get_alternative_schedule Sample.repr_stub (fun _ _ => Raise OSError))
     = Ok tt.
Proof.
  destruct (nothing_is_written_when_every_request_fails Cal.US_Eastern Sample.Asia_Seoul
              Sample.utc_machine Sample.repr_stub Sample.ticking
              (fun _ _ => Raise OSError) (fun _ _ => Raise OSError) 35
              ltac:(lia) (fun _ _ => eq_refl) eq_refl) as (A & _ & C).
  split; [exact A|].
  apply (C Sample.read_only_fs "public/mlb_postseason_2025.ics" [] A).
Defined.

(** Witness of X21: a scheduled game whose home name is empty, after a
    finished game. *)
Lemma blank_team_name_ends_the_rendering_witness :
  Updater.generate_ics_content Cal.US_Eastern Sample.Asia_Seoul Sample.utc_machine
    Sample.repr_stub Sample.ticking
    [ JDict Sample.final_game;
      JDict [ ("game_datetime", JStr "2025-10-22T00:08:00Z");
              ("away_name", JStr "Seattle Mariners");
              ("home_name", JStr "") ];
      JDict Sample.final_game ]
  = Raise IndexError.
Proof.
  apply (blank_team_name_ends_the_rendering Cal.US_Eastern Sample.Asia_Seoul
           Sample.utc_machine Sample.repr_stub Sample.ticking
           [ JDict Sample.final_game ] [ JDict Sample.final_game ]
           [ ("game_datetime", JStr "2025-10-22T00:08:00Z");
             ("away_name", JStr "Seattle Mariners");
             ("home_name", JStr "") ]
           "Seattle Mariners" "").
  - vm_compute. reflexivity.
  - reflexivity.
  - reflexivity.
  - reflexivity.
  - vm_compute. discriminate.
  - right. reflexivity.
Defined.

(** Witness of X22: TBD at Boston on 20 October 2025. *)
Lemma placeholder_team_resolves_only_the_z_form_witness :
  let resolve :=
    Updater.format_game_time Cal.US_Eastern Sample.Asia_Seoul Sample.utc_machine in
  resolve (JStr "2025-10-20") (JStr "TBD") (JStr "Boston Red Sox") = (None, None)
  /\ resolve (JStr "2025-10-20T17:08:00") (JStr "TBD") (JStr "Boston Red Sox") = (None, None)
  /\ resolve (JStr "2025-10-20T17:08:00-04:00") (JStr "TBD") (JStr "Boston Red Sox")
     = (None, None).
Proof.
  intros resolve.
  apply (placeholder_team_resolves_only_the_z_form Cal.US_Eastern Sample.Asia_Seoul
           Sample.utc_machine "TBD" "Boston Red Sox" 2025 10 20 17 8 0 true 4 0).
  - left. reflexivity.
  - reflexivity.
  - reflexivity.
Defined.

(** ** The text of a calendar *)

Lemma lines_no_newline s : Spec.no_newline s = true -> PyStr.lines s = [ s ].
Proof. intros H. unfold PyStr.lines. rewrite (lines_from_no_newline "" s H). reflexivity. Qed.

Lemma flat_map_lines_single lines :
  Forall (fun line => Spec.no_newline line = true) lines ->
  flat_map PyStr.lines lines = lines.
Proof.
  induction 1 as [|line lines H _ IH]; cbn [flat_map]; [reflexivity|].
  rewrite (lines_no_newline line H), IH. reflexivity.
Qed.

Lemma joined_text_lines lines :
  lines <> [] ->
  PyStr.lines (PyStr.join PyStr.newline lines) = flat_map PyStr.lines lines
  /\ (Forall (fun line => Spec.no_newline line = true) lines ->
      PyStr.lines (PyStr.join PyStr.newline lines) = lines).
Proof.
  intros N. pose proof (lines_join_nonempty lines N) as L.
  split; [exact L|]. intros F. rewrite L. apply flat_map_lines_single. exact F.
Qed.

(** X23.  Neither script escapes what it writes.  The text of a calendar,
    split at its line feeds, is the header, the lines of the events and the
    footer, each split at the line feeds it holds itself: a line feed in a
    summary, a location or a description starts a new line of the calendar.
    When no line holds one, the text has exactly those lines. *)
Theorem calendar_text_is_its_lines_unescaped
    (eastern seoul : Cal.zone) (sys : Z -> option Z) (repr : json -> string)
    (clock : nat -> Cal.datetime) :
  (forall games text,
      Updater.generate_ics_content eastern seoul sys repr clock games = Ok text ->
      exists lines,
        Updater.generate_ics_lines eastern seoul sys repr clock games = Ok lines
        /\ PyStr.lines text = flat_map PyStr.lines lines
        /\ (Forall (fun line => Spec.no_newline line = true) lines ->
            PyStr.lines text = lines))
  /\ (forall games_data text,
         Maker.generate_ics_content sys repr clock games_data = Ok text ->
         exists lines,
           Maker.generate_ics_lines sys repr clock games_data = Ok lines
           /\ PyStr.lines text = flat_map PyStr.lines lines
           /\ (Forall (fun line => Spec.no_newline line = true) lines ->
               PyStr.lines text = lines)).
Proof.
  split.
  - intros games text H. unfold Updater.generate_ics_content in H.
    bind_inv H. injection H as <-. exists x. split; [exact E|].
    apply joined_text_lines.
    unfold Updater.generate_ics_lines in E. bind_inv E. injection E as <-.
    intros N. apply app_eq_nil in N. destruct N as [_ N]. discriminate N.
  - intros games_data text H. unfold Maker.generate_ics_content in H.
    bind_inv H. injection H as <-. exists x. split; [exact E|].
    apply joined_text_lines.
    unfold Maker.generate_ics_lines in E. do 3 bind_inv E. injection E as <-.
    intros N. apply app_eq_nil in N. destruct N as [_ N]. discriminate N.
Qed.

(** Witness of X23: a venue with a line feed in its name. *)
Lemma calendar_text_is_its_lines_unescaped_witness :
  let game :=
    JDict [ ("game_datetime", JStr "2025-10-22T00:08:00Z");
            ("away_name", JStr "Seattle Mariners");
            ("home_name", JStr "Toronto Blue Jays");
            ("venue_name", JStr ("Rogers Centre" ++ PyStr.newline ++ "END:VCALENDAR")) ] in
  exists text lines,
    Updater.generate_ics_content Cal.US_Eastern Sample.Asia_Seoul Sample.utc_machine
      Sample.repr_stub Sample.ticking [ game ] = Ok text
    /\ List.length lines = 21%nat
    /\ List.length (PyStr.lines text) = 23%nat
    /\ PyStr.lines text = flat_map PyStr.lines lines.
Proof.
  intros game.
  destruct (Updater.generate_ics_content Cal.US_Eastern Sample.Asia_Seoul
              Sample.utc_machine Sample.repr_stub Sample.ticking [ game ])
    as [text|] eqn:H; [|vm_compute in H; discriminate H].
  destruct (proj1 (calendar_text_is_its_lines_unescaped Cal.US_Eastern Sample.Asia_Seoul
                     Sample.utc_machine Sample.repr_stub Sample.ticking)
              [ game ] text H) as (lines & L & S & _).
  exists text, lines. split; [reflexivity|].
  vm_compute in H. injection H as <-.
  vm_compute in L. injection L as <-.
  split; [reflexivity|]. split; [vm_compute; reflexivity | exact S].
Defined.
